(** * Data_Catalog_RAG: the text-to-Cypher pipeline and the lineage traversal

    A shallow embedding of [backend_api.py], [app.py], [src/agent.py],
    [src/neo4j_setup.py] and [src/nasa_cmr_catalog_poc.py].  Python strings are modelled as [string], a
    character standing for the code point of its number (0 to 255); the
    graph store and the language-model service are black boxes whose
    answers are read from a [world] value, and every interaction with them
    is recorded in an event history, so that statements such as "no session
    is opened" or "the session is released" are statements about that
    history. *)

From Stdlib Require Import String Ascii List Bool Arith ZArith Lia.
From Stdlib Require Import DecimalString.
Import ListNotations.
Open Scope string_scope.

(** ** Python string operations *)

Module PyStr.

(** [c.isspace()], which is also what [strip] removes: among the code
    points below 256 these are TAB, LF, VT, FF, CR, FS, GS, RS, US, the
    space, NEL (133) and the no-break space (160). *)
Definition is_space (c : ascii) : bool :=
  let n := nat_of_ascii c in
  ((9 <=? n) && (n <=? 13) || (28 <=? n) && (n <=? 32)
   || (n =? 133) || (n =? 160))%nat.

(** The letters a to z and A to Z, and the digits. *)
Definition is_lower (c : ascii) : bool :=
  let n := nat_of_ascii c in ((97 <=? n) && (n <=? 122))%nat.

Definition is_upper (c : ascii) : bool :=
  let n := nat_of_ascii c in ((65 <=? n) && (n <=? 90))%nat.

Definition is_digit (c : ascii) : bool :=
  let n := nat_of_ascii c in ((48 <=? n) && (n <=? 57))%nat.

(** The accented letters: capitals at 192 to 222 and small letters at 224
    to 254, 32 apart, the signs at 215 and 247 left out. *)
Definition is_upper_accented (c : ascii) : bool :=
  let n := nat_of_ascii c in
  ((192 <=? n) && (n <=? 222) && negb (n =? 215))%nat.

Definition is_lower_accented (c : ascii) : bool :=
  let n := nat_of_ascii c in
  ((224 <=? n) && (n <=? 254) && negb (n =? 247))%nat.

(** The lower case of a character. *)
Definition lower_char (c : ascii) : ascii :=
  if is_upper c || is_upper_accented c
  then ascii_of_nat (nat_of_ascii c + 32) else c.

(** The code points of a text. *)
Definition points (s : string) : list nat :=
  map nat_of_ascii (list_ascii_of_string s).

(** The upper case of a character, as code points: the sharp s (223)
    becomes two letters, and the upper case of the micro sign (181) and of
    y with diaeresis (255) lies above 255. *)
Definition upper_char (c : ascii) : list nat :=
  let n := nat_of_ascii c in
  if is_lower c || is_lower_accented c then [n - 32]
  else if (n =? 223)%nat then [83; 83]
  else if (n =? 181)%nat then [924]
  else if (n =? 255)%nat then [376]
  else [n].

(** The title case of a character, as a text: the sharp s becomes [Ss].
    The title case of the micro sign and of y with diaeresis is their upper
    case, which cannot be written in a [string]: these two characters are
    left as they are. *)
Definition title_char (c : ascii) : string :=
  if is_lower c || is_lower_accented c
  then String (ascii_of_nat (nat_of_ascii c - 32)) EmptyString
  else if (nat_of_ascii c =? 223)%nat then "Ss"
  else String c EmptyString.

Fixpoint map_chars (f : ascii -> ascii) (s : string) : string :=
  match s with
  | EmptyString => EmptyString
  | String c s' => String (f c) (map_chars f s')
  end.

(** [s.upper()], as code points, and [s.lower()] *)
Fixpoint upper (s : string) : list nat :=
  match s with
  | EmptyString => []
  | String c s' => (upper_char c ++ upper s')%list
  end.

Definition lower (s : string) : string := map_chars lower_char s.

(** [t.startswith(p)] and [t == p] for a text [t] given by its code
    points *)
Fixpoint points_startswith (t p : list nat) {struct p} : bool :=
  match p with
  | [] => true
  | a :: p' =>
      match t with
      | [] => false
      | b :: t' => Nat.eqb a b && points_startswith t' p'
      end
  end.

Fixpoint points_eqb (t p : list nat) : bool :=
  match t, p with
  | [], [] => true
  | b :: t', a :: p' => Nat.eqb a b && points_eqb t' p'
  | _, _ => false
  end.

(** [s.capitalize()]: the first character in title case, the rest in lower
    case. *)
Definition capitalize (s : string) : string :=
  match s with
  | EmptyString => EmptyString
  | String c s' => title_char c ++ lower s'
  end.

Fixpoint rev_onto (s acc : string) : string :=
  match s with
  | EmptyString => acc
  | String c s' => rev_onto s' (String c acc)
  end.

Definition rev (s : string) : string := rev_onto s EmptyString.

(** [s.startswith(p)] *)
Fixpoint startswith (s p : string) {struct p} : bool :=
  match p with
  | EmptyString => true
  | String a p' =>
      match s with
      | EmptyString => false
      | String b s' => Ascii.eqb a b && startswith s' p'
      end
  end.

(** [s.endswith(p)] *)
Definition endswith (s p : string) : bool := startswith (rev s) (rev p).

(** [sub in s] *)
Fixpoint contains (s sub : string) : bool :=
  startswith s sub ||
  match s with
  | EmptyString => false
  | String _ s' => contains s' sub
  end.

(** [s.lstrip()], [s.rstrip()], [s.strip()] *)
Fixpoint lstrip (s : string) : string :=
  match s with
  | EmptyString => EmptyString
  | String c s' => if is_space c then lstrip s' else s
  end.

Definition rstrip (s : string) : string := rev (lstrip (rev s)).

Definition strip (s : string) : string := rstrip (lstrip s).

(** [s.split(sep)] for a non-empty separator: the pieces between the
    left-to-right, non-overlapping occurrences of [sep].  [skip] counts the
    characters of a matched separator that are still to be passed over and
    [cur] is the piece being built. *)
Fixpoint split_go (sep : string) (skip : nat) (cur : string) (s : string)
  : list string :=
  match s with
  | EmptyString => [cur]
  | String c s' =>
      match skip with
      | S k => split_go sep k cur s'
      | O =>
          if startswith s sep
          then cur :: split_go sep (String.length sep - 1) EmptyString s'
          else split_go sep 0 (cur ++ String c EmptyString) s'
      end
  end.

Definition split (s sep : string) : list string := split_go sep 0 EmptyString s.

(** [sep.join(parts)] *)
Fixpoint join (sep : string) (parts : list string) : string :=
  match parts with
  | [] => EmptyString
  | [p] => p
  | p :: ps => p ++ sep ++ join sep ps
  end.

(** [s.replace(old, new)] for a non-empty [old] *)
Definition replace (s old new : string) : string := join new (split s old).

(** [s[:-1]] *)
Fixpoint drop_last (s : string) : string :=
  match s with
  | EmptyString => EmptyString
  | String c EmptyString => EmptyString
  | String c s' => String c (drop_last s')
  end.

(** [s.rfind(c)] for a single character, as the text before and after the
    last occurrence. *)
Fixpoint rsplit_char (c : ascii) (s : string) : option (string * string) :=
  match s with
  | EmptyString => None
  | String a s' =>
      match rsplit_char c s' with
      | Some (l, r) => Some (String a l, r)
      | None => if Ascii.eqb a c then Some (EmptyString, s') else None
      end
  end.

(** [str(n)] for a non-negative integer *)
Definition str_nat (n : nat) : string := NilZero.string_of_uint (Nat.to_uint n).

(** [str(z)] for an integer *)
Definition str_int (z : Z) : string := NilZero.string_of_int (Z.to_int z).

End PyStr.

(** ** The outside world: graph store, language-model service, effects *)

Module Eff.

(** Values found in the records the graph store returns. *)
#[warnings="-register-all"]
Inductive value : Type :=
| VNone
| VBool (b : bool)
| VInt (z : Z)
| VStr (s : string)
| VList (items : list value)
| VMap (entries : list (string * value))
| VNode (properties : list (string * value))
| VRel (properties start_node end_node : list (string * value)).

(** [type(v).__name__] *)
Definition type_name (v : value) : string :=
  match v with
  | VNone => "NoneType"
  | VBool _ => "bool"
  | VInt _ => "int"
  | VStr _ => "str"
  | VList _ => "list"
  | VMap _ => "dict"
  | VNode _ => "Node"
  | VRel _ _ _ => "Relationship"
  end.

(** The fields of a mapping: the entries of a dict, or the properties of a
    node or of a relationship of the graph.  These are the values that have
    [keys], [get] and a subscript by name. *)
Definition fields_of (v : value) : option (list (string * value)) :=
  match v with
  | VMap entries => Some entries
  | VNode properties => Some properties
  | VRel properties _ _ => Some properties
  | _ => None
  end.

(** A record of a result, and the plain [dict] made from it. *)
Definition record : Type := list (string * value).
Definition dict (r : record) : list (string * value) := r.

(** Exceptions, by what [str(e)] shows of them.  [ValidationError] stands
    for a value refused by a declared type or constraint (of a response
    model or of a request parameter); [HTTPException] is the framework's and
    prints as its status code, a colon and its detail. *)
Inductive exn : Type :=
| Error (msg : string)
| ValidationError (msg : string)
| HTTPException (status_code : nat) (detail : string).

Definition str_exn (e : exn) : string :=
  match e with
  | Error msg => msg
  | ValidationError msg => msg
  | HTTPException code detail => PyStr.str_nat code ++ ": " ++ detail
  end.

(** The error of reading an attribute a value does not have. *)
Definition has_no_attribute (v : value) (attr : string) : exn :=
  Error ("'" ++ type_name v ++ "' object has no attribute '" ++ attr ++ "'").

(** Sequencing of pure steps that may raise. *)
Definition and_then {A B} (r : exn + A) (f : A -> exn + B) : exn + B :=
  match r with
  | inl e => inl e
  | inr a => f a
  end.

(** What a run leaves behind, in order. *)
Inductive event : Type :=
| DriverOpen
| DriverClose
| SessionOpen
| SessionClose
| Run (query : string) (params : list (string * value))
| ModelPost (prompt : string)
| ModelChat (system user : string)
| Print (line : string).

(** The result of [session.run]: the records that arrive, and the failure
    (if any) that interrupts the statement after them.  A statement the
    store refuses outright has no records and a failure. *)
Record cursor : Type := { fetched : list record; failure : option string }.

(** The body of an HTTP reply of the model service: [r.json()] raises, or
    gives a document with its [choices[0].message.content] (or the error of
    looking that up) and its [str()]. *)
Inductive response_json : Type :=
| JsonInvalid (cause : string)
| JsonReply (content : string + string) (repr : string).

Record http_response : Type :=
  { status_code : nat; text : string; json : response_json }.

(** Everything the program reads from outside.  Answers may depend on the
    history so far, so the store and the service may be stateful. *)
Record world : Type := {
  OPENAI_API_KEY : option string;
  session_failure : list event -> option string;
  store : list event -> string -> list (string * value) -> cursor;
  requests_post : list event -> string -> string + http_response;
  chat_create : list event -> string -> string -> string + option string;
  now_isoformat : list event -> string;
  glob_glob : list event -> string -> list string;
  json_load : list event -> string -> string + value;
  repr_value : value -> string
}.

(** [not OPENAI_API_KEY]: unset, or set to the empty string. *)
Definition not_set (k : option string) : bool :=
  match k with
  | None => true
  | Some EmptyString => true
  | Some _ => false
  end.

(** Computations: a history in, a longer history and a result or an
    exception out. *)
Definition M (A : Type) : Type := list event -> list event * (exn + A).

Definition ret {A} (a : A) : M A := fun h => (h, inr a).

Definition raise {A} (e : exn) : M A := fun h => (h, inl e).

Definition bind {A B} (m : M A) (f : A -> M B) : M B :=
  fun h =>
    match m h with
    | (h', inl e) => (h', inl e)
    | (h', inr a) => f a h'
    end.

Definition emit (ev : event) : M unit := fun h => ((h ++ [ev])%list, inr tt).

(** [try: m  finally: cleanup] *)
Definition try_finally {A} (m : M A) (cleanup : M unit) : M A :=
  fun h =>
    match m h with
    | (h', r) =>
        match cleanup h' with
        | (h'', inl e) => (h'', inl e)
        | (h'', inr _) => (h'', r)
        end
    end.

(** [try: m  except Exception as e: handler e] *)
Definition try_except {A} (m : M A) (handler : exn -> M A) : M A :=
  fun h =>
    match m h with
    | (h', inl e) => handler e h'
    | (h', inr a) => (h', inr a)
    end.

(** Lifting a pure result that may be an exception. *)
Definition lift {A} (r : exn + A) : M A := fun h => (h, r).

(** A run from the empty history, and the history it leaves. *)
Definition run_M {A} (m : M A) : list event * (exn + A) := m [].
Definition trace_of {A} (m : M A) : list event := fst (run_M m).

Declare Scope eff_scope.
Delimit Scope eff_scope with eff.
Notation "x <- m ;; k" := (bind m (fun x => k))
  (at level 61, m at next level, right associativity) : eff_scope.
Notation "m ;;; k" := (bind m (fun _ => k))
  (at level 61, right associativity) : eff_scope.
Notation "x <~ r ;; k" := (and_then r (fun x => k))
  (at level 61, r at next level, right associativity) : eff_scope.
Open Scope eff_scope.

Section World.
Variable W : world.

(** [GraphDatabase.driver(...)] and [driver.close()] *)
Definition driver_open : M unit := emit DriverOpen.
Definition driver_close : M unit := emit DriverClose.

(** [with driver.session() as session: body] *)
Definition session_open : M unit :=
  fun h =>
    match session_failure W h with
    | Some cause => (h, inl (Error cause))
    | None => ((h ++ [SessionOpen])%list, inr tt)
    end.

Definition with_session {A} (body : M A) : M A :=
  session_open ;;; try_finally body (emit SessionClose).

(** [session.run(query, **params)] *)
Definition session_run (query : string) (params : list (string * value))
  : M cursor :=
  fun h => ((h ++ [Run query params])%list, inr (store W h query params)).

(** [for record in result: acc = body acc record], raising the cursor's
    failure when the records run out before the statement completed. *)
Fixpoint iterate {S} (body : S -> record -> exn + S) (rows : list record)
  (fail : option string) (acc : S) : exn + S :=
  match rows with
  | [] =>
      match fail with
      | Some cause => inl (Error cause)
      | None => inr acc
      end
  | r :: rows' =>
      match body acc r with
      | inl e => inl e
      | inr acc' => iterate body rows' fail acc'
      end
  end.

Definition for_records {S} (c : cursor) (body : S -> record -> exn + S)
  (init : S) : M S :=
  lift (iterate body (fetched c) (failure c) init).

(** [[dict(record) for record in result]] *)
Definition collect_dicts (c : cursor) : M (list record) :=
  for_records c (fun acc r => inr (acc ++ [dict r])%list) [].

(** [requests.post(url, headers=..., json=body, timeout=60)] *)
Definition post (prompt : string) : M http_response :=
  fun h =>
    ((h ++ [ModelPost prompt])%list,
     match requests_post W h prompt with
     | inl cause => inl (Error cause)
     | inr r => inr r
     end).

(** [openai_client.chat.completions.create(...)] and
    [response.choices[0].message.content] *)
Definition chat (system user : string) : M (option string) :=
  fun h =>
    ((h ++ [ModelChat system user])%list,
     match chat_create W h system user with
     | inl cause => inl (Error cause)
     | inr content => inr content
     end).

(** [glob.glob(pattern)] *)
Definition glob (pattern : string) : M (list string) :=
  fun h => (h, inr (glob_glob W h pattern)).

(** [with open(fp) as fh: json.load(fh)] *)
Definition load_json (fp : string) : M value :=
  fun h =>
    (h,
     match json_load W h fp with
     | inl cause => inl (Error cause)
     | inr data => inr data
     end).

(** [f"{records}"] *)
Definition repr_records (rs : list record) : string :=
  repr_value W (VList (map VMap rs)).

(** [f"{v}"]: the text of a value inside an f-string *)
Definition format_value (v : value) : string :=
  match v with
  | VNone => "None"
  | VBool true => "True"
  | VBool false => "False"
  | VInt z => PyStr.str_int z
  | VStr s => s
  | _ => repr_value W v
  end.

End World.

(** [print(line)] *)
Definition print (line : string) : M unit := emit (Print line).

(** [for x in xs: body x] *)
Fixpoint for_each {A} (xs : list A) (body : A -> M unit) : M unit :=
  match xs with
  | [] => ret tt
  | x :: xs' => body x ;;; for_each xs' body
  end.

End Eff.

(** ** Insertion-ordered dictionaries with string keys *)

Module PyDict.

Section Dict.
Context {V : Type}.

Definition t : Type := list (string * V).

(** [k in d] *)
Fixpoint mem (k : string) (d : t) : bool :=
  match d with
  | [] => false
  | (k', _) :: d' => String.eqb k k' || mem k d'
  end.

(** [d[k] = v]: overwrite in place, or append a new entry. *)
Fixpoint set (k : string) (v : V) (d : t) : t :=
  match d with
  | [] => [(k, v)]
  | (k', v') :: d' =>
      if String.eqb k k' then (k', v) :: d' else (k', v') :: set k v d'
  end.

(** [d[k]] *)
Fixpoint get (k : string) (d : t) : option V :=
  match d with
  | [] => None
  | (k', v) :: d' => if String.eqb k k' then Some v else get k d'
  end.

(** [list(d.keys())] and [list(d.values())] *)
Definition keys (d : t) : list string := map fst d.
Definition values (d : t) : list V := map snd d.

End Dict.

End PyDict.

(** ** backend_api.py *)

Module BackendApi.
Import Eff.

Record QueryResponse : Type := {
  explanation : string;
  cypher_query : string;
  sql_query : option string;
  results : list record;
  summary : option string;
  timestamp : string
}.

Record LineageNode : Type :=
  { node_id : string; node_label : string; node_type : string }.

Record LineageEdge : Type :=
  { source : string; target : string; edge_type : string }.

Record LineageResponse : Type :=
  { nodes : list LineageNode; edges : list LineageEdge }.

(** The reply of the raw-query endpoint: [{"success": ..., "results": ...,
    "count": ...}]. *)
Record CypherReply : Type :=
  { success : bool; reply_results : list record; count : nat }.

(** Which branch of the reply parser produced a query.  The code returns
    the pair (explanation, query) only; the tag names the branch taken. *)
Inductive status : Type := Generated | ParseFallback.

Record GeneratedQuery : Type :=
  { gq_explanation : string; gq_query : string; gq_status : status }.

Definition EXPLANATION_MARKER : string := "EXPLANATION:".
Definition CYPHER_MARKER : string := "CYPHER:".

(** The prefixes that start the fallback accumulation. *)
Definition clause_keywords : list string :=
  ["MATCH"; "RETURN"; "WHERE"; "WITH"; "CREATE"; "MERGE"].

Definition FALLBACK_EXPLANATION : string :=
  "Generated Cypher query for your question.".

(** [line.strip().upper().startswith(('MATCH', ...))] *)
Definition starts_clause (line : string) : bool :=
  existsb
    (fun keyword =>
       PyStr.points_startswith (PyStr.upper (PyStr.strip line))
         (PyStr.points keyword))
    clause_keywords.

(** The fallback loop over the lines of the reply. *)
Fixpoint scan_lines (in_cypher : bool) (cypher_lines : list string)
  (lines : list string) : list string :=
  match lines with
  | [] => cypher_lines
  | line :: rest =>
      let in_cypher := if starts_clause line then true else in_cypher in
      let cypher_lines :=
        if in_cypher then (cypher_lines ++ [line])%list else cypher_lines in
      scan_lines in_cypher cypher_lines rest
  end.

Definition LF : string := "
".

(** The parsing part of [generate_cypher_from_question]. *)
Definition parse (content : string) : GeneratedQuery :=
  if PyStr.contains content EXPLANATION_MARKER
     && PyStr.contains content CYPHER_MARKER
  then
    let parts := PyStr.split content CYPHER_MARKER in
    {| gq_explanation :=
         PyStr.strip (PyStr.replace (nth 0 parts "") EXPLANATION_MARKER "");
       gq_query := PyStr.strip (nth 1 parts "");
       gq_status := Generated |}
  else
    let lines := PyStr.split content LF in
    let cypher_lines := scan_lines false [] lines in
    {| gq_explanation := FALLBACK_EXPLANATION;
       gq_query := PyStr.strip (PyStr.join LF cypher_lines);
       gq_status := ParseFallback |}.

Definition schema_query : string := "
            MATCH (t:Table)-[:HAS_COLUMN]->(c:Column)
            RETURN t.name as table, collect({name: c.name, type: c.data_type}) as columns
            LIMIT 20
            ".

Definition cypher_prompt (schema_context question : string) : string :=
  "You are a Cypher query expert for Neo4j databases.

Schema Context:
" ++ schema_context ++ "

User Question: " ++ question ++ "

Generate a valid Cypher query to answer this question. The database contains:
- Data nodes: Client, Bank_account, Card_detail, Card_transaction, Loan_record, Employee, Branche, Customer_support, Online_transaction
- Metadata nodes: Table, Column, CDE, Region
- Relationships: HAS_ACCOUNT, HAS_CARD, HAS_LOAN, HAS_TRANSACTION, HAS_COLUMN, IS_CDE_FOR, BELONGS_TO_REGION, LOADS_INTO, JOINS

Provide:
1. A brief explanation of what the query does
2. The Cypher query itself

Format your response as:
EXPLANATION: <explanation>
CYPHER: <query>
".

Definition summary_prompt (question cypher sample_results : string)
  (total : nat) : string :=
  "Based on the following query results, provide a concise business summary.

User Question: " ++ question ++ "
Cypher Query: " ++ cypher ++ "
Results (sample): " ++ sample_results ++ "
Total Records: " ++ PyStr.str_nat total ++ "

Provide a clear, business-friendly summary of what the data shows.".

Definition NO_RESULTS : string := "No results found for your query.".

(** The system messages of the three model calls. *)
Definition CYPHER_EXPERT : string := "You are a Neo4j Cypher expert.".
Definition DATA_ANALYST : string :=
  "You are a data analyst providing business insights.".
Definition SQL_EXPERT : string :=
  "You are a database expert converting Cypher to SQL. Return only valid SQL code.".

(** The error of calling a string method on [None]. *)
Definition none_has_no (attr : string) : exn :=
  Error ("'NoneType' object has no attribute '" ++ attr ++ "'").

Definition sql_prompt (cypher_query question : string) : string :=
  "You are a database expert. Convert this Neo4j Cypher query to an equivalent SQL query.

Original Question: " ++ question ++ "

Cypher Query:
" ++ cypher_query ++ "

Database Schema (assume relational):
- clients (client_id, first_name, last_name, email_address, phone_number, date_of_birth, address, city, state, zip_code, country, account_opening_date)
- bank_accounts (account_id, client_id, account_no, balance_amount, account_category, account_opening_date, account_status)
- account_types (account_category, min_balance_req, interest_rate, monthly_fee)
- card_details (card_id, client_id, card_number, card_type, card_status, card_issue_date, card_expiry_date)
- card_transactions (transaction_id, card_id, merchant_name, transaction_amount, transaction_date, transaction_status)
- loan_records (loan_id, client_id, loan_amount, interest_rate, loan_status, loan_start_date, loan_end_date, monthly_payment)
- employees (employee_id, emp_first_name, emp_last_name, emp_role, emp_salary, emp_hire_date, branch_id)
- branches (branch_id, branch_name, branch_address, branch_city, branch_state, branch_zip, branch_phone)
- customer_support (ticket_id, client_id, issue_category, issue_description, ticket_status, ticket_created_date, ticket_resolved_date)
- online_transactions (online_txn_id, account_id, txn_amount, txn_date, txn_status, payment_method)

Relationships (for joins):
- clients.client_id → bank_accounts.client_id
- clients.client_id → card_details.client_id
- clients.client_id → loan_records.client_id
- card_details.card_id → card_transactions.card_id
- employees.branch_id → branches.branch_id
- clients.client_id → customer_support.client_id
- bank_accounts.account_id → online_transactions.account_id
- bank_accounts.account_category → account_types.account_category

Convert the Cypher query to a valid SQL query (PostgreSQL/MySQL compatible).
Return ONLY the SQL query, no explanations.".

(** Removal of a markdown code fence around the generated SQL. *)
Definition clean_sql (sql_query : string) : string :=
  if PyStr.startswith sql_query "```sql"
  then PyStr.strip
         (PyStr.replace (PyStr.replace sql_query "```sql" "") "```" "")
  else if PyStr.startswith sql_query "```"
  then PyStr.strip (PyStr.replace sql_query "```" "")
  else sql_query.

Definition lineage_query (depth : Z) : string :=
  "
            MATCH path = (t:Table {name: $table_name})-[:LOADS_INTO*1.."
  ++ PyStr.str_int depth ++ "]-(related:Table)
            RETURN t, related, relationships(path) as rels
            UNION
            MATCH path = (related:Table)-[:LOADS_INTO*1.."
  ++ PyStr.str_int depth ++ "]->(t:Table {name: $table_name})
            RETURN t, related, relationships(path) as rels
            ".

(** [mapping[key]] on a record or a property map *)
Definition getitem (m : list (string * value)) (key : string) : exn + value :=
  match PyDict.get key m with
  | Some v => inr v
  | None => inl (Error ("'" ++ key ++ "'"))
  end.

(** [node[key]] on the properties of a node or relationship of the graph:
    the value of the property, or [None] when there is none. *)
Definition node_getitem (properties : list (string * value)) (key : string)
  : value :=
  match PyDict.get key properties with
  | Some v => v
  | None => VNone
  end.

(** [v[key]] on a value, for a key that is a string *)
Definition subscript (v : value) (key : string) : exn + value :=
  match v with
  | VNode properties => inr (node_getitem properties key)
  | VRel properties _ _ => inr (node_getitem properties key)
  | VMap entries => getitem entries key
  | VStr _ => inl (Error "string indices must be integers, not 'str'")
  | VList _ => inl (Error "list indices must be integers or slices, not str")
  | _ => inl (Error ("'" ++ type_name v ++ "' object is not subscriptable"))
  end.

(** [rel.start_node] and [rel.end_node] *)
Definition start_node_of (rel : value) : exn + list (string * value) :=
  match rel with
  | VRel _ s _ => inr s
  | _ => inl (has_no_attribute rel "start_node")
  end.

Definition end_node_of (rel : value) : exn + list (string * value) :=
  match rel with
  | VRel _ _ e => inr e
  | _ => inl (has_no_attribute rel "end_node")
  end.

(** The elements [for x in v] visits: the items of a list, the keys of a
    mapping, the characters of a string. *)
Definition iter_items (v : value) : exn + list value :=
  match v with
  | VList items => inr items
  | VStr s =>
      inr (map (fun c => VStr (String c EmptyString)) (list_ascii_of_string s))
  | _ =>
      match fields_of v with
      | Some fields => inr (map (fun kv => VStr (fst kv)) fields)
      | None => inl (Error ("'" ++ type_name v ++ "' object is not iterable"))
      end
  end.

(** A field declared [str] in a response model accepts a string only. *)
Definition as_str (field : string) (v : value) : exn + string :=
  match v with
  | VStr s => inr s
  | _ => inl (ValidationError (field ++ ": Input should be a valid string"))
  end.

(** [for rel in rels: edges.append(LineageEdge(...))] *)
Fixpoint add_edges (edges : list LineageEdge) (rels : list value)
  : exn + list LineageEdge :=
  match rels with
  | [] => inr edges
  | rel :: rels' =>
      s <~ start_node_of rel ;;
      let source := node_getitem s "name" in
      e <~ end_node_of rel ;;
      let target := node_getitem e "name" in
      source <~ as_str "source" source ;;
      target <~ as_str "target" target ;;
      add_edges
        (edges ++ [{| source := source;
                      target := target;
                      edge_type := "LOADS_INTO" |}])%list
        rels'
  end.

(** The body of the loop over the lineage records.  [related_name not in
    nodes] hashes the name, which a list or a dict refuses; any other name
    that is no string is refused by the [id] field of [LineageNode]. *)
Definition lineage_step (st : @PyDict.t LineageNode * list LineageEdge)
  (record : record) : exn + (@PyDict.t LineageNode * list LineageEdge) :=
  let '(nodes, edges) := st in
  t_node <~ getitem record "t" ;;
  related_node <~ getitem record "related" ;;
  rels <~ getitem record "rels" ;;
  related_name <~ subscript related_node "name" ;;
  nodes <~
    match related_name with
    | VStr name =>
        if negb (PyDict.mem name nodes)
        then inr (PyDict.set name
                    {| node_id := name;
                       node_label := name;
                       node_type := "related" |} nodes)
        else inr nodes
    | VList _ | VMap _ =>
        inl (Error ("unhashable type: '" ++ type_name related_name ++ "'"))
    | _ => inl (ValidationError "id: Input should be a valid string")
    end ;;
  items <~ iter_items rels ;;
  edges <~ add_edges edges items ;;
  inr (nodes, edges).

(** [openai_client = OpenAI(api_key=OPENAI_API_KEY)], run when the module
    is loaded: the constructor of the client raises when it is given no key
    (the variable is unset) and accepts every text, the empty one
    included. *)
Definition openai_client (key : option string) : exn + unit :=
  match key with
  | None =>
      inl (Error "The api_key client option must be set either by passing api_key to the client or by setting the OPENAI_API_KEY environment variable")
  | Some _ => inr tt
  end.

Section World.
Variable W : world.

(** A call of a function of the module: the module is loaded first, and a
    module that fails to load offers no function to call. *)
Definition loaded {A} (call : M A) : M A :=
  match openai_client (OPENAI_API_KEY W) with
  | inl e => raise e
  | inr _ => call
  end.

(** [generate_cypher_from_question(question)] *)
Definition generate_cypher_from_question (question : string)
  : M (string * string) :=
  driver_open ;;;
  try_finally
    (schema_context <-
       with_session W
         (schema_result <- session_run W schema_query [] ;;
          collect_dicts schema_result) ;;
     let prompt := cypher_prompt (repr_records W schema_context) question in
     reply <- chat W CYPHER_EXPERT prompt ;;
     match reply with
     | None => raise (Error "argument of type 'NoneType' is not iterable")
     | Some content =>
         let g := parse content in
         ret (gq_explanation g, gq_query g)
     end)
    driver_close.

(** [execute_cypher_query(cypher)] *)
Definition execute_cypher_query (cypher : string) : M (list record) :=
  driver_open ;;;
  try_finally
    (with_session W
       (result <- session_run W cypher [] ;;
        for_records result
          (fun records r => inr (records ++ [dict r])%list) []))
    driver_close.

(** The prompt of [generate_summary]: the first 10 records and the total. *)
Definition summary_request (question : string) (results : list record)
  (cypher : string) : string :=
  let sample_results := firstn 10 results in
  summary_prompt question cypher (repr_records W sample_results)
    (List.length results).

(** [generate_summary(question, results, cypher)] *)
Definition generate_summary (question : string) (results : list record)
  (cypher : string) : M string :=
  match results with
  | [] => ret NO_RESULTS
  | _ =>
      let prompt := summary_request question results cypher in
      try_except
        (reply <- chat W DATA_ANALYST prompt ;;
         match reply with
         | None => raise (none_has_no "strip")
         | Some content => ret (PyStr.strip content)
         end)
        (fun e => ret ("Summary generation failed: " ++ str_exn e))
  end.

(** [generate_sql_from_cypher(cypher_query, question)] *)
Definition generate_sql_from_cypher (cypher_query question : string)
  : M string :=
  let prompt := sql_prompt cypher_query question in
  try_except
    (reply <- chat W SQL_EXPERT prompt ;;
     match reply with
     | None => raise (none_has_no "strip")
     | Some content => ret (clean_sql (PyStr.strip content))
     end)
    (fun e => ret ("-- SQL generation failed: " ++ str_exn e)).

(** [ask_question(request)], the handler of [POST /api/ask] *)
Definition ask_question (question : string) : M QueryResponse :=
  try_except
    (generated <- generate_cypher_from_question question ;;
     let '(explanation, cypher_query) := generated in
     match cypher_query with
     | EmptyString =>
         raise (HTTPException 400 "Failed to generate Cypher query")
     | _ =>
         results <- execute_cypher_query cypher_query ;;
         sql_query <- generate_sql_from_cypher cypher_query question ;;
         summary <- generate_summary question results cypher_query ;;
         fun h =>
           (h, inr {| explanation := explanation;
                      cypher_query := cypher_query;
                      sql_query := Some sql_query;
                      results := results;
                      summary := Some summary;
                      timestamp := now_isoformat W h |})
     end)
    (fun e =>
       raise (HTTPException 500 ("Query execution failed: " ++ str_exn e))).

(** [run_cypher(request)], the handler of [POST /api/query/cypher] *)
Definition run_cypher (cypher : string) : M CypherReply :=
  try_except
    (results <- execute_cypher_query cypher ;;
     ret {| success := true;
            reply_results := results;
            count := List.length results |})
    (fun e =>
       raise (HTTPException 500 ("Cypher execution failed: " ++ str_exn e))).

(** The body of [get_lineage(table_name, depth)]. *)
Definition get_lineage_body (table_name : string) (depth : Z)
  : M LineageResponse :=
  driver_open ;;;
  try_finally
    (with_session W
       (result <-
          session_run W (lineage_query depth)
            [("table_name", VStr table_name)] ;;
        let nodes : @PyDict.t LineageNode := [] in
        let edges : list LineageEdge := [] in
        let nodes :=
          PyDict.set table_name
            {| node_id := table_name;
               node_label := table_name;
               node_type := "center" |} nodes in
        final <- for_records result lineage_step (nodes, edges) ;;
        let '(nodes, edges) := final in
        ret {| nodes := PyDict.values nodes; edges := edges |}))
    driver_close.

(** [GET /api/lineage/{table_name}] with its parameter declaration
    [depth: int = Query(default=2, ge=1, le=5)]: the framework supplies the
    default, refuses a value outside the bounds without calling the body,
    and otherwise calls it. *)
Definition get_lineage (table_name : string) (depth : option Z)
  : M LineageResponse :=
  let depth := match depth with Some d => d | None => 2%Z end in
  if ((1 <=? depth) && (depth <=? 5))%Z
  then get_lineage_body table_name depth
  else raise (ValidationError "depth: out of range").

End World.

End BackendApi.

(** ** src/agent.py *)

Module Agent.
Import Eff.

Definition CYPHER_GENERATION_TEMPLATE (schema question : string) : string :=
  "
You are an expert in generating Cypher queries for Neo4j graph databases containing bank data and metadata.

Task: Convert the user's natural language question into a precise Cypher query.

Graph Schema:
" ++ schema ++ "

Important Rules:
1. The database contains BOTH actual data nodes (Client, Bank_account, etc.) AND metadata nodes (Table, Column)
2. For questions about actual data (clients, accounts, transactions), query the data nodes directly
3. For questions about schema/lineage, query the metadata nodes (Table, Column)
4. Data nodes are connected via typed relationships (HAS_ACCOUNT, HAS_CARD, HAS_LOAN, TRANSACTION_FOR, etc.)
5. Use property matching with EXACT case (e.g., card_status='Blocked', loan_status='Active', account_category='Savings')
6. Return relevant properties from the data nodes
7. Use aggregation functions (COUNT, SUM, AVG) where appropriate
8. For lineage queries, use LOADS_INTO and JOINS relationships between Table nodes

Question: " ++ question ++ "

Generate only the Cypher query without any explanation or markdown:
".

Definition schema_hint : string :=
  "Nodes (Data): Client{client_id,first_name,last_name,email_address}, "
  ++ "Bank_account{account_id,account_no,balance_amount,account_category,client_id}, "
  ++ "Account_type{account_category,min_balance_req,interest_rate}, "
  ++ "Card_detail{card_id,card_number,card_type,card_status,client_id}, "
  ++ "Card_transaction{transaction_id,card_id,merchant_name,transaction_amount,transaction_type,transaction_status}, "
  ++ "Loan_record{loan_id,client_id,loan_amount,loan_status,interest_rate}, "
  ++ "Employee{employee_id,emp_first_name,emp_last_name,emp_role,branch_id}, "
  ++ "Branche{branch_id,branch_name,branch_city,branch_state}, "
  ++ "Customer_support{ticket_id,client_id,issue_category,ticket_status}, "
  ++ "Online_transaction{online_txn_id,account_id,txn_amount,payment_method}. "
  ++ "Nodes (Metadata): Table{name,description}, Column{name}. "
  ++ "Relationships (Data): HAS_ACCOUNT (Client->Bank_account), HAS_CARD (Client->Card_detail), "
  ++ "HAS_LOAN (Client->Loan_record), HAS_TRANSACTION (Card_detail/Bank_account->Transaction), "
  ++ "APPLIES_TO (Account_type->Bank_account), HAS_EMPLOYEE (Branche->Employee). "
  ++ "Relationships (Metadata): HAS_COLUMN (Table->Column), LOADS_INTO{lineage_type}, JOINS{join_key}. "
  ++ "IMPORTANT: Property values are case-sensitive. Use 'Savings'/'Current'/'Fixed' for account_category, "
  ++ "'Active'/'Blocked' for card_status, 'Active'/'Paid'/'Defaulted' for loan_status, 'Open'/'Closed' for ticket_status.".

Definition KEY_NOT_SET : string :=
  "OPENAI_API_KEY not set in environment. Cannot generate Cypher via LLM.".

(** [resp["choices"][0]["message"]["content"].strip()], or [str(resp)]
    when that raises. *)
Definition generated_text (content : string + string) (repr : string)
  : string :=
  match content with
  | inr c => PyStr.strip c
  | inl _ => repr
  end.

Section World.
Variable W : world.

(** The first [try] block: the reply of the model, or the pair the
    function returns from inside the block. *)
Definition obtain_cypher (prompt : string)
  : M ((string * string) + string) :=
  try_except
    (r <- post W prompt ;;
     if negb (Nat.eqb (status_code r) 200)
     then ret (inl ("OpenAI request failed: "
                      ++ PyStr.str_nat (status_code r) ++ " " ++ text r,
                    ""))
     else
       match json r with
       | JsonInvalid cause => raise (Error cause)
       | JsonReply content repr => ret (inr (generated_text content repr))
       end)
    (fun e => ret (inl ("OpenAI request failed: " ++ str_exn e, ""))).

(** The second [try] block: run the generated text on the graph store. *)
Definition execute_generated (generated_cypher : string)
  : M (string * string) :=
  try_except
    (driver_open ;;;
     records <-
       with_session W
         (result <- session_run W generated_cypher [] ;;
          collect_dicts result) ;;
     driver_close ;;;
     let explanation :=
       "Executed Cypher; returned " ++ PyStr.str_nat (List.length records)
       ++ " record(s). Sample: " ++ repr_records W (firstn 3 records) in
     ret (explanation, generated_cypher))
    (fun e =>
       ret ("Error executing Cypher on Neo4j: " ++ str_exn e,
            generated_cypher)).

(** [generate_lineage_response(question)] *)
Definition generate_lineage_response (question : string)
  : M (string * string) :=
  if not_set (OPENAI_API_KEY W)
  then ret (KEY_NOT_SET, "")
  else
    let prompt := CYPHER_GENERATION_TEMPLATE schema_hint question in
    obtained <- obtain_cypher prompt ;;
    match obtained with
    | inl early => ret early
    | inr generated_cypher => execute_generated generated_cypher
    end.

End World.

End Agent.

(** ** app.py *)

Module App.
Import Eff.

Definition NOT_CONFIGURED : string :=
  "OpenAI API key not configured. Cannot generate summary.".

Definition NO_RESULTS : string := "No results found for this query.".

Definition summary_prompt (question cypher_query results_text : string)
  (total : nat) : string :=
  "
You are a data analyst summarizing database query results for business users.

Original Question: " ++ question ++ "

Cypher Query Executed: " ++ cypher_query ++ "

Query Results (" ++ PyStr.str_nat total ++ " total records):
" ++ results_text ++ "

Task: Provide a concise business summary with:
1. A brief answer to the question (2-3 sentences)
2. Key aggregated insights (counts, totals, patterns)
3. Notable findings or highlights

Keep it professional and focused on business value.
".

Section World.
Variable W : world.

(** The prompt of [summarize_results]: the first 20 records, one per line,
    and the total. *)
Definition summary_request (question : string) (results : list record)
  (cypher_query : string) : string :=
  let results_sample := firstn 20 results in
  let results_text :=
    PyStr.join BackendApi.LF
      (map (fun r => repr_value W (VMap r)) results_sample) in
  summary_prompt question cypher_query results_text (List.length results).

(** [summarize_results(question, results, cypher_query)] *)
Definition summarize_results (question : string) (results : list record)
  (cypher_query : string) : M string :=
  if not_set (OPENAI_API_KEY W) then ret NOT_CONFIGURED
  else
    match results with
    | [] => ret NO_RESULTS
    | _ =>
        let prompt := summary_request question results cypher_query in
        try_except
          (r <- post W prompt ;;
           if Nat.eqb (status_code r) 200
           then
             match json r with
             | JsonInvalid cause => raise (Error cause)
             | JsonReply (inl cause) _ => raise (Error cause)
             | JsonReply (inr content) _ => ret (PyStr.strip content)
             end
           else
             ret ("Error generating summary: "
                    ++ PyStr.str_nat (status_code r)))
          (fun e => ret ("Error generating summary: " ++ str_exn e))
    end.

(** [execute_query(question)]: the query text, the explanation, the error
    and the records. *)
Definition execute_query (question : string)
  : M (option string * option string * option string * list record) :=
  driver_open ;;;
  try_finally
    (try_except
       (generated <- Agent.generate_lineage_response W question ;;
        let '(explanation, cypher) := generated in
        if match cypher with EmptyString => true | _ => false end
           || PyStr.startswith cypher "Error"
           || PyStr.startswith cypher "OPENAI"
        then ret (None, None, Some explanation, [])
        else
          records <-
            with_session W
              (result <- session_run W cypher [] ;;
               collect_dicts result) ;;
          ret (Some cypher, Some explanation, None, records))
       (fun e =>
          ret (None, None, Some ("Error executing query: " ++ str_exn e),
               [])))
    driver_close.

End World.

End App.

(** ** src/neo4j_setup.py *)

Module Neo4jSetup.
Import Eff.

(** [os.path.basename(p)] on POSIX: the text after the last slash. *)
Definition basename (p : string) : string :=
  match PyStr.rsplit_char "/" p with
  | Some (_, r) => r
  | None => p
  end.

Fixpoint all_dots (s : string) : bool :=
  match s with
  | EmptyString => true
  | String c s' => Ascii.eqb c "." && all_dots s'
  end.

(** [os.path.splitext(p)[0]] for a [p] without a slash: the text before
    the last dot, unless only dots come before it. *)
Definition splitext_root (p : string) : string :=
  match PyStr.rsplit_char "." p with
  | Some (l, _) => if all_dots l then p else l
  | None => p
  end.

(** [os.path.join(directory, name)] on POSIX, for a relative [name]. *)
Definition path_join (directory name : string) : string :=
  match directory with
  | EmptyString => name
  | _ => if PyStr.endswith directory "/" then directory ++ name
         else directory ++ "/" ++ name
  end.

(** The node label made from a file path. *)
Definition label_of_file (fp : string) : string :=
  let name := splitext_root (basename fp) in
  let raw_label := PyStr.capitalize name in
  if PyStr.endswith raw_label "s" then PyStr.drop_last raw_label
  else raw_label.

(** The id key: the first key that ends with [_id], else [id] when it is a
    key, else none. *)
Definition id_key_of (keys : list string) : option string :=
  match find (fun k => PyStr.endswith k "_id") keys with
  | Some k => Some k
  | None =>
      match find (fun k => String.eqb k "id") keys with
      | Some _ => Some "id"
      | None => None
      end
  end.

(** The statement that creates the nodes of one file. *)
Definition node_cypher (label : string) (id_key : option string) : string :=
  match id_key with
  | Some id_key =>
      "UNWIND $rows AS row MERGE (n:" ++ label ++ " { " ++ id_key
      ++ ": row." ++ id_key ++ " }) SET n += row"
  | None => "UNWIND $rows AS row CREATE (n:" ++ label ++ ") SET n += row"
  end.

(** (source_label, source_key, target_label, target_key, relationship_type) *)
Definition relationship_mappings
  : list (string * string * string * string * string) :=
  [ ("Client", "client_id", "Bank_account", "client_id", "HAS_ACCOUNT");
    ("Client", "client_id", "Card_detail", "client_id", "HAS_CARD");
    ("Client", "client_id", "Loan_record", "client_id", "HAS_LOAN");
    ("Client", "client_id", "Customer_support", "client_id",
     "SUBMITTED_TICKET");
    ("Card_detail", "card_id", "Card_transaction", "card_id",
     "HAS_TRANSACTION");
    ("Bank_account", "account_id", "Online_transaction", "account_id",
     "HAS_TRANSACTION");
    ("Branche", "branch_id", "Employee", "branch_id", "HAS_EMPLOYEE");
    ("Account_type", "account_category", "Bank_account", "account_category",
     "APPLIES_TO") ].

Definition relationship_cypher
  (src_label src_key tgt_label tgt_key rel_type : string) : string :=
  "
                        MATCH (a:" ++ src_label ++ "), (b:" ++ tgt_label ++ ")
                        WHERE a." ++ src_key ++ " = b." ++ tgt_key ++ "
                        MERGE (a)-[:" ++ rel_type ++ "]->(b)
                        RETURN count(*) as created
                    ".

(** [if not isinstance(data, list): data = [data]] *)
Definition as_rows (data : value) : list value :=
  match data with
  | VList items => items
  | _ => [data]
  end.

(** [sample.keys()] *)
Definition keys_of (sample : value) : exn + list string :=
  match fields_of sample with
  | Some fields => inr (map fst fields)
  | None => inl (has_no_attribute sample "keys")
  end.

(** [result.single()]: the first record, or [None]. *)
Definition single (c : cursor) : exn + option record :=
  match failure c with
  | Some cause => inl (Error cause)
  | None => inr (hd_error (fetched c))
  end.

(** [count > 0] and the text [f"{count}"] shows. *)
Definition positive (count : value) : exn + bool :=
  match count with
  | VInt z => inr (0 <? z)%Z
  | VBool b => inr b
  | _ =>
      inl (Error ("'>' not supported between instances of '"
                    ++ type_name count ++ "' and 'int'"))
  end.

(** An unread result: a failure of the statement surfaces at the call. *)
Definition raise_failure (c : cursor) : M unit :=
  match failure c with
  | Some cause => raise (Error cause)
  | None => ret tt
  end.

Section World.
Variable W : world.

(** The body of the loop over the files. *)
Definition ingest_file (fp : string) : M unit :=
  try_except
    (let label := label_of_file fp in
     data <- load_json W fp ;;
     let data := as_rows data in
     match data with
     | [] => ret tt
     | sample :: _ =>
         keys <- lift (keys_of sample) ;;
         let id_key := id_key_of keys in
         let rows := data in
         let cypher := node_cypher label id_key in
         result <- session_run W cypher [("rows", VList rows)] ;;
         raise_failure result ;;;
         print ("Ingested " ++ PyStr.str_nat (List.length rows)
                  ++ " nodes for label :" ++ label ++ " from " ++ fp)
     end)
    (fun e => print ("Failed to ingest " ++ fp ++ ": " ++ str_exn e)).

(** The body of the loop over the relationship mappings. *)
Definition create_relationship
  (m : string * string * string * string * string) : M unit :=
  let '(src_label, src_key, tgt_label, tgt_key, rel_type) := m in
  try_except
    (result <-
       session_run W
         (relationship_cypher src_label src_key tgt_label tgt_key rel_type)
         [] ;;
     row <- lift (single result) ;;
     match row with
     | None => raise (Error "'NoneType' object is not subscriptable")
     | Some row =>
         count <- lift (BackendApi.getitem row "created") ;;
         is_positive <- lift (positive count) ;;
         if is_positive
         then print ("  Created " ++ format_value W count ++ " " ++ rel_type
                       ++ " relationships (" ++ src_label ++ " -> "
                       ++ tgt_label ++ ")")
         else ret tt
     end)
    (fun e =>
       print ("  Failed to create " ++ rel_type ++ " relationships: "
                ++ str_exn e)).

(** [Neo4jSetup.ingest_json_files(directory, file_list)] *)
Definition ingest_json_files (directory : string)
  (file_list : option (list string)) : M unit :=
  files <-
    match file_list with
    | Some (f :: fs) => ret (f :: fs)
    | _ => glob W (path_join directory "*.json")
    end ;;
  match files with
  | [] => print "No JSON files found to ingest."
  | _ =>
      with_session W
        (for_each files ingest_file ;;;
         print "JSON ingestion completed." ;;;
         print "Creating relationships based on foreign keys..." ;;;
         for_each relationship_mappings create_relationship ;;;
         print "JSON ingestion completed.")
  end.

End World.

End Neo4jSetup.

(** ** src/neo4j_setup.py: clearing, populating, verifying, and the catalog ingestion *)

Module Neo4jAdmin.
Import Eff.

Definition clear_query : string := "MATCH (n) DETACH DELETE n".

Definition populate_query : string := "
                CREATE (cust:Table {name: 'CUSTOMER_MASTER', description: 'Main customer information table'})
                CREATE (trans:Table {name: 'TRANSACTION_DATA', description: 'Daily transaction records'})
                CREATE (dep:Table {name: 'DEPOSIT_SUMMARY', description: 'Summary of customer deposits'})
                CREATE (loan:Table {name: 'LOAN_ACCOUNTS', description: 'Loan account details'})
                CREATE (final:Table {name: 'FINAL_REPORT', description: 'Consolidated reporting table'})
                CREATE (risk:Table {name: 'RISK_METRICS', description: 'Risk assessment metrics'})
                
                CREATE (c1:Column {name: 'customer_id', data_type: 'VARCHAR(20)'})
                CREATE (c2:Column {name: 'account_number', data_type: 'VARCHAR(30)'})
                CREATE (c3:Column {name: 'transaction_id', data_type: 'VARCHAR(50)'})
                CREATE (c4:Column {name: 'amount', data_type: 'DECIMAL(15,2)'})
                CREATE (c5:Column {name: 'deposit_date', data_type: 'DATE'})
                CREATE (c6:Column {name: 'loan_id', data_type: 'VARCHAR(25)'})
                CREATE (c7:Column {name: 'risk_score', data_type: 'DECIMAL(5,2)'})
                
                CREATE (cde1:CDE {name: 'CDE_00145', description: 'Customer Identification Number'})
                CREATE (cde2:CDE {name: 'CDE_00289', description: 'Account Balance Amount'})
                
                CREATE (r1:Region {name: 'APAC', description: 'Asia Pacific region'})
                CREATE (r2:Region {name: 'EMEA', description: 'Europe, Middle East, Africa'})
                CREATE (r3:Region {name: 'NAM', description: 'North America'})
                
                CREATE (cust)-[:HAS_COLUMN]->(c1)
                CREATE (cust)-[:HAS_COLUMN]->(c2)
                CREATE (trans)-[:HAS_COLUMN]->(c3)
                CREATE (trans)-[:HAS_COLUMN]->(c4)
                CREATE (dep)-[:HAS_COLUMN]->(c1)
                CREATE (dep)-[:HAS_COLUMN]->(c5)
                CREATE (loan)-[:HAS_COLUMN]->(c6)
                CREATE (loan)-[:HAS_COLUMN]->(c1)
                CREATE (final)-[:HAS_COLUMN]->(c4)
                CREATE (final)-[:HAS_COLUMN]->(c7)
                
                CREATE (cust)-[:LOADS_INTO {lineage_type: 'ETL'}]->(dep)
                CREATE (trans)-[:LOADS_INTO {lineage_type: 'ETL'}]->(dep)
                CREATE (cust)-[:LOADS_INTO {lineage_type: 'ETL'}]->(final)
                CREATE (dep)-[:LOADS_INTO {lineage_type: 'ETL'}]->(final)
                CREATE (loan)-[:LOADS_INTO {lineage_type: 'ETL'}]->(final)
                CREATE (risk)-[:LOADS_INTO {lineage_type: 'ETL'}]->(final)
                
                CREATE (cust)-[:JOINS {join_key: 'customer_id'}]->(dep)
                CREATE (cust)-[:JOINS {join_key: 'customer_id'}]->(loan)
                CREATE (dep)-[:JOINS {join_key: 'customer_id'}]->(final)
                CREATE (loan)-[:JOINS {join_key: 'customer_id'}]->(final)
                
                CREATE (cde1)-[:IS_CDE_FOR]->(c1)
                CREATE (cde2)-[:IS_CDE_FOR]->(c4)
                
                CREATE (dep)-[:BELONGS_TO_REGION]->(r1)
                CREATE (final)-[:BELONGS_TO_REGION]->(r2)
                CREATE (cust)-[:BELONGS_TO_REGION]->(r3)
                CREATE (loan)-[:BELONGS_TO_REGION]->(r1)
            ".

Definition node_count_query : string := "MATCH (n) RETURN count(n) as count".

Definition rel_count_query : string :=
  "MATCH ()-[r]->() RETURN count(r) as count".

Definition merge_dataset_query : string := "
                        MERGE (d:Dataset {concept_id: $concept_id})
                        SET d.catalog_entry_name = $catalog_entry_name,
                            d.short_name = $short_name,
                            d.metadata_source_url = $metadata_source_url,
                            d.summary_snippet = $summary_snippet
                        ".

Definition related_to_query : string := "
                    MATCH (a:Dataset), (b:Dataset)
                    WHERE id(a) < id(b)
                    WITH a, b LIMIT 100
                    MERGE (a)-[:RELATED_TO {source: 'nasa_cmr_ingest'}]->(b)
                    RETURN count(*) as created
                    ".

(** The truth value of a value, as [not], [or] and [if] see it. *)
Definition truthy (v : value) : bool :=
  match v with
  | VNone => false
  | VBool b => b
  | VInt z => negb (Z.eqb z 0)
  | VStr s => match s with EmptyString => false | _ => true end
  | VList items => match items with [] => false | _ => true end
  | VMap entries => match entries with [] => false | _ => true end
  | VNode properties => match properties with [] => false | _ => true end
  | VRel properties _ _ => match properties with [] => false | _ => true end
  end.

(** [entry.get(key)] and [entry.get(key, default)] on the fields of an
    object *)
Definition get_or (fields : list (string * value)) (key : string)
  (default : value) : value :=
  match PyDict.get key fields with
  | Some v => v
  | None => default
  end.

(** [entry.get(k1) or entry.get(k2) or ... or final]: the first value that
    is true, else [final]. *)
Fixpoint or_gets (fields : list (string * value)) (keys : list string)
  (final : value) : value :=
  match keys with
  | [] => final
  | key :: keys' =>
      let v := get_or fields key VNone in
      if truthy v then v else or_gets fields keys' final
  end.

(** The parameters of the statement for entry number [i]. *)
Definition concept_id_of (i : nat) (fields : list (string * value)) : value :=
  or_gets fields ["Concept_ID"; "ConceptId"]
    (VStr ("unknown-" ++ PyStr.str_nat i)).

Definition dataset_params (i : nat) (fields : list (string * value))
  : list (string * value) :=
  [ ("concept_id", concept_id_of i fields);
    ("catalog_entry_name",
     or_gets fields ["Catalog_Entry_Name"; "Name"] (VStr "N/A"));
    ("short_name", or_gets fields ["Short_Name"; "ShortName"] (VStr "N/A"));
    ("metadata_source_url",
     or_gets fields
       ["Metadata_SourcE_URL"; "Metadata_Source_URL"; "Metadata_Source";
        "Metadata_Source_Url"; "Metadata_Source_Url"; "Metadata_Source_Url"]
       (get_or fields "Metadata_Source_URL" VNone));
    ("summary_snippet",
     or_gets fields ["Summary_Snippet"; "Summary"; "summary"] (VStr "")) ].

(** [entry.get]: the fields it reads, or the error of a value without
    [get]. *)
Definition get_of (entry : value) : exn + list (string * value) :=
  match fields_of entry with
  | Some fields => inr fields
  | None => inl (has_no_attribute entry "get")
  end.

Section World.
Variable W : world.

(** [Neo4jSetup.clear_database()] *)
Definition clear_database : M unit :=
  with_session W
    (result <- session_run W clear_query [] ;;
     Neo4jSetup.raise_failure result ;;;
     print "Database cleared successfully.").

(** [Neo4jSetup.populate_database()] *)
Definition populate_database : M unit :=
  with_session W
    (result <- session_run W populate_query [] ;;
     Neo4jSetup.raise_failure result ;;;
     print "Database populated with Citibank metadata graph.").

(** [session.run(query).single()["count"]] *)
Definition single_count (query : string) : M value :=
  result <- session_run W query [] ;;
  row <- lift (Neo4jSetup.single result) ;;
  match row with
  | None => raise (Error "'NoneType' object is not subscriptable")
  | Some r => lift (BackendApi.getitem r "count")
  end.

(** [Neo4jSetup.verify_setup()] *)
Definition verify_setup : M unit :=
  with_session W
    (node_count <- single_count node_count_query ;;
     rel_count <- single_count rel_count_query ;;
     print ("Setup verified: " ++ format_value W node_count ++ " nodes, "
              ++ format_value W rel_count ++ " relationships created.")).

(** [setup_neo4j_database()] *)
Definition setup_neo4j_database : M unit :=
  driver_open ;;;
  try_finally
    (clear_database ;;; populate_database ;;; verify_setup)
    driver_close.

(** The body of the loop over the catalog entries, for entry number [i].
    An entry that is no object makes [entry.get] raise, in the [try] block
    and again in its handler. *)
Definition ingest_entry (i : nat) (entry : value) : M unit :=
  try_except
    (fields <- lift (get_of entry) ;;
     result <- session_run W merge_dataset_query (dataset_params i fields) ;;
     Neo4jSetup.raise_failure result)
    (fun e =>
       fields <- lift (get_of entry) ;;
       print ("Failed to ingest catalog entry " ++ PyStr.str_nat i ++ " ("
                ++ format_value W
                     (get_or fields "Concept_ID" (VStr "unknown"))
                ++ "): " ++ str_exn e)).

(** [for i, entry in enumerate(catalog_data)], from index [i] on *)
Fixpoint ingest_entries (i : nat) (entries : list value) : M unit :=
  match entries with
  | [] => ret tt
  | entry :: entries' =>
      ingest_entry i entry ;;; ingest_entries (S i) entries'
  end.

(** [Neo4jSetup.ingest_catalog_data(catalog_data)] *)
Definition ingest_catalog_data (catalog_data : value) : M unit :=
  if negb (truthy catalog_data)
  then print "No catalog data provided to ingest_catalog_data(). Skipping ingestion."
  else
    with_session W
      (entries <- lift (BackendApi.iter_items catalog_data) ;;
       ingest_entries 0 entries ;;;
       try_except
         (result <- session_run W related_to_query [] ;;
          Neo4jSetup.raise_failure result)
         (fun e =>
            print ("Failed to create RELATED_TO relationships: " ++ str_exn e)) ;;;
       print "NASA catalog ingestion completed.").

End World.

End Neo4jAdmin.

(** ** src/nasa_cmr_catalog_poc.py *)

Module NasaCatalog.
Import Eff.

(** What the catalog service answered to the request, after
    [raise_for_status]: the [CMR-Hits] header, if any, and the document
    [response.json()] gives (or the error it raises). *)
Record cmr_response : Type :=
  { cmr_hits : option string; cmr_json : string + value }.

Definition PAGE_LIMIT : nat := 5.

(** [s[:n]] *)
Fixpoint take (n : nat) (s : string) {struct s} : string :=
  match n, s with
  | S n', String c s' => String c (take n' s')
  | _, _ => EmptyString
  end.

(** ["-" * 50] *)
Definition rule : string := string_of_list_ascii (List.repeat "-"%char 50).

(** [obj.get(key, default)] on a value *)
Definition value_get (obj : value) (key : string) (default : value)
  : exn + value :=
  fields <~ Neo4jAdmin.get_of obj ;;
  inr (Neo4jAdmin.get_or fields key default).

(** The double quote, as a text. *)
Definition DQUOTE : string := String (ascii_of_nat 34) EmptyString.

(** [summary[:100] + '...']: a string is cut and extended; a list is cut
    and then refuses the string; a mapping refuses the slice as a key; any
    other value has no subscript. *)
Definition snippet_of (summary : value) : exn + value :=
  match summary with
  | VStr s => inr (VStr (take 100 s ++ "..."))
  | VList _ =>
      inl (Error ("can only concatenate list (not " ++ DQUOTE ++ "str"
                    ++ DQUOTE ++ ") to list"))
  | VMap _ | VNode _ | VRel _ _ _ => inl (Error "unhashable type: 'slice'")
  | _ =>
      inl (Error ("'" ++ type_name summary ++ "' object is not subscriptable"))
  end.

(** The dictionary made from one entry of the feed. *)
Definition catalog_entry (entry : value) : exn + value :=
  name <~ value_get entry "dataset_id" (VStr "N/A") ;;
  concept <~ value_get entry "id" (VStr "N/A") ;;
  short_name <~ value_get entry "short_name" (VStr "N/A") ;;
  location <~ value_get entry "location" (VStr "N/A") ;;
  summary <~ value_get entry "summary" (VStr "No summary provided") ;;
  snippet <~ snippet_of summary ;;
  inr (VMap [ ("Catalog_Entry_Name", name);
              ("Concept_ID", concept);
              ("Short_Name", short_name);
              ("Metadata_Source_URL", location);
              ("Summary_Snippet", snippet) ]).

(** [for entry in collection_entries: catalog_data.append({...})] *)
Fixpoint collect_entries (catalog_data : list value) (entries : list value)
  : exn + list value :=
  match entries with
  | [] => inr catalog_data
  | entry :: entries' =>
      item <~ catalog_entry entry ;;
      collect_entries (catalog_data ++ [item])%list entries'
  end.

(** [len(v)] *)
Definition len_of (v : value) : exn + nat :=
  match v with
  | VList items => inr (List.length items)
  | VStr s => inr (String.length s)
  | _ =>
      match fields_of v with
      | Some fields => inr (List.length fields)
      | None =>
          inl (Error ("object of type '" ++ type_name v ++ "' has no len()"))
      end
  end.

(** [data.get('feed', {}).get('entry', [])] *)
Definition feed_entries (data : value) : exn + value :=
  feed <~ value_get data "feed" (VMap []) ;;
  value_get feed "entry" (VList []).

Section World.
Variable W : world.

(** [fetch_nasa_cmr_catalog()], given how the request went: the message of
    the [RequestException], or the response. *)
Definition fetch_nasa_cmr_catalog (outcome : string + cmr_response)
  : M value :=
  print ("Fetching " ++ PyStr.str_nat PAGE_LIMIT
           ++ " collections from NASA CMR...") ;;;
  match outcome with
  | inl cause =>
      print ("An error occurred during the API request: " ++ cause) ;;;
      ret VNone
  | inr response =>
      data <-
        lift (match cmr_json response with
              | inl cause => inl (Error cause)
              | inr data => inr data
              end) ;;
      collection_entries <- lift (feed_entries data) ;;
      print ("Total collections found in the database (CMR-Hits): "
               ++ match cmr_hits response with
                  | Some hits => hits
                  | None => "N/A"
                  end) ;;;
      count <- lift (len_of collection_entries) ;;
      print ("Displaying " ++ PyStr.str_nat count
               ++ " sample catalog entries:") ;;;
      print rule ;;;
      entries <- lift (BackendApi.iter_items collection_entries) ;;
      catalog_data <- lift (collect_entries [] entries) ;;
      print (repr_value W (VList catalog_data)) ;;;
      ret (VList catalog_data)
  end.

End World.

End NasaCatalog.

(** ** backend_api.py: the schema, search and statistics endpoints *)

Module BackendEndpoints.
Import Eff.

(** The reply of the listing endpoints: [{"tables": ..., "count": ...}]. *)
Record TablesReply : Type := { tables : list record; tables_count : nat }.

Definition tables_query : string := "
            MATCH (t:Table)
            OPTIONAL MATCH (t)-[:HAS_COLUMN]->(c:Column)
            RETURN t.name as name,
                   t.description as description,
                   collect({
                       name: c.name,
                       data_type: c.data_type
                   }) as columns
            ORDER BY t.name
            ".

Definition table_details_query : string := "
            MATCH (t:Table {name: $table_name})
            OPTIONAL MATCH (t)-[:HAS_COLUMN]->(c:Column)
            OPTIONAL MATCH (c)-[:IS_CDE_FOR]->(cde:CDE)
            OPTIONAL MATCH (t)-[:BELONGS_TO_REGION]->(r:Region)
            RETURN t.name as name,
                   t.description as description,
                   collect(DISTINCT {
                       name: c.name,
                       data_type: c.data_type,
                       is_cde: cde.name IS NOT NULL,
                       cde_name: cde.name
                   }) as columns,
                   collect(DISTINCT r.name) as regions
            ".

Definition search_query : string := "
            MATCH (t:Table)
            WHERE toLower(t.name) CONTAINS toLower($search)
               OR toLower(t.description) CONTAINS toLower($search)
            RETURN t.name as name, t.description as description
            LIMIT 20
            ".

(** The statistics queries, in the order of the dictionary. *)
Definition stats_queries : list (string * string) :=
  [ ("tables", "MATCH (t:Table) RETURN count(t) as count");
    ("columns", "MATCH (c:Column) RETURN count(c) as count");
    ("clients", "MATCH (c:Client) RETURN count(c) as count");
    ("accounts", "MATCH (a:Bank_account) RETURN count(a) as count");
    ("transactions", "MATCH (t:Card_transaction) RETURN count(t) as count");
    ("loans", "MATCH (l:Loan_record) RETURN count(l) as count") ].

(** [record['count'] if record else 0]: a missing or empty record counts
    as zero. *)
Definition count_of (row : option record) : exn + value :=
  match row with
  | None => inr (VInt 0)
  | Some [] => inr (VInt 0)
  | Some r => BackendApi.getitem r "count"
  end.

Section World.
Variable W : world.

(** [get_tables()], the handler of [GET /api/schema/tables] *)
Definition get_tables : M TablesReply :=
  driver_open ;;;
  try_finally
    (with_session W
       (result <- session_run W tables_query [] ;;
        tables <- collect_dicts result ;;
        ret {| tables := tables; tables_count := List.length tables |}))
    driver_close.

(** [get_table_details(table_name)], the handler of
    [GET /api/schema/table/{table_name}] *)
Definition get_table_details (table_name : string) : M record :=
  driver_open ;;;
  try_finally
    (with_session W
       (result <-
          session_run W table_details_query
            [("table_name", VStr table_name)] ;;
        row <- lift (Neo4jSetup.single result) ;;
        match row with
        | None | Some [] =>
            raise (HTTPException 404
                     ("Table '" ++ table_name ++ "' not found"))
        | Some r => ret (dict r)
        end))
    driver_close.

(** The body of [search_tables(q)]. *)
Definition search_tables_body (q : string) : M TablesReply :=
  driver_open ;;;
  try_finally
    (with_session W
       (result <- session_run W search_query [("search", VStr q)] ;;
        tables <- collect_dicts result ;;
        ret {| tables := tables; tables_count := List.length tables |}))
    driver_close.

(** [GET /api/search/tables] with its parameter declaration
    [q: str = Query(..., min_length=1)]: the parameter is required and a
    value shorter than one character is refused without calling the
    body. *)
Definition search_tables (q : option string) : M TablesReply :=
  match q with
  | None => raise (ValidationError "q: field required")
  | Some EmptyString => raise (ValidationError "q: too short")
  | Some q => search_tables_body q
  end.

(** The loop of [get_stats] over the queries. *)
Fixpoint stats_loop (queries : list (string * string))
  (stats : @PyDict.t value) : M (@PyDict.t value) :=
  match queries with
  | [] => ret stats
  | (key, query) :: queries' =>
      result <- session_run W query [] ;;
      row <- lift (Neo4jSetup.single result) ;;
      count <- lift (count_of row) ;;
      stats_loop queries' (PyDict.set key count stats)
  end.

(** [get_stats()], the handler of [GET /api/stats] *)
Definition get_stats : M (@PyDict.t value) :=
  driver_open ;;;
  try_finally (with_session W (stats_loop stats_queries [])) driver_close.

End World.

End BackendEndpoints.

(** ** The specification's vocabulary

    Notions the specification uses and the source does not implement; they
    serve to state what the specification asks at a given input. *)

Module Spec.

Definition is_word_char (c : ascii) : bool :=
  PyStr.is_lower c || PyStr.is_upper c || PyStr.is_digit c || Ascii.eqb c "_".

(** The words of a text: its maximal runs of letters, digits and
    underscores. *)
Fixpoint words_go (cur : string) (s : string) : list string :=
  match s with
  | EmptyString =>
      match cur with
      | EmptyString => []
      | _ => [cur]
      end
  | String c s' =>
      if is_word_char c then words_go (cur ++ String c EmptyString) s'
      else
        match cur with
        | EmptyString => words_go EmptyString s'
        | _ => cur :: words_go EmptyString s'
        end
  end.

Definition words (s : string) : list string := words_go EmptyString s.

Definition mutating_verbs : list string :=
  ["create"; "merge"; "delete"; "remove"; "set"; "drop"; "detach"].

(** A mutating verb occurs as a whole word, in any letter case. *)
Definition has_mutating_verb (query : string) : bool :=
  existsb (fun w => existsb (String.eqb (PyStr.lower w)) mutating_verbs)
    (words query).

(** The allow-list pattern for identifiers: letters, digits and underscore
    only. *)
Fixpoint allowed_identifier (s : string) : bool :=
  match s with
  | EmptyString => true
  | String c s' => is_word_char c && allowed_identifier s'
  end.

(** [pre] is the text before the first occurrence of [sep] in
    [pre ++ sep ++ post]: no occurrence starts earlier. *)
Definition first_occurrence (sep pre post : string) : Prop :=
  forall pre' post',
    pre ++ sep ++ post = pre' ++ sep ++ post' ->
    String.length pre <= String.length pre'.

(** [mid] is the text of [mid ++ rest] up to its first occurrence of
    [sep], or all of it when [sep] does not occur. *)
Definition up_to_next (sep mid rest : string) : Prop :=
  (rest = "" /\ PyStr.contains mid sep = false) \/
  (exists rest', rest = sep ++ rest' /\ first_occurrence sep mid rest').

(** The leading token of a line: the first word of the stripped line when
    the line starts with it. *)
Definition leading_token (line : string) : string :=
  match PyStr.strip line with
  | EmptyString => EmptyString
  | String c _ as stripped =>
      if is_word_char c then hd EmptyString (words stripped) else EmptyString
  end.

(** The line's leading token is, in any letter case, one of the keywords. *)
Definition token_is_keyword (line : string) : bool :=
  existsb
    (fun keyword =>
       PyStr.points_eqb (PyStr.upper (leading_token line))
         (PyStr.points keyword))
    BackendApi.clause_keywords.

(** The lines from the first one whose leading token is a keyword. *)
Fixpoint from_first_keyword_token (lines : list string) : list string :=
  match lines with
  | [] => []
  | line :: rest =>
      if token_is_keyword line then lines else from_first_keyword_token rest
  end.

(** The five identifiers of a relationship mapping all match the pattern. *)
Definition mapping_allowed
  (m : string * string * string * string * string) : bool :=
  let '(src_label, src_key, tgt_label, tgt_key, rel_type) := m in
  allowed_identifier src_label && allowed_identifier src_key
  && allowed_identifier tgt_label && allowed_identifier tgt_key
  && allowed_identifier rel_type.

(** The center node of a lineage answer. *)
Definition center_node (table_name : string) : BackendApi.LineageNode :=
  {| BackendApi.node_id := table_name;
     BackendApi.node_label := table_name;
     BackendApi.node_type := "center" |}.

(** The relationships on the path of one lineage record, and the edges
    they stand for, one edge per occurrence. *)
Definition row_rels (r : Eff.record) : list Eff.value :=
  match BackendApi.getitem r "rels" with
  | inr rels =>
      match BackendApi.iter_items rels with
      | inr items => items
      | inl _ => []
      end
  | inl _ => []
  end.

Definition row_edges (r : Eff.record) : list BackendApi.LineageEdge :=
  match BackendApi.add_edges [] (row_rels r) with
  | inr es => es
  | inl _ => []
  end.

(** What the dictionary of lineage nodes keeps true: no key occurs twice,
    and every key is the id of its node. *)
Definition nodes_ok (d : @PyDict.t BackendApi.LineageNode) : Prop :=
  NoDup (PyDict.keys d) /\
  forall k n, In (k, n) d -> BackendApi.node_id n = k.

End Spec.

(** ** Worlds used in examples *)

Module Examples.
Import Eff.

(** A store that accepts every statement and returns the given records, a
    model service that always answers [reply], no files. *)
Definition quiet_world (key : option string) (rows : list record)
  (reply : string) : world :=
  {| OPENAI_API_KEY := key;
     session_failure := fun _ => None;
     store := fun _ _ _ => {| fetched := rows; failure := None |};
     requests_post := fun _ _ =>
       inr {| status_code := 200; text := reply;
              json := JsonReply (inr reply) reply |};
     chat_create := fun _ _ _ => inr (Some reply);
     now_isoformat := fun _ => "2025-01-01T00:00:00";
     glob_glob := fun _ _ => [];
     json_load := fun _ _ => inl "No such file or directory";
     repr_value := fun _ => "[...]" |}.

(** The same, with a store that refuses every statement. *)
Definition failing_store_world (key : option string) (cause reply : string)
  : world :=
  {| OPENAI_API_KEY := key;
     session_failure := fun _ => None;
     store := fun _ _ _ => {| fetched := []; failure := Some cause |};
     requests_post := fun _ _ =>
       inr {| status_code := 200; text := reply;
              json := JsonReply (inr reply) reply |};
     chat_create := fun _ _ _ => inr (Some reply);
     now_isoformat := fun _ => "2025-01-01T00:00:00";
     glob_glob := fun _ _ => [];
     json_load := fun _ _ => inl "No such file or directory";
     repr_value := fun _ => "[...]" |}.

(** A store whose statements are interrupted by [cause] after [rows] have
    arrived. *)
Definition interrupted_store_world (rows : list record) (cause : string)
  : world :=
  {| OPENAI_API_KEY := None;
     session_failure := fun _ => None;
     store := fun _ _ _ => {| fetched := rows; failure := Some cause |};
     requests_post := fun _ _ => inl "unreachable";
     chat_create := fun _ _ _ => inl "unreachable";
     now_isoformat := fun _ => "2025-01-01T00:00:00";
     glob_glob := fun _ _ => [];
     json_load := fun _ _ => inl "No such file or directory";
     repr_value := fun _ => "[...]" |}.

(** A model service that cannot be reached. *)
Definition unreachable_model_world (key : option string)
  (rows : list record) (cause : string) : world :=
  {| OPENAI_API_KEY := key;
     session_failure := fun _ => None;
     store := fun _ _ _ => {| fetched := rows; failure := None |};
     requests_post := fun _ _ => inl cause;
     chat_create := fun _ _ _ => inl cause;
     now_isoformat := fun _ => "2025-01-01T00:00:00";
     glob_glob := fun _ _ => [];
     json_load := fun _ _ => inl "No such file or directory";
     repr_value := fun _ => "[...]" |}.

(** One JSON file holding the given document. *)
Definition file_world (path : string) (document : value) : world :=
  {| OPENAI_API_KEY := None;
     session_failure := fun _ => None;
     store := fun _ _ _ => {| fetched := []; failure := None |};
     requests_post := fun _ _ => inl "unreachable";
     chat_create := fun _ _ _ => inl "unreachable";
     now_isoformat := fun _ => "2025-01-01T00:00:00";
     glob_glob := fun _ _ => [path];
     json_load := fun _ fp =>
       if String.eqb fp path then inr document
       else inl "No such file or directory";
     repr_value := fun _ => "[...]" |}.

(** A store that returns [rows] to every statement but [query], to which
    it returns no record. *)
Definition silent_on_world (query : string) (rows : list record) : world :=
  {| OPENAI_API_KEY := None;
     session_failure := fun _ => None;
     store := fun _ q _ =>
       if String.eqb q query then {| fetched := []; failure := None |}
       else {| fetched := rows; failure := None |};
     requests_post := fun _ _ => inl "unreachable";
     chat_create := fun _ _ _ => inl "unreachable";
     now_isoformat := fun _ => "2025-01-01T00:00:00";
     glob_glob := fun _ _ => [];
     json_load := fun _ _ => inl "No such file or directory";
     repr_value := fun _ => "[...]" |}.

Definition table_node (name : string) : value := VNode [("name", VStr name)].

Definition loads_into (src dst : string) : value :=
  VRel [("lineage_type", VStr "ETL")] [("name", VStr src)]
    [("name", VStr dst)].

Definition lineage_row (center related : string) (rels : list value)
  : record :=
  [("t", table_node center); ("related", table_node related);
   ("rels", VList rels)].

(** The tables around DEPOSIT_SUMMARY: one hop to CUSTOMER_MASTER, and two
    hops to FINAL_REPORT through CUSTOMER_MASTER. *)
Definition deposit_rows : list record :=
  [ lineage_row "DEPOSIT_SUMMARY" "CUSTOMER_MASTER"
      [loads_into "CUSTOMER_MASTER" "DEPOSIT_SUMMARY"];
    lineage_row "DEPOSIT_SUMMARY" "FINAL_REPORT"
      [loads_into "CUSTOMER_MASTER" "DEPOSIT_SUMMARY";
       loads_into "CUSTOMER_MASTER" "FINAL_REPORT"] ].

Definition lineage_edge (src dst : string) : BackendApi.LineageEdge :=
  {| BackendApi.source := src;
     BackendApi.target := dst;
     BackendApi.edge_type := "LOADS_INTO" |}.

Definition related_node (name : string) : BackendApi.LineageNode :=
  {| BackendApi.node_id := name;
     BackendApi.node_label := name;
     BackendApi.node_type := "related" |}.

End Examples.

(** ** Further notions and example worlds *)

Module Notions.
Import Eff.

(** The test [execute_query] applies to the agent's query. *)
Definition refused_query (cypher : string) : bool :=
  match cypher with EmptyString => true | _ => false end
  || PyStr.startswith cypher "Error"
  || PyStr.startswith cypher "OPENAI".

(** The name of the related table of a lineage record, when the record
    has one. *)
Definition related_name (r : record) : option string :=
  match BackendApi.getitem r "related" with
  | inr related =>
      match BackendApi.subscript related "name" with
      | inr (VStr name) => Some name
      | _ => None
      end
  | inl _ => None
  end.

(** The files [ingest_json_files] works on: the given list when it is not
    empty, else what the directory holds. *)
Definition chosen_files (W : world) (h : list event) (directory : string)
  (file_list : option (list string)) : list string :=
  match file_list with
  | Some (f :: fs) => f :: fs
  | _ => glob_glob W h (Neo4jSetup.path_join directory "*.json")
  end.

(** The statement of one relationship mapping. *)
Definition mapping_cypher
  (m : string * string * string * string * string) : string :=
  let '(src_label, src_key, tgt_label, tgt_key, rel_type) := m in
  Neo4jSetup.relationship_cypher src_label src_key tgt_label tgt_key rel_type.

(** An edge of the lineage relationship type. *)
Definition loads_into_edge (e : BackendApi.LineageEdge) : Prop :=
  BackendApi.edge_type e = "LOADS_INTO".

(** The dictionary entry of a related table. *)
Definition related_entry (name : string) : string * BackendApi.LineageNode :=
  (name, Examples.related_node name).

(** The statement event of a statistics query. *)
Definition stats_run (kq : string * string) : event := Run (snd kq) [].

(** A catalog entry as [fetch_nasa_cmr_catalog] makes them: the five
    keys in order, and a snippet of at most 103 characters that ends with
    three dots. *)
Definition catalog_item (v : value) : Prop :=
  exists name concept short_name location snippet,
    v = VMap [ ("Catalog_Entry_Name", name);
               ("Concept_ID", concept);
               ("Short_Name", short_name);
               ("Metadata_Source_URL", location);
               ("Summary_Snippet", VStr snippet) ] /\
    String.length snippet <= 103 /\
    PyStr.endswith snippet "..." = true.

(** The text the agent generates for a prompt: the one read from the
    model's reply, when a credential is set, the request is answered with
    status 200 and the reply is a JSON document; none otherwise. *)
Definition generated_query (W : world) (h : list event) (prompt : string)
  : option string :=
  if not_set (OPENAI_API_KEY W) then None
  else
    match requests_post W h prompt with
    | inl _ => None
    | inr r =>
        if Nat.eqb (status_code r) 200
        then
          match json r with
          | JsonInvalid _ => None
          | JsonReply content repr => Some (Agent.generated_text content repr)
          end
        else None
    end.

(** The names of a list in the order of their first occurrence, without
    those already [seen]. *)
Fixpoint first_seen (seen : list string) (names : list string)
  : list string :=
  match names with
  | [] => []
  | n :: rest =>
      if existsb (String.eqb n) seen then first_seen seen rest
      else n :: first_seen (seen ++ [n])%list rest
  end.

(** The statements among the events of a history, in order. *)
Definition is_statement (ev : event) : bool :=
  match ev with
  | Run _ _ => true
  | _ => false
  end.

Definition statements (evs : list event) : list event :=
  filter is_statement evs.

(** The statements of the catalog entries, numbered from [i] on. *)
Fixpoint entry_statements (i : nat) (objs : list (list (string * value)))
  : list event :=
  match objs with
  | [] => []
  | fields :: objs' =>
      Run Neo4jAdmin.merge_dataset_query (Neo4jAdmin.dataset_params i fields)
      :: entry_statements (S i) objs'
  end.

(** The history of the session of [get_stats] when the first [i] statistics
    statements have been run. *)
Definition stats_history (h : list event) (i : nat) : list event :=
  (h ++ [DriverOpen; SessionOpen]
     ++ map stats_run (firstn i BackendEndpoints.stats_queries))%list.

End Notions.

(** * Properties *)

Import Eff.

(** ** Running computations *)

(** Membership in an explicit list. *)
Ltac in_list := simpl; repeat (first [left; reflexivity | right]).

Lemma app_one_one {A} (h : list A) (a b : A) :
  ((h ++ [a]) ++ [b] = h ++ [a; b])%list.
Proof. now rewrite <- app_assoc. Qed.

Lemma iterate_collect (rows : list record) (fail : option string) :
  forall acc,
    iterate (fun acc r => inr (acc ++ [dict r])%list) rows fail acc =
    match fail with
    | Some cause => inl (Error cause)
    | None => inr (acc ++ map dict rows)%list
    end.
Proof.
  induction rows as [|r rows IH]; intros acc; simpl.
  - destruct fail; [reflexivity | now rewrite app_nil_r].
  - rewrite IH. destruct fail; [reflexivity |].
    now rewrite <- app_assoc.
Qed.

(** What a session that reads a whole result leaves behind: the session is
    opened, the statement is run, the session is closed; the outcome is all
    the records or the failure. *)
Lemma read_all_in_session (W : world) (q : string)
  (params : list (string * value)) (h : list event) :
  with_session W (result <- session_run W q params ;; collect_dicts result) h =
  match session_failure W h with
  | Some cause => (h, inl (Error cause))
  | None =>
      let c := store W (h ++ [SessionOpen]) q params in
      ((h ++ [SessionOpen; Run q params; SessionClose])%list,
       match failure c with
       | Some cause => inl (Error cause)
       | None => inr (map dict (fetched c))
       end)
  end.
Proof.
  unfold with_session, session_open, bind, try_finally, session_run,
    collect_dicts, for_records, lift, emit.
  destruct (session_failure W h) as [cause|]; [reflexivity |].
  cbn zeta. rewrite iterate_collect.
  repeat rewrite <- app_assoc. simpl.
  destruct (failure _); reflexivity.
Qed.

(** The executor, step by step. *)
Lemma execute_cypher_query_eq (W : world) (cypher : string)
  (h : list event) :
  BackendApi.execute_cypher_query W cypher h =
  match session_failure W (h ++ [DriverOpen]) with
  | Some cause => ((h ++ [DriverOpen; DriverClose])%list, inl (Error cause))
  | None =>
      let c := store W (h ++ [DriverOpen; SessionOpen]) cypher [] in
      ((h ++ [DriverOpen; SessionOpen; Run cypher []; SessionClose;
              DriverClose])%list,
       match failure c with
       | Some cause => inl (Error cause)
       | None => inr (map dict (fetched c))
       end)
  end.
Proof.
  unfold BackendApi.execute_cypher_query.
  change (for_records ?c (fun records r => inr (records ++ [dict r])%list) [])
    with (collect_dicts c).
  unfold bind at 1. unfold driver_open, emit at 1.
  unfold try_finally. rewrite read_all_in_session.
  unfold driver_close, emit.
  destruct (session_failure W (h ++ [DriverOpen])) as [cause|].
  - now rewrite app_one_one.
  - cbn zeta. repeat rewrite <- app_assoc. simpl.
    destruct (failure _); reflexivity.
Qed.

(** ** C9: the executor *)

(** C9.  For every query text and every behaviour of the store,
    [execute_cypher_query] opens one session, runs the statement, and
    closes the session and the driver on every path (also when the session
    cannot be opened or the statement fails); it returns every record as a
    plain mapping, or, when the statement fails - even after some records
    have arrived - no record at all and the store's error. *)
Theorem C9_executor_scoped_and_all_or_nothing (W : world) (cypher : string)
  (h : list event) :
  BackendApi.execute_cypher_query W cypher h =
  match session_failure W (h ++ [DriverOpen]) with
  | Some cause => ((h ++ [DriverOpen; DriverClose])%list, inl (Error cause))
  | None =>
      let c := store W (h ++ [DriverOpen; SessionOpen]) cypher [] in
      ((h ++ [DriverOpen; SessionOpen; Run cypher []; SessionClose;
              DriverClose])%list,
       match failure c with
       | Some cause => inl (Error cause)
       | None => inr (map dict (fetched c))
       end)
  end.
Proof. apply execute_cypher_query_eq. Qed.

(** A statement interrupted after two records returns none of them, and
    the session and the driver are closed all the same. *)
Example executor_drops_partial_rows :
  run_M (BackendApi.execute_cypher_query
           (Examples.interrupted_store_world
              [[("n", VInt 1)]; [("n", VInt 2)]] "connection reset")
           "MATCH (n) RETURN n") =
  ([DriverOpen; SessionOpen; Run "MATCH (n) RETURN n" []; SessionClose;
    DriverClose],
   inl (Error "connection reset")).
Proof. reflexivity. Qed.

(** ** C1: no validation before execution *)

(** C1 (as amended).  The raw-query operation applies no verb check: for
    every query text, with or without a mutating verb, it hands the text
    unchanged to the executor as soon as a session opens; it answers
    success=true with the records and their count when the statement
    succeeds, and fails with an HTTP 500 error carrying the cause when it
    does not.  It never answers success=false. *)
Theorem C1_raw_query_runs_every_text (W : world) (cypher : string)
  (h : list event) :
  BackendApi.run_cypher W cypher h =
  match session_failure W (h ++ [DriverOpen]) with
  | Some cause =>
      ((h ++ [DriverOpen; DriverClose])%list,
       inl (HTTPException 500 ("Cypher execution failed: " ++ cause)))
  | None =>
      let c := store W (h ++ [DriverOpen; SessionOpen]) cypher [] in
      ((h ++ [DriverOpen; SessionOpen; Run cypher []; SessionClose;
              DriverClose])%list,
       match failure c with
       | Some cause =>
           inl (HTTPException 500 ("Cypher execution failed: " ++ cause))
       | None =>
           inr {| BackendApi.success := true;
                  BackendApi.reply_results := map dict (fetched c);
                  BackendApi.count := List.length (map dict (fetched c)) |}
       end)
  end.
Proof.
  unfold BackendApi.run_cypher, try_except, bind.
  rewrite execute_cypher_query_eq.
  destruct (session_failure W (h ++ [DriverOpen])) as [cause|];
    [reflexivity |].
  cbn zeta. destruct (failure _); reflexivity.
Qed.

(** C1 (counterexample).  ["DELETE n"] contains the mutating verb [delete]
    as a whole word, yet the raw-query operation runs it on the store and
    answers success=true. *)
Lemma C1_delete_is_executed :
  Spec.has_mutating_verb "DELETE n" = true /\
  run_M (BackendApi.run_cypher (Examples.quiet_world None [] "") "DELETE n") =
  ([DriverOpen; SessionOpen; Run "DELETE n" []; SessionClose; DriverClose],
   inr {| BackendApi.success := true;
          BackendApi.reply_results := [];
          BackendApi.count := 0 |}).
Proof. split; reflexivity. Qed.

(** ** C3: a missing credential *)

(** The backend reads the schema from the graph store before it turns to
    the model service, whatever the credential. *)
Lemma backend_reads_schema_first (W : world) (question : string)
  (h : list event) :
  session_failure W (h ++ [DriverOpen]) = None ->
  exists evs r,
    BackendApi.generate_cypher_from_question W question h =
    ((h ++ DriverOpen :: SessionOpen :: Run BackendApi.schema_query []
        :: SessionClose :: evs)%list, r).
Proof.
  intros Hsession.
  unfold BackendApi.generate_cypher_from_question.
  unfold bind at 1. unfold driver_open, emit at 1.
  unfold try_finally. unfold bind at 1.
  rewrite read_all_in_session, Hsession. cbn zeta.
  destruct (failure _) as [cause|].
  - unfold driver_close, emit. repeat rewrite <- app_assoc. cbn [app].
    do 2 eexists. reflexivity.
  - unfold bind, chat, driver_close, emit, raise, ret.
    destruct (chat_create W _ _ _) as [cause | [content|]];
      repeat rewrite <- app_assoc; cbn [app]; do 2 eexists; reflexivity.
Qed.

(** The agent returns at once when the credential is not set: nothing is
    added to the history. *)
Lemma agent_credentials_missing (W : world) (question : string)
  (h : list event) :
  not_set (OPENAI_API_KEY W) = true ->
  Agent.generate_lineage_response W question h =
  (h, inr (Agent.KEY_NOT_SET, "")).
Proof.
  intros Hkey. unfold Agent.generate_lineage_response.
  now rewrite Hkey.
Qed.

(** With the variable unset the module of the backend does not load:
    nothing is run, and nothing is returned. *)
Lemma backend_not_loaded (W : world) {A} (call : M A) (h : list event) :
  OPENAI_API_KEY W = None ->
  exists e, BackendApi.loaded W call h = (h, inl e).
Proof.
  intros Hkey. unfold BackendApi.loaded. rewrite Hkey.
  eexists. reflexivity.
Qed.

(** C3.  With no credential - the variable unset, or set to the empty
    text - the agent's [generate_lineage_response] returns the fixed
    explanation and an empty query and touches neither the model service
    nor the graph store.  The backend has no such guard.  With the variable
    unset its module does not load (the constructor of the client raises),
    so nothing is run, and no explanation is returned either.  With the
    variable set to the empty text the module loads, and
    [generate_cypher_from_question] opens a session and reads the schema
    from the graph store; at the question ["q"], with a model service that
    refuses the key, it calls the model all the same and raises. *)
Theorem C3_credentials_missing :
  (forall (W : world) (question : string) (h : list event),
      not_set (OPENAI_API_KEY W) = true ->
      Agent.generate_lineage_response W question h =
      (h, inr (Agent.KEY_NOT_SET, ""))) /\
  (forall (W : world) (question : string) (h : list event),
      OPENAI_API_KEY W = None ->
      exists e,
        BackendApi.loaded W
          (BackendApi.generate_cypher_from_question W question) h =
        (h, inl e)) /\
  (forall (W : world) (question : string) (h : list event),
      OPENAI_API_KEY W = Some "" ->
      session_failure W (h ++ [DriverOpen]) = None ->
      exists evs r,
        BackendApi.loaded W
          (BackendApi.generate_cypher_from_question W question) h =
        ((h ++ DriverOpen :: SessionOpen :: Run BackendApi.schema_query []
            :: SessionClose :: evs)%list, r)) /\
  (let W :=
     Examples.unreachable_model_world (Some "") []
       "Incorrect API key provided" in
   not_set (OPENAI_API_KEY W) = true /\
   run_M (BackendApi.loaded W
            (BackendApi.generate_cypher_from_question W "q")) =
   ([DriverOpen; SessionOpen; Run BackendApi.schema_query []; SessionClose;
     ModelChat BackendApi.CYPHER_EXPERT (BackendApi.cypher_prompt "[...]" "q");
     DriverClose],
    inl (Error "Incorrect API key provided"))).
Proof.
  split; [exact agent_credentials_missing |].
  split; [intros W question h; apply backend_not_loaded |].
  split; [| split; reflexivity].
  intros W question h Hkey Hsession.
  unfold BackendApi.loaded. rewrite Hkey. cbn [BackendApi.openai_client].
  now apply backend_reads_schema_first.
Qed.

Lemma C3_credentials_missing_witness :
  let W := Examples.quiet_world (Some "") [] "" in
  not_set (OPENAI_API_KEY W) = true /\
  Agent.generate_lineage_response W
    "Show all clients who have a savings account." [] =
  ([], inr (Agent.KEY_NOT_SET, "")) /\
  OPENAI_API_KEY W = Some "" /\
  session_failure W ([] ++ [DriverOpen]) = None /\
  exists evs r,
    BackendApi.loaded W
      (BackendApi.generate_cypher_from_question W
         "Show all clients who have a savings account.") [] =
    (DriverOpen :: SessionOpen :: Run BackendApi.schema_query []
       :: SessionClose :: evs, r).
Proof.
  intros W.
  destruct C3_credentials_missing as (Hagent & _ & Hbackend & _).
  split; [reflexivity |]. split; [apply Hagent; reflexivity |].
  split; [reflexivity |]. split; [reflexivity |].
  exact (Hbackend W _ [] eq_refl eq_refl).
Defined.

(** ** C7: the fast paths of summarization *)

(** C7 (as amended).  [summarize_results] returns the fixed
    not-configured message when no credential is set, whatever the
    results, and the fixed no-results message when a credential is set and
    the results are empty; [generate_summary] returns its fixed no-results
    message whenever the results are empty.  None of these paths adds an
    event to the history. *)
Theorem C7_summary_fast_paths (W : world) (question cypher : string)
  (results : list record) (h : list event) :
  (not_set (OPENAI_API_KEY W) = true ->
   App.summarize_results W question results cypher h =
   (h, inr App.NOT_CONFIGURED)) /\
  (not_set (OPENAI_API_KEY W) = false ->
   App.summarize_results W question [] cypher h = (h, inr App.NO_RESULTS)) /\
  BackendApi.generate_summary W question [] cypher h =
  (h, inr BackendApi.NO_RESULTS).
Proof.
  unfold App.summarize_results. repeat split.
  - intros ->. reflexivity.
  - intros ->. reflexivity.
Qed.

Lemma C7_summary_fast_paths_witness :
  App.summarize_results (Examples.quiet_world None [] "") "q"
    [[("n", VInt 1)]] "MATCH (n) RETURN n" [] =
  ([], inr App.NOT_CONFIGURED) /\
  App.summarize_results (Examples.quiet_world (Some "sk-1") [] "") "q" []
    "MATCH (n) RETURN n" [] =
  ([], inr App.NO_RESULTS).
Proof.
  split.
  - apply (C7_summary_fast_paths (Examples.quiet_world None [] "")).
    reflexivity.
  - apply (C7_summary_fast_paths (Examples.quiet_world (Some "sk-1") [] "")
             "q" "MATCH (n) RETURN n" []).
    reflexivity.
Defined.

(** C7 (counterexample).  With no credential set, [summarize_results] on an
    empty result list returns the not-configured message, which is not the
    no-results message. *)
Lemma C7_empty_results_without_credential :
  run_M (App.summarize_results (Examples.quiet_world None [] "") "q" []
           "MATCH (n) RETURN n") =
  ([], inr App.NOT_CONFIGURED) /\
  App.NOT_CONFIGURED <> App.NO_RESULTS.
Proof. split; [reflexivity | discriminate]. Qed.

(** ** C8: summarization failures stay local *)

(** A generated query that deletes every node is run by the
    question-answering endpoint. *)
Example ask_question_runs_detach_delete :
  In (Run "MATCH (n) DETACH DELETE n" [])
     (trace_of (BackendApi.ask_question
                  (Examples.quiet_world (Some "sk-1") []
                     "EXPLANATION: removes every node
CYPHER: MATCH (n) DETACH DELETE n")
                  "Remove everything.")).
Proof. unfold trace_of. in_list. Qed.

(** [generate_summary] on a non-empty result list: one model call, and a
    string whatever the call does. *)
Lemma generate_summary_eq (W : world) (question cypher : string)
  (results : list record) (h : list event) :
  results <> [] ->
  BackendApi.generate_summary W question results cypher h =
  ((h ++ [ModelChat BackendApi.DATA_ANALYST
            (BackendApi.summary_request W question results cypher)])%list,
   inr match chat_create W h BackendApi.DATA_ANALYST
               (BackendApi.summary_request W question results cypher) with
       | inl cause => "Summary generation failed: " ++ cause
       | inr None =>
           "Summary generation failed: "
           ++ str_exn (BackendApi.none_has_no "strip")
       | inr (Some content) => PyStr.strip content
       end).
Proof.
  intros Hne. destruct results as [|r rs]; [contradiction |].
  unfold BackendApi.generate_summary, try_except, bind, chat, ret, raise.
  destruct (chat_create W h _ _) as [cause | [content|]]; reflexivity.
Qed.

(** [generate_sql_from_cypher] always returns a string. *)
Lemma generate_sql_total (W : world) (cypher question : string)
  (h : list event) :
  exists sql,
    BackendApi.generate_sql_from_cypher W cypher question h =
    ((h ++ [ModelChat BackendApi.SQL_EXPERT
              (BackendApi.sql_prompt cypher question)])%list,
     inr sql).
Proof.
  unfold BackendApi.generate_sql_from_cypher, try_except, bind, chat, ret,
    raise.
  destruct (chat_create W h _ _) as [cause | [content|]]; eexists;
    reflexivity.
Qed.

(** [generate_summary] always returns a string. *)
Lemma generate_summary_total (W : world) (question cypher : string)
  (results : list record) (h : list event) :
  exists evs s,
    BackendApi.generate_summary W question results cypher h =
    ((h ++ evs)%list, inr s).
Proof.
  destruct results as [|r rs].
  - exists [], BackendApi.NO_RESULTS. now rewrite app_nil_r.
  - rewrite generate_summary_eq by discriminate. do 2 eexists. reflexivity.
Qed.

(** The question-answering endpoint has no verb check: whatever non-empty
    query the parser produced is run as soon as a session opens. *)
Lemma ask_question_runs_generated_query (W : world) (question : string)
  (h h1 : list event) (explanation cypher : string) :
  BackendApi.generate_cypher_from_question W question h =
  (h1, inr (explanation, cypher)) ->
  cypher <> "" ->
  session_failure W (h1 ++ [DriverOpen]) = None ->
  exists evs r,
    BackendApi.ask_question W question h =
    ((h1 ++ DriverOpen :: SessionOpen :: Run cypher [] :: evs)%list, r).
Proof.
  intros Hgen Hne Hsession.
  unfold BackendApi.ask_question, try_except.
  unfold bind at 1. rewrite Hgen.
  destruct cypher as [|c0 cypher']; [contradiction |].
  unfold bind at 1. rewrite execute_cypher_query_eq, Hsession. cbn zeta.
  destruct (failure _) as [cause|].
  - unfold raise. do 2 eexists. reflexivity.
  - unfold bind at 1.
    destruct (generate_sql_total W (String c0 cypher') question
                (h1 ++ [DriverOpen; SessionOpen; Run (String c0 cypher') [];
                        SessionClose; DriverClose])%list) as [sql ->].
    unfold bind at 1.
    match goal with
    | |- context [BackendApi.generate_summary W ?q ?rs ?c ?h0] =>
        destruct (generate_summary_total W q c rs h0) as [evs [s ->]]
    end.
    repeat rewrite <- app_assoc. cbn [app].
    do 2 eexists. reflexivity.
Qed.

(** [summarize_results] with a credential, on a non-empty result list: one
    request, and a string whatever the request does. *)
Lemma summarize_results_eq (W : world) (question cypher : string)
  (results : list record) (h : list event) :
  not_set (OPENAI_API_KEY W) = false ->
  results <> [] ->
  App.summarize_results W question results cypher h =
  ((h ++ [ModelPost (App.summary_request W question results cypher)])%list,
   inr match requests_post W h
               (App.summary_request W question results cypher) with
       | inl cause => "Error generating summary: " ++ cause
       | inr r =>
           if Nat.eqb (status_code r) 200
           then match json r with
                | JsonInvalid cause => "Error generating summary: " ++ cause
                | JsonReply (inl cause) _ =>
                    "Error generating summary: " ++ cause
                | JsonReply (inr content) _ => PyStr.strip content
                end
           else "Error generating summary: " ++ PyStr.str_nat (status_code r)
       end).
Proof.
  intros Hkey Hne. destruct results as [|r0 rs]; [contradiction |].
  unfold App.summarize_results. rewrite Hkey.
  unfold try_except, bind, post, ret, raise.
  destruct (requests_post W h _) as [cause | r]; [reflexivity |].
  destruct (Nat.eqb (status_code r) 200); [| reflexivity].
  destruct (json r) as [cause | [cause | content] repr]; reflexivity.
Qed.

(** C8.  On a non-empty result list, [generate_summary] and
    [summarize_results] never raise: when the model call raises, or (for
    [summarize_results]) answers with a status other than 200, they return
    a string that embeds the cause.  Consequently [ask_question] returns
    the generated query and the records of its execution whatever the
    summarization call does. *)
Theorem C8_summary_failure_is_embedded (W : world)
  (question cypher : string) (results : list record) (h : list event) :
  results <> [] ->
  (exists h' s,
      BackendApi.generate_summary W question results cypher h = (h', inr s)) /\
  (forall cause,
      chat_create W h BackendApi.DATA_ANALYST
        (BackendApi.summary_request W question results cypher) = inl cause ->
      snd (BackendApi.generate_summary W question results cypher h) =
      inr ("Summary generation failed: " ++ cause)) /\
  (exists h' s,
      App.summarize_results W question results cypher h = (h', inr s)) /\
  (forall cause,
      not_set (OPENAI_API_KEY W) = false ->
      requests_post W h (App.summary_request W question results cypher) =
      inl cause ->
      snd (App.summarize_results W question results cypher h) =
      inr ("Error generating summary: " ++ cause)) /\
  (forall r,
      not_set (OPENAI_API_KEY W) = false ->
      requests_post W h (App.summary_request W question results cypher) =
      inr r ->
      status_code r <> 200 ->
      snd (App.summarize_results W question results cypher h) =
      inr ("Error generating summary: " ++ PyStr.str_nat (status_code r))) /\
  (forall explanation h0 h1,
      cypher <> "" ->
      BackendApi.generate_cypher_from_question W question h0 =
      (h1, inr (explanation, cypher)) ->
      BackendApi.execute_cypher_query W cypher h1 = (h, inr results) ->
      exists h' response,
        BackendApi.ask_question W question h0 = (h', inr response) /\
        BackendApi.results response = results /\
        BackendApi.cypher_query response = cypher /\
        BackendApi.explanation response = explanation).
Proof.
  intros Hne. repeat split.
  - destruct (generate_summary_total W question cypher results h)
      as [evs [s Hsum]]. now exists (h ++ evs)%list, s.
  - intros cause Hcall. rewrite generate_summary_eq by assumption.
    cbn [snd]. now rewrite Hcall.
  - destruct (not_set (OPENAI_API_KEY W)) eqn:Hkey.
    + unfold App.summarize_results. rewrite Hkey. do 2 eexists. reflexivity.
    + rewrite summarize_results_eq by assumption. do 2 eexists. reflexivity.
  - intros cause Hkey Hcall. rewrite summarize_results_eq by assumption.
    cbn [snd]. now rewrite Hcall.
  - intros r Hkey Hcall Hstatus. rewrite summarize_results_eq by assumption.
    cbn [snd]. rewrite Hcall.
    destruct (Nat.eqb_spec (status_code r) 200); [contradiction | reflexivity].
  - intros explanation h0 h1 Hq Hgen Hexec.
    unfold BackendApi.ask_question, try_except.
    unfold bind at 1. rewrite Hgen.
    destruct cypher as [|c0 cypher']; [contradiction |].
    unfold bind at 1. rewrite Hexec.
    unfold bind at 1.
    destruct (generate_sql_total W (String c0 cypher') question h)
      as [sql Hsql].
    rewrite Hsql.
    unfold bind at 1.
    destruct (generate_summary_total W question (String c0 cypher') results
                (h ++ [ModelChat BackendApi.SQL_EXPERT
                         (BackendApi.sql_prompt (String c0 cypher')
                            question)])%list)
      as [evs [s Hsum]].
    rewrite Hsum.
    do 2 eexists. split; [reflexivity |]. simpl. auto.
Qed.

Lemma C8_summary_failure_is_embedded_witness :
  let W := Examples.unreachable_model_world (Some "sk-1") [] "timed out" in
  let rows : list record := [[("n", VInt 1)]] in
  rows <> [] /\
  snd (BackendApi.generate_summary W "q" rows "MATCH (n) RETURN n" []) =
  inr "Summary generation failed: timed out" /\
  snd (App.summarize_results W "q" rows "MATCH (n) RETURN n" []) =
  inr "Error generating summary: timed out".
Proof.
  intros W rows.
  assert (Hne : rows <> []) by discriminate.
  split; [exact Hne |].
  destruct (C8_summary_failure_is_embedded W "q" "MATCH (n) RETURN n" rows
              [] Hne) as (_ & Hbackend & _ & Happ & _).
  split.
  - apply Hbackend. reflexivity.
  - apply Happ; reflexivity.
Defined.

(** ** C10: the agent's synthesize-and-execute operation *)

(** The first [try] block: one request, and either the pair returned from
    inside the block (with an empty query) or the generated text. *)
Lemma obtain_cypher_eq (W : world) (prompt : string) (h : list event) :
  Agent.obtain_cypher W prompt h =
  ((h ++ [ModelPost prompt])%list,
   inr match requests_post W h prompt with
       | inl cause => inl ("OpenAI request failed: " ++ cause, "")
       | inr r =>
           if negb (Nat.eqb (status_code r) 200)
           then inl ("OpenAI request failed: "
                       ++ PyStr.str_nat (status_code r) ++ " " ++ text r,
                     "")
           else
             match json r with
             | JsonInvalid cause =>
                 inl ("OpenAI request failed: " ++ cause, "")
             | JsonReply content repr =>
                 inr (Agent.generated_text content repr)
             end
       end).
Proof.
  unfold Agent.obtain_cypher, try_except, bind, post, ret, raise.
  destruct (requests_post W h prompt) as [cause | r]; [reflexivity |].
  destruct (negb (Nat.eqb (status_code r) 200)); [reflexivity |].
  destruct (json r); reflexivity.
Qed.

(** The second [try] block: the generated text is run and returned,
    whether the store accepts it or not. *)
Lemma execute_generated_eq (W : world) (g : string) (h : list event) :
  Agent.execute_generated W g h =
  match session_failure W (h ++ [DriverOpen]) with
  | Some cause =>
      ((h ++ [DriverOpen])%list,
       inr ("Error executing Cypher on Neo4j: " ++ cause, g))
  | None =>
      let c := store W (h ++ [DriverOpen; SessionOpen]) g [] in
      match failure c with
      | Some cause =>
          ((h ++ [DriverOpen; SessionOpen; Run g []; SessionClose])%list,
           inr ("Error executing Cypher on Neo4j: " ++ cause, g))
      | None =>
          ((h ++ [DriverOpen; SessionOpen; Run g []; SessionClose;
                  DriverClose])%list,
           inr ("Executed Cypher; returned "
                  ++ PyStr.str_nat (List.length (map dict (fetched c)))
                  ++ " record(s). Sample: "
                  ++ repr_records W (firstn 3 (map dict (fetched c))),
                g))
      end
  end.
Proof.
  unfold Agent.execute_generated, try_except.
  unfold bind at 1. unfold driver_open, emit at 1.
  unfold bind at 1. rewrite read_all_in_session.
  destruct (session_failure W (h ++ [DriverOpen])) as [cause|];
    [reflexivity |].
  cbn zeta. repeat rewrite <- app_assoc. simpl.
  destruct (failure _) as [cause|]; [reflexivity |].
  unfold bind, driver_close, emit, ret.
  repeat rewrite <- app_assoc. reflexivity.
Qed.

(** C10 (as amended).  [generate_lineage_response] never raises and always
    returns a pair (explanation, query).  When no text is generated (no
    credential, a failed or refused model request, a reply that is no JSON
    document) it stops before execution: no driver, no session, no
    statement, and the query is empty.  When a text is generated - the
    stripped content of the model's reply, or the rendering of the reply
    document - execution is attempted and the query returned is that text:
    when the session cannot be opened or the store fails on the statement,
    the text is returned all the same, with an explanation that embeds the
    cause, and the statement that was run (if any) is that text; otherwise
    the text was run and is returned with the count of the records. *)
Theorem C10_generate_lineage_response_total (W : world) (question : string)
  (h : list event) :
  let prompt := Agent.CYPHER_GENERATION_TEMPLATE Agent.schema_hint question in
  match Notions.generated_query W h prompt with
  | None =>
      exists evs explanation,
        Agent.generate_lineage_response W question h =
        ((h ++ evs)%list, inr (explanation, "")) /\
        ~ In DriverOpen evs /\ ~ In SessionOpen evs /\
        forall q ps, ~ In (Run q ps) evs
  | Some generated =>
      let h1 := (h ++ [ModelPost prompt])%list in
      match session_failure W (h1 ++ [DriverOpen]) with
      | Some cause =>
          Agent.generate_lineage_response W question h =
          ((h1 ++ [DriverOpen])%list,
           inr ("Error executing Cypher on Neo4j: " ++ cause, generated))
      | None =>
          let c := store W (h1 ++ [DriverOpen; SessionOpen]) generated [] in
          match failure c with
          | Some cause =>
              Agent.generate_lineage_response W question h =
              ((h1 ++ [DriverOpen; SessionOpen; Run generated [];
                       SessionClose])%list,
               inr ("Error executing Cypher on Neo4j: " ++ cause, generated))
          | None =>
              Agent.generate_lineage_response W question h =
              ((h1 ++ [DriverOpen; SessionOpen; Run generated [];
                       SessionClose; DriverClose])%list,
               inr ("Executed Cypher; returned "
                      ++ PyStr.str_nat (List.length (fetched c))
                      ++ " record(s). Sample: "
                      ++ repr_records W (firstn 3 (map dict (fetched c))),
                    generated))
          end
      end
  end.
Proof.
  intros prompt.
  unfold Notions.generated_query, Agent.generate_lineage_response.
  fold prompt.
  destruct (not_set (OPENAI_API_KEY W)).
  { exists [], Agent.KEY_NOT_SET. rewrite app_nil_r.
    split; [reflexivity |]. simpl. intuition. }
  unfold bind. rewrite obtain_cypher_eq.
  assert (Hearly : forall e : string,
             exists evs explanation,
               ret (e, "") (h ++ [ModelPost prompt])%list =
               ((h ++ evs)%list, inr (explanation, "")) /\
               ~ In DriverOpen evs /\ ~ In SessionOpen evs /\
               forall q ps, ~ In (Run q ps) evs).
  { intros e. exists [ModelPost prompt], e.
    split; [reflexivity |]. simpl.
    repeat split.
    - intros [H | []]; discriminate H.
    - intros [H | []]; discriminate H.
    - intros q ps [H | []]; discriminate H. }
  destruct (requests_post W h prompt) as [cause | r]; [apply Hearly |].
  destruct (Nat.eqb (status_code r) 200); cbn [negb]; [| apply Hearly].
  destruct (json r) as [cause | content repr]; [apply Hearly |].
  rewrite execute_generated_eq.
  destruct (session_failure W _) as [cause|]; [reflexivity |].
  cbn zeta. destruct (failure _) as [cause|]; [reflexivity |].
  now rewrite length_map.
Qed.

(** C10 (counterexample).  When the model answers with blank text, the
    generated query is empty; it is still run on the store, and the empty
    query comes back with the store's error: the query is empty although
    the failure happened at execution, not before. *)
Lemma C10_empty_query_after_execution :
  let r :=
    run_M (Agent.generate_lineage_response
             (Examples.failing_store_world (Some "sk-1") "Invalid input"
                "   ") "q") in
  snd r = inr ("Error executing Cypher on Neo4j: Invalid input", "") /\
  In (Run "" []) (fst r).
Proof. split; [reflexivity | in_list]. Qed.

(** ** C5 and C6: the lineage traversal *)

Section Lineage.
Import BackendApi.

Lemma add_edges_acc (items : list value) :
  forall acc,
    add_edges acc items =
    match add_edges [] items with
    | inl e => inl e
    | inr new => inr (acc ++ new)%list
    end.
Proof.
  induction items as [|rel items IH]; intros acc.
  - simpl. now rewrite app_nil_r.
  - simpl. unfold and_then.
    destruct (start_node_of rel) as [e | s]; [reflexivity |].
    destruct (end_node_of rel) as [e | en]; [reflexivity |].
    destruct (as_str "source" _) as [e | src']; [reflexivity |].
    destruct (as_str "target" _) as [e | tgt']; [reflexivity |].
    rewrite IH. rewrite (IH [_]).
    destruct (add_edges [] items) as [e | new]; [reflexivity |].
    now rewrite <- app_assoc.
Qed.

Lemma add_edges_length (items : list value) :
  forall new, add_edges [] items = inr new ->
              List.length new = List.length items.
Proof.
  induction items as [|rel items IH]; intros new.
  - simpl. intros [= <-]. reflexivity.
  - simpl. unfold and_then.
    destruct (start_node_of rel) as [e | s]; [discriminate |].
    destruct (end_node_of rel) as [e | en]; [discriminate |].
    destruct (as_str "source" _) as [e | src']; [discriminate |].
    destruct (as_str "target" _) as [e | tgt']; [discriminate |].
    rewrite add_edges_acc.
    destruct (add_edges [] items) as [e | new'] eqn:Hrest; [discriminate |].
    intros [= <-]. simpl. f_equal. now apply IH.
Qed.

Lemma mem_false_not_in {V} (k : string) (d : @PyDict.t V) :
  PyDict.mem k d = false -> ~ In k (PyDict.keys d).
Proof.
  induction d as [|[k' v'] d IH]; simpl; [tauto |].
  intros H. apply orb_false_iff in H. destruct H as [Hk Hd].
  intros [-> | Hin].
  - now rewrite String.eqb_refl in Hk.
  - now apply IH.
Qed.

Lemma set_absent {V} (k : string) (v : V) (d : @PyDict.t V) :
  PyDict.mem k d = false -> PyDict.set k v d = (d ++ [(k, v)])%list.
Proof.
  induction d as [|[k' v'] d IH]; simpl; [reflexivity |].
  intros H. apply orb_false_iff in H. destruct H as [Hk Hd].
  rewrite Hk. now rewrite IH.
Qed.

Lemma NoDup_snoc {A} (l : list A) (a : A) :
  NoDup l -> ~ In a l -> NoDup (l ++ [a]).
Proof.
  induction l as [|x l IH]; simpl; intros Hnd Hnin.
  - constructor; [tauto | constructor].
  - inversion Hnd as [|? ? Hx Hl]; subst. constructor.
    + intros Hin. apply in_app_or in Hin.
      destruct Hin as [Hin | [-> | []]]; [now apply Hx | tauto].
    + apply IH; tauto.
Qed.

Lemma nodes_ok_ids (d : @PyDict.t LineageNode) :
  Spec.nodes_ok d -> NoDup (map node_id (PyDict.values d)).
Proof.
  intros [Hnd Hid].
  assert (Heq : map node_id (PyDict.values d) = PyDict.keys d).
  { unfold PyDict.values, PyDict.keys. rewrite map_map.
    apply map_ext_in. intros [k n] Hin. simpl. now apply Hid. }
  now rewrite Heq.
Qed.

(** One turn of the loop: the edges of the record are appended, and the
    dictionary is unchanged or gets one new entry at its end. *)
Lemma lineage_step_inv (d d' : @PyDict.t LineageNode)
  (es es' : list LineageEdge) (r : record) :
  lineage_step (d, es) r = inr (d', es') ->
  es' = (es ++ Spec.row_edges r)%list /\
  (Spec.nodes_ok d -> Spec.nodes_ok d') /\
  (forall kv, In kv d -> In kv d').
Proof.
  unfold lineage_step, and_then, Spec.row_edges, Spec.row_rels.
  destruct (getitem r "t") as [e | t_node]; [discriminate |].
  destruct (getitem r "related") as [e | related]; [discriminate |].
  destruct (getitem r "rels") as [e | rels]; [discriminate |].
  destruct (subscript related "name") as [e | name]; [discriminate |].
  destruct name as [| | | name | | | |]; try discriminate.
  destruct (PyDict.mem name d) eqn:Hmem; simpl;
    (destruct (iter_items rels) as [e | items]; [discriminate |]);
    rewrite add_edges_acc;
    (destruct (add_edges [] items) as [e | new]; [discriminate |]);
    intros [= <- <-]; (split; [reflexivity |]).
  - split; auto.
  - rewrite set_absent by assumption. split.
    + intros [Hnd Hid]. split.
      * unfold PyDict.keys. rewrite map_app. simpl.
        apply NoDup_snoc; [assumption | now apply mem_false_not_in].
      * intros k n Hin. apply in_app_or in Hin.
        destruct Hin as [Hin | [[= <- <-] | []]]; [now apply Hid |].
        reflexivity.
    + intros kv Hin. apply in_or_app. now left.
Qed.

(** The whole loop. *)
Lemma lineage_loop_inv (rows : list record) (fail : option string) :
  forall d es d' es',
    iterate lineage_step rows fail (d, es) = inr (d', es') ->
    es' = (es ++ flat_map Spec.row_edges rows)%list /\
    (Spec.nodes_ok d -> Spec.nodes_ok d') /\
    (forall kv, In kv d -> In kv d').
Proof.
  induction rows as [|r rows IH]; intros d es d' es'; cbn [iterate flat_map].
  - destruct fail; [discriminate |]. intros [= <- <-].
    rewrite app_nil_r. auto.
  - destruct (lineage_step (d, es) r) as [e | [d1 es1]] eqn:Hstep;
      [discriminate |].
    intros Hrest.
    apply lineage_step_inv in Hstep. destruct Hstep as (-> & Hok1 & Hin1).
    apply IH in Hrest. destruct Hrest as (-> & Hok2 & Hin2).
    rewrite <- app_assoc. auto.
Qed.

(** The body of the lineage endpoint, step by step. *)
Lemma get_lineage_body_eq (W : world) (table_name : string) (depth : Z)
  (h : list event) :
  get_lineage_body W table_name depth h =
  match session_failure W (h ++ [DriverOpen]) with
  | Some cause => ((h ++ [DriverOpen; DriverClose])%list, inl (Error cause))
  | None =>
      let params := [("table_name", VStr table_name)] in
      let c :=
        store W (h ++ [DriverOpen; SessionOpen]) (lineage_query depth)
          params in
      ((h ++ [DriverOpen; SessionOpen; Run (lineage_query depth) params;
              SessionClose; DriverClose])%list,
       match iterate lineage_step (fetched c) (failure c)
               ([(table_name, Spec.center_node table_name)], []) with
       | inl e => inl e
       | inr (nodes, edges) =>
           inr {| nodes := PyDict.values nodes; edges := edges |}
       end)
  end.
Proof.
  unfold get_lineage_body.
  unfold bind at 1. unfold driver_open, emit at 1.
  unfold try_finally, with_session, session_open, driver_close.
  unfold bind at 1.
  destruct (session_failure W (h ++ [DriverOpen])) as [cause|].
  - unfold emit. now rewrite app_one_one.
  - unfold try_finally, bind, session_run, for_records, lift, emit, ret.
    repeat rewrite <- app_assoc. simpl.
    destruct (iterate lineage_step _ _ _) as [e | [nodes0 edges0]];
      repeat rewrite <- app_assoc; reflexivity.
Qed.

Lemma lineage_step_count (st st' : @PyDict.t LineageNode * list LineageEdge)
  (r : record) :
  lineage_step st r = inr st' ->
  List.length (Spec.row_edges r) = List.length (Spec.row_rels r).
Proof.
  destruct st as [d es].
  unfold lineage_step, and_then, Spec.row_edges, Spec.row_rels.
  destruct (getitem r "t") as [e | t_node]; [discriminate |].
  destruct (getitem r "related") as [e | related]; [discriminate |].
  destruct (getitem r "rels") as [e | rels]; [discriminate |].
  destruct (subscript related "name") as [e | name]; [discriminate |].
  destruct name as [| | | name | | | |]; try discriminate.
  destruct (negb (PyDict.mem name d));
    (destruct (iter_items rels) as [e | items]; [discriminate |]);
    rewrite add_edges_acc;
    (destruct (add_edges [] items) as [e | new] eqn:Hnew; [discriminate |]);
    intros _; now apply add_edges_length.
Qed.

Lemma lineage_loop_count (rows : list record) (fail : option string) :
  forall st st',
    iterate lineage_step rows fail st = inr st' ->
    List.length (flat_map Spec.row_edges rows) =
    list_sum (map (fun r => List.length (Spec.row_rels r)) rows).
Proof.
  induction rows as [|r rows IH]; intros st st'; cbn [iterate flat_map map].
  - reflexivity.
  - destruct (lineage_step st r) as [e | st1] eqn:Hstep; [discriminate |].
    intros Hrest. rewrite length_app. unfold list_sum. cbn [fold_right].
    fold (list_sum (map (fun r => List.length (Spec.row_rels r)) rows)).
    rewrite (lineage_step_count _ _ _ Hstep). f_equal.
    now apply IH in Hrest.
Qed.

Lemma center_nodes_ok (table_name : string) :
  Spec.nodes_ok [(table_name, Spec.center_node table_name)].
Proof.
  split.
  - simpl. constructor; [tauto | constructor].
  - intros k n [[= <- <-] | []]. reflexivity.
Qed.

End Lineage.

(** C5.  A depth outside [1, 5] is refused with nothing issued: the
    history is unchanged, so no driver, session or query was used.  Every
    answer the endpoint returns was computed for a depth within [1, 5] and
    contains the center node; when the store returns no record, the answer
    is the center node alone, with no edge. *)
Theorem C5_depth_checked_and_center_present (W : world)
  (table_name : string) (depth : option Z) (h : list event) :
  let d := match depth with Some d => d | None => 2%Z end in
  let params := [("table_name", VStr table_name)] in
  (~ (1 <= d <= 5)%Z ->
   BackendApi.get_lineage W table_name depth h =
   (h, inl (ValidationError "depth: out of range"))) /\
  (forall h' response,
      BackendApi.get_lineage W table_name depth h = (h', inr response) ->
      (1 <= d <= 5)%Z /\
      In (Spec.center_node table_name) (BackendApi.nodes response)) /\
  ((1 <= d <= 5)%Z ->
   session_failure W (h ++ [DriverOpen]) = None ->
   store W (h ++ [DriverOpen; SessionOpen]) (BackendApi.lineage_query d)
     params = {| fetched := []; failure := None |} ->
   BackendApi.get_lineage W table_name depth h =
   ((h ++ [DriverOpen; SessionOpen; Run (BackendApi.lineage_query d) params;
           SessionClose; DriverClose])%list,
    inr {| BackendApi.nodes := [Spec.center_node table_name];
           BackendApi.edges := [] |})).
Proof.
  intros d params. unfold BackendApi.get_lineage. fold d.
  destruct ((1 <=? d)%Z && (d <=? 5)%Z) eqn:Hrange.
  - apply andb_true_iff in Hrange. destruct Hrange as [H1 H5].
    apply Z.leb_le in H1. apply Z.leb_le in H5.
    rewrite get_lineage_body_eq. fold params.
    split; [intros Hout; exfalso; apply Hout; lia |]. split.
    + intros h' response.
      destruct (session_failure W (h ++ [DriverOpen])); [discriminate |].
      cbn zeta.
      destruct (iterate BackendApi.lineage_step _ _ _)
        as [e | [nodes0 edges0]] eqn:Hloop; [discriminate |].
      intros [= _ <-]. split; [lia |].
      apply lineage_loop_inv in Hloop. destruct Hloop as (_ & _ & Hin).
      simpl. unfold PyDict.values.
      change (Spec.center_node table_name)
        with (snd (table_name, Spec.center_node table_name)).
      apply in_map. apply Hin. now left.
    + intros _ Hsession Hstore. rewrite Hsession. cbn zeta.
      rewrite Hstore. reflexivity.
  - split; [reflexivity |]. split.
    + intros h' response. discriminate.
    + intros Hin. exfalso.
      apply andb_false_iff in Hrange.
      destruct Hrange as [H | H]; apply Z.leb_gt in H; lia.
Qed.

Lemma C5_depth_checked_and_center_present_witness :
  let W := Examples.quiet_world None [] "" in
  ~ (1 <= 0 <= 5)%Z /\
  run_M (BackendApi.get_lineage W "DEPOSIT_SUMMARY" (Some 0%Z)) =
  ([], inl (ValidationError "depth: out of range")) /\
  (1 <= 2 <= 5)%Z /\
  snd (run_M (BackendApi.get_lineage W "DEPOSIT_SUMMARY" (Some 2%Z))) =
  inr {| BackendApi.nodes := [Spec.center_node "DEPOSIT_SUMMARY"];
         BackendApi.edges := [] |}.
Proof.
  intros W.
  assert (Hout : ~ (1 <= 0 <= 5)%Z) by lia.
  assert (Hin : (1 <= 2 <= 5)%Z) by lia.
  split; [exact Hout |]. split.
  - apply (C5_depth_checked_and_center_present W "DEPOSIT_SUMMARY"
             (Some 0%Z) []). exact Hout.
  - split; [exact Hin |]. unfold run_M.
    rewrite (proj2 (proj2 (C5_depth_checked_and_center_present W
                             "DEPOSIT_SUMMARY" (Some 2%Z) []))
               Hin eq_refl eq_refl).
    reflexivity.
Defined.

(** C6.  In every answer of the lineage endpoint the nodes have pairwise
    different ids, while the edges are the edges of every relationship
    occurrence of every returned record, in order and with repetitions:
    there are as many edges as relationship occurrences. *)
Theorem C6_nodes_unique_edges_kept (W : world) (table_name : string)
  (depth : option Z) (h h' : list event)
  (response : BackendApi.LineageResponse) :
  BackendApi.get_lineage W table_name depth h = (h', inr response) ->
  let d := match depth with Some d => d | None => 2%Z end in
  let rows :=
    fetched (store W (h ++ [DriverOpen; SessionOpen])
               (BackendApi.lineage_query d)
               [("table_name", VStr table_name)]) in
  NoDup (map BackendApi.node_id (BackendApi.nodes response)) /\
  BackendApi.edges response = flat_map Spec.row_edges rows /\
  List.length (BackendApi.edges response) =
  list_sum (map (fun r => List.length (Spec.row_rels r)) rows).
Proof.
  intros Hrun d rows. unfold BackendApi.get_lineage in Hrun. fold d in Hrun.
  destruct ((1 <=? d)%Z && (d <=? 5)%Z); [| discriminate].
  rewrite get_lineage_body_eq in Hrun.
  destruct (session_failure W (h ++ [DriverOpen])); [discriminate |].
  cbn zeta in Hrun. fold rows in Hrun.
  destruct (iterate BackendApi.lineage_step rows _ _)
    as [e | [nodes0 edges0]] eqn:Hloop; [discriminate |].
  injection Hrun as _ <-. cbn [BackendApi.nodes BackendApi.edges].
  pose proof (lineage_loop_count _ _ _ _ Hloop) as Hcount.
  apply lineage_loop_inv in Hloop. destruct Hloop as (-> & Hok & _).
  split; [| split].
  - apply nodes_ok_ids, Hok, center_nodes_ok.
  - reflexivity.
  - exact Hcount.
Qed.

Lemma C6_nodes_unique_edges_kept_witness :
  let W := Examples.quiet_world None Examples.deposit_rows "" in
  let response :=
    {| BackendApi.nodes :=
         [Spec.center_node "DEPOSIT_SUMMARY";
          Examples.related_node "CUSTOMER_MASTER";
          Examples.related_node "FINAL_REPORT"];
       BackendApi.edges :=
         [Examples.lineage_edge "CUSTOMER_MASTER" "DEPOSIT_SUMMARY";
          Examples.lineage_edge "CUSTOMER_MASTER" "DEPOSIT_SUMMARY";
          Examples.lineage_edge "CUSTOMER_MASTER" "FINAL_REPORT"] |} in
  snd (run_M (BackendApi.get_lineage W "DEPOSIT_SUMMARY" (Some 2%Z))) =
  inr response /\
  NoDup (map BackendApi.node_id (BackendApi.nodes response)) /\
  List.length (BackendApi.edges response) = 3.
Proof.
  intros W response.
  split; [reflexivity |].
  destruct (C6_nodes_unique_edges_kept W "DEPOSIT_SUMMARY" (Some 2%Z) [] _
              response eq_refl) as (Hnodup & _ & Hlen).
  split; [exact Hnodup | exact Hlen].
Defined.

(** ** C2: identifiers interpolated by the ingestion *)

(** C2 (as amended).  The ingestion checks no identifier against an
    allow-list.  For every file path whose document is a list that starts
    with an object, the node label is the capitalized file name without its
    extension and without one final [s], whatever characters it contains,
    and the statement built from it is run on the store.  The labels, keys
    and relationship types of the relationship step are fixed constants,
    all made of letters, digits and underscores. *)
Theorem C2_label_interpolated_unchecked (W : world) (fp : string)
  (h : list event) (entries : list (string * value)) (rest : list value) :
  json_load W h fp = inr (VList (VMap entries :: rest)) ->
  let cypher :=
    Neo4jSetup.node_cypher (Neo4jSetup.label_of_file fp)
      (Neo4jSetup.id_key_of (map fst entries)) in
  let rows := [("rows", VList (VMap entries :: rest))] in
  (exists evs,
      Neo4jSetup.ingest_file W fp h =
      ((h ++ Run cypher rows :: evs)%list, inr tt)) /\
  forallb Spec.mapping_allowed Neo4jSetup.relationship_mappings = true.
Proof.
  intros Hload cypher rows. split; [| reflexivity].
  unfold Neo4jSetup.ingest_file, try_except.
  unfold bind at 1. unfold load_json. rewrite Hload.
  cbn [Neo4jSetup.as_rows Neo4jSetup.keys_of fields_of].
  unfold bind, lift, session_run, Neo4jSetup.raise_failure, print, emit, raise, ret.
  fold cypher. fold rows.
  destruct (failure (store W h cypher rows)) as [cause|];
    eexists; rewrite <- app_assoc; reflexivity.
Qed.

Lemma C2_label_interpolated_unchecked_witness :
  let doc := VList [VMap [("card_id", VInt 1); ("card_type", VStr "Debit")]] in
  let W := Examples.file_world "data/card_details.json" doc in
  json_load W [] "data/card_details.json" = inr doc /\
  exists evs,
    Neo4jSetup.ingest_file W "data/card_details.json" [] =
    (Run "UNWIND $rows AS row MERGE (n:Card_detail { card_id: row.card_id }) SET n += row"
       [("rows", doc)] :: evs, inr tt).
Proof.
  intros doc W. split; [reflexivity |].
  exact (proj1 (C2_label_interpolated_unchecked W "data/card_details.json"
                  [] _ _ eq_refl)).
Defined.

(** C2 (counterexample).  A file named [card-details.json] gives the label
    [Card-detail], and a file named [Client) DETACH DELETE (n.json] gives a
    label that closes the node pattern; neither matches the allow-list
    pattern, and both are concatenated into a statement that is run. *)
Lemma C2_unchecked_label_reaches_query :
  let doc := VList [VMap [("card_id", VInt 1)]] in
  let doc' := VList [VMap [("name", VStr "x")]] in
  Spec.allowed_identifier (Neo4jSetup.label_of_file "data/card-details.json")
  = false /\
  In (Run "UNWIND $rows AS row MERGE (n:Card-detail { card_id: row.card_id }) SET n += row"
        [("rows", doc)])
     (trace_of (Neo4jSetup.ingest_json_files
                  (Examples.file_world "data/card-details.json" doc)
                  "data" None)) /\
  Spec.allowed_identifier
    (Neo4jSetup.label_of_file "data/Client) DETACH DELETE (n.json") = false /\
  In (Run "UNWIND $rows AS row CREATE (n:Client) detach delete (n) SET n += row"
        [("rows", doc')])
     (trace_of (Neo4jSetup.ingest_json_files
                  (Examples.file_world "data/Client) DETACH DELETE (n.json"
                     doc')
                  "data" None)).
Proof.
  intros doc doc'.
  split; [reflexivity |]. split; [vm_compute; auto |].
  split; [reflexivity |]. vm_compute; auto.
Qed.

(** ** C4: parsing the model's reply *)

Section Strings.
Import PyStr.

Lemma str_app_nil_r (s : string) : s ++ "" = s.
Proof. induction s as [|c s IH]; simpl; [reflexivity | now rewrite IH]. Qed.

Lemma str_app_assoc (a b c : string) : (a ++ b) ++ c = a ++ b ++ c.
Proof. induction a as [|x a IH]; simpl; [reflexivity | now rewrite IH]. Qed.

Lemma startswith_app (p t : string) : startswith (p ++ t) p = true.
Proof.
  induction p as [|c p IH]; simpl; [reflexivity |].
  now rewrite Ascii.eqb_refl.
Qed.

Lemma startswith_inv (p : string) :
  forall s, startswith s p = true -> exists t, s = p ++ t.
Proof.
  induction p as [|c p IH]; intros s; simpl.
  - intros _. now exists s.
  - destruct s as [|b s]; [discriminate |].
    intros H. apply andb_true_iff in H. destruct H as [Hc Hs].
    apply Ascii.eqb_eq in Hc. subst b.
    destruct (IH s Hs) as [t ->]. now exists t.
Qed.

Lemma contains_app (pre sep post : string) :
  contains (pre ++ sep ++ post) sep = true.
Proof.
  induction pre as [|c pre IH].
  - cbn [append]. pose proof (startswith_app sep post) as Hstart.
    destruct (sep ++ post); cbn [contains]; now rewrite Hstart.
  - cbn [append contains]. rewrite IH. apply orb_true_r.
Qed.

(** Passing over the characters of a matched separator. *)
Lemma split_go_skip (sep : string) (x : string) :
  forall cur rest,
    split_go sep (String.length x) cur (x ++ rest) = split_go sep 0 cur rest.
Proof.
  induction x as [|c x IH]; intros cur rest; simpl; [reflexivity |].
  apply IH.
Qed.

(** Up to its first occurrence of the separator, a text is one piece. *)
Lemma split_go_first (sep : string) (pre : string) :
  forall cur post,
    sep <> "" ->
    Spec.first_occurrence sep pre post ->
    split_go sep 0 cur (pre ++ sep ++ post) =
    (cur ++ pre) :: split_go sep 0 "" post.
Proof.
  induction pre as [|a pre IH]; intros cur post Hsep Hfirst.
  - destruct sep as [|c sep']; [contradiction |].
    cbn [append split_go].
    change (String c (sep' ++ post)) with (String c sep' ++ post) at 1.
    rewrite startswith_app. cbn [String.length].
    rewrite Nat.sub_succ, Nat.sub_0_r, split_go_skip.
    now rewrite str_app_nil_r.
  - cbn [append split_go].
    destruct (startswith (String a (pre ++ sep ++ post)) sep) eqn:Hstart.
    + apply startswith_inv in Hstart. destruct Hstart as [t Ht].
      specialize (Hfirst "" t). cbn [append String.length] in Hfirst.
      specialize (Hfirst Ht). lia.
    + rewrite IH; [| assumption |].
      * now rewrite str_app_assoc.
      * intros pre' post' Heq.
        specialize (Hfirst (String a pre') post').
        cbn [append String.length] in Hfirst.
        rewrite Heq in Hfirst. specialize (Hfirst eq_refl). lia.
Qed.

(** A text without the separator is one piece. *)
Lemma split_go_none (sep : string) (s : string) :
  forall cur, contains s sep = false -> split_go sep 0 cur s = [cur ++ s].
Proof.
  induction s as [|c s IH]; intros cur Hnone.
  - simpl. now rewrite str_app_nil_r.
  - cbn [contains] in Hnone. apply orb_false_iff in Hnone.
    destruct Hnone as [Hstart Hrest].
    cbn [split_go]. rewrite Hstart, IH by assumption.
    now rewrite str_app_assoc.
Qed.

Lemma str_length_app (a b : string) :
  String.length (a ++ b) = String.length a + String.length b.
Proof. induction a as [|x a IH]; simpl; [reflexivity | now rewrite IH]. Qed.

Lemma drop_last_snoc (s : string) :
  s <> "" -> exists c, s = drop_last s ++ String c "".
Proof.
  induction s as [|a s IH]; [contradiction |].
  intros _. destruct s as [|b s'].
  - now exists a.
  - destruct IH as [c Hc]; [discriminate |].
    exists c.
    change (drop_last (String a (String b s')))
      with (String a (drop_last (String b s'))).
    cbn [append]. now rewrite <- Hc.
Qed.

Lemma contains_startswith (s sub : string) :
  startswith s sub = true -> contains s sub = true.
Proof. intros H. destruct s; cbn [contains]; now rewrite H. Qed.

(** Of two prefixes of one text, the shorter is a prefix of the longer. *)
Lemma prefix_of_prefix (v : string) :
  forall u x y,
    u ++ x = v ++ y -> String.length v <= String.length u ->
    startswith u v = true.
Proof.
  induction v as [|c v IH]; intros u x y Heq Hlen; [reflexivity |].
  destruct u as [|d u]; [simpl in Hlen; lia |].
  cbn [append] in Heq. injection Heq as -> Heq.
  cbn [startswith]. rewrite Ascii.eqb_refl.
  apply (IH u x y Heq). simpl in Hlen. lia.
Qed.

(** A search that establishes a first occurrence: the separator is not
    found in [pre] followed by the separator without its last character. *)
Lemma first_occurrence_by_search (sep pre post : string) :
  sep <> "" ->
  contains (pre ++ drop_last sep) sep = false ->
  Spec.first_occurrence sep pre post.
Proof.
  intros Hsep Hsearch pre' post' Heq.
  destruct (le_lt_dec (String.length pre) (String.length pre'))
    as [Hle | Hlt]; [exact Hle | exfalso].
  assert (Hfound : contains (pre ++ drop_last sep) sep = true);
    [| now rewrite Hfound in Hsearch].
  clear Hsearch. revert pre Heq Hlt.
  induction pre' as [|a pre' IH]; intros pre Heq Hlt.
  - apply contains_startswith.
    destruct (drop_last_snoc sep Hsep) as [c Hc].
    apply (prefix_of_prefix sep _ (String c "" ++ post) post').
    + rewrite str_app_assoc, <- (str_app_assoc (drop_last sep)), <- Hc.
      exact Heq.
    + rewrite str_length_app.
      assert (String.length sep =
              String.length (drop_last sep) + 1) as Hl
          by (rewrite Hc at 1; now rewrite str_length_app).
      destruct pre; simpl in *; lia.
  - destruct pre as [|b pre]; [simpl in Hlt; lia |].
    cbn [append] in Heq. injection Heq as -> Heq.
    cbn [append contains]. rewrite (IH pre Heq); [apply orb_true_r |].
    simpl in Hlt. lia.
Qed.

(** The piece before the separator and the piece after it. *)
Lemma split_two_pieces (sep pre mid rest : string) :
  sep <> "" ->
  Spec.first_occurrence sep pre (mid ++ rest) ->
  Spec.up_to_next sep mid rest ->
  exists more, split (pre ++ sep ++ mid ++ rest) sep = pre :: mid :: more.
Proof.
  intros Hsep Hfirst Hnext. unfold split.
  rewrite split_go_first by assumption. cbn [append].
  destruct Hnext as [[-> Hnone] | [rest' [-> Hmid]]].
  - rewrite str_app_nil_r, split_go_none by assumption. now exists [].
  - rewrite split_go_first by assumption. eexists. reflexivity.
Qed.

End Strings.

Section Fallback.
Import BackendApi.

Lemma scan_lines_started (lines : list string) :
  forall acc, scan_lines true acc lines = (acc ++ lines)%list.
Proof.
  induction lines as [|l lines IH]; intros acc; cbn [scan_lines].
  - now rewrite app_nil_r.
  - destruct (starts_clause l); rewrite IH, <- app_assoc; reflexivity.
Qed.

Lemma scan_lines_skip (before : list string) :
  forall acc lines,
    (forall l, In l before -> starts_clause l = false) ->
    scan_lines false acc (before ++ lines) = scan_lines false acc lines.
Proof.
  induction before as [|b before IH]; intros acc lines Hnone;
    [reflexivity |].
  cbn [app scan_lines]. rewrite (Hnone b) by now left.
  apply IH. intros l Hl. apply Hnone. now right.
Qed.

Lemma scan_lines_from (before after : list string) (line : string) :
  (forall l, In l before -> starts_clause l = false) ->
  starts_clause line = true ->
  scan_lines false [] (before ++ line :: after) = line :: after.
Proof.
  intros Hnone Hline. rewrite scan_lines_skip by assumption.
  cbn [scan_lines]. rewrite Hline. now rewrite scan_lines_started.
Qed.

Lemma scan_lines_nothing (lines : list string) :
  (forall l, In l lines -> starts_clause l = false) ->
  scan_lines false [] lines = [].
Proof.
  intros Hnone. rewrite <- (app_nil_r lines).
  now rewrite scan_lines_skip.
Qed.

End Fallback.

(** C4 (as amended).  When the reply contains both markers, the
    explanation is the text before the first query marker with every
    explanation marker removed, stripped, and the query is the text between
    the first query marker and the next one (or the end of the reply),
    stripped.  Otherwise - at least one marker is missing - the reply is
    read line by line: from the first line whose stripped, upper-cased text
    starts with MATCH, RETURN, WHERE, WITH, CREATE or MERGE (as a prefix, not
    as a token), all lines to the end, joined by line feeds and stripped,
    are the query, with the fixed explanation and the fallback status; when
    there is no such line the query is empty. *)
Theorem C4_parse_reply :
  (forall pre mid rest,
      Spec.first_occurrence BackendApi.CYPHER_MARKER pre (mid ++ rest) ->
      Spec.up_to_next BackendApi.CYPHER_MARKER mid rest ->
      PyStr.contains (pre ++ BackendApi.CYPHER_MARKER ++ mid ++ rest)
        BackendApi.EXPLANATION_MARKER = true ->
      BackendApi.parse (pre ++ BackendApi.CYPHER_MARKER ++ mid ++ rest) =
      {| BackendApi.gq_explanation :=
           PyStr.strip (PyStr.replace pre BackendApi.EXPLANATION_MARKER "");
         BackendApi.gq_query := PyStr.strip mid;
         BackendApi.gq_status := BackendApi.Generated |}) /\
  (forall content before line after,
      PyStr.contains content BackendApi.EXPLANATION_MARKER
      && PyStr.contains content BackendApi.CYPHER_MARKER = false ->
      PyStr.split content BackendApi.LF = (before ++ line :: after)%list ->
      (forall l, In l before -> BackendApi.starts_clause l = false) ->
      BackendApi.starts_clause line = true ->
      BackendApi.parse content =
      {| BackendApi.gq_explanation := BackendApi.FALLBACK_EXPLANATION;
         BackendApi.gq_query :=
           PyStr.strip (PyStr.join BackendApi.LF (line :: after));
         BackendApi.gq_status := BackendApi.ParseFallback |}) /\
  (forall content,
      PyStr.contains content BackendApi.EXPLANATION_MARKER
      && PyStr.contains content BackendApi.CYPHER_MARKER = false ->
      (forall l, In l (PyStr.split content BackendApi.LF) ->
                 BackendApi.starts_clause l = false) ->
      BackendApi.parse content =
      {| BackendApi.gq_explanation := BackendApi.FALLBACK_EXPLANATION;
         BackendApi.gq_query := "";
         BackendApi.gq_status := BackendApi.ParseFallback |}).
Proof.
  split; [| split].
  - intros pre mid rest Hfirst Hnext Hexpl.
    unfold BackendApi.parse. rewrite Hexpl, contains_app. cbn [andb].
    destruct (split_two_pieces BackendApi.CYPHER_MARKER pre mid rest)
      as [more ->]; [discriminate | assumption | assumption |].
    reflexivity.
  - intros content before line after Hcond Hsplit Hbefore Hline.
    unfold BackendApi.parse. rewrite Hcond, Hsplit.
    now rewrite scan_lines_from.
  - intros content Hcond Hnone.
    unfold BackendApi.parse. rewrite Hcond.
    now rewrite scan_lines_nothing.
Qed.

Lemma C4_parse_reply_witness :
  let reply_with_markers :=
    "EXPLANATION: lists every node
CYPHER: MATCH (n) RETURN n" in
  let reply_without_markers :=
    "Here is the query:
match (n)
return n" in
  BackendApi.parse reply_with_markers =
  {| BackendApi.gq_explanation := "lists every node";
     BackendApi.gq_query := "MATCH (n) RETURN n";
     BackendApi.gq_status := BackendApi.Generated |} /\
  BackendApi.parse reply_without_markers =
  {| BackendApi.gq_explanation := BackendApi.FALLBACK_EXPLANATION;
     BackendApi.gq_query := "match (n)
return n";
     BackendApi.gq_status := BackendApi.ParseFallback |} /\
  BackendApi.parse "I cannot answer that." =
  {| BackendApi.gq_explanation := BackendApi.FALLBACK_EXPLANATION;
     BackendApi.gq_query := "";
     BackendApi.gq_status := BackendApi.ParseFallback |}.
Proof.
  intros reply_with_markers reply_without_markers.
  destruct C4_parse_reply as (Hmarkers & Hfallback & Hnothing).
  split; [| split].
  - apply (Hmarkers "EXPLANATION: lists every node
" " MATCH (n) RETURN n" "").
    + apply first_occurrence_by_search; [discriminate | reflexivity].
    + left. split; reflexivity.
    + reflexivity.
  - apply (Hfallback reply_without_markers ["Here is the query:"]
             "match (n)" ["return n"]).
    + reflexivity.
    + reflexivity.
    + intros l [<- | []]. reflexivity.
    + reflexivity.
  - apply Hnothing.
    + reflexivity.
    + intros l [<- | []]. reflexivity.
Defined.

(** The no-break space (160) and NEL (133) are white space: a reply that
    starts with one has it stripped, in the line test and in the query. *)
Example parse_strips_no_break_space :
  let nbsp := String (ascii_of_nat 160) EmptyString in
  let nel := String (ascii_of_nat 133) EmptyString in
  BackendApi.gq_query (BackendApi.parse (nbsp ++ "MATCH (n) RETURN n" ++ nel))
  = "MATCH (n) RETURN n" /\
  BackendApi.gq_query
    (BackendApi.parse ("EXPLANATION: all CYPHER: MATCH (n) RETURN n" ++ nbsp))
  = "MATCH (n) RETURN n".
Proof. split; reflexivity. Qed.

(** C4 (counterexample).  With two query markers the text after the second
    one is dropped, so the query is not everything after the query marker;
    and a line that merely starts with the letters of a keyword
    ([Returning] starts with RETURN) begins the query although its leading
    token is no keyword, so the query does not start at the first line
    whose leading token is one. *)
Lemma C4_parse_differs :
  let two_markers :=
    "EXPLANATION: nodes CYPHER: MATCH (n) RETURN n CYPHER: LIMIT 5" in
  let after_marker := " MATCH (n) RETURN n CYPHER: LIMIT 5" in
  let no_markers :=
    "Returning the rows you asked for:
MATCH (n) RETURN n" in
  two_markers = "EXPLANATION: nodes " ++ BackendApi.CYPHER_MARKER
                ++ after_marker /\
  PyStr.contains "EXPLANATION: nodes CYPHER" BackendApi.CYPHER_MARKER
  = false /\
  BackendApi.gq_query (BackendApi.parse two_markers) = "MATCH (n) RETURN n" /\
  BackendApi.gq_query (BackendApi.parse two_markers) <> after_marker /\
  BackendApi.gq_query (BackendApi.parse two_markers)
  <> PyStr.strip after_marker /\
  PyStr.contains no_markers BackendApi.EXPLANATION_MARKER = false /\
  PyStr.contains no_markers BackendApi.CYPHER_MARKER = false /\
  Spec.from_first_keyword_token (PyStr.split no_markers BackendApi.LF) =
  ["MATCH (n) RETURN n"] /\
  BackendApi.gq_query (BackendApi.parse no_markers) = no_markers /\
  BackendApi.gq_query (BackendApi.parse no_markers)
  <> PyStr.join BackendApi.LF
       (Spec.from_first_keyword_token (PyStr.split no_markers BackendApi.LF)).
Proof.
  intros two_markers after_marker no_markers.
  repeat split; try reflexivity; vm_compute; discriminate.
Qed.

(** * Further properties of the modelled code *)

(** ** The question-answering endpoint and its parts *)

(** [generate_cypher_from_question], step by step. *)
Lemma generate_cypher_eq (W : world) (question : string) (h : list event) :
  BackendApi.generate_cypher_from_question W question h =
  match session_failure W (h ++ [DriverOpen]) with
  | Some cause => ((h ++ [DriverOpen; DriverClose])%list, inl (Error cause))
  | None =>
      let c :=
        store W (h ++ [DriverOpen; SessionOpen]) BackendApi.schema_query [] in
      let h4 :=
        (h ++ [DriverOpen; SessionOpen; Run BackendApi.schema_query [];
               SessionClose])%list in
      match failure c with
      | Some cause => ((h4 ++ [DriverClose])%list, inl (Error cause))
      | None =>
          let prompt :=
            BackendApi.cypher_prompt
              (repr_records W (map dict (fetched c))) question in
          ((h4 ++ [ModelChat BackendApi.CYPHER_EXPERT prompt; DriverClose])%list,
           match chat_create W h4 BackendApi.CYPHER_EXPERT prompt with
           | inl cause => inl (Error cause)
           | inr None =>
               inl (Error "argument of type 'NoneType' is not iterable")
           | inr (Some content) =>
               inr (BackendApi.gq_explanation (BackendApi.parse content),
                    BackendApi.gq_query (BackendApi.parse content))
           end)
      end
  end.
Proof.
  unfold BackendApi.generate_cypher_from_question.
  unfold bind at 1. unfold driver_open, emit at 1.
  unfold try_finally. unfold bind at 1.
  rewrite read_all_in_session.
  destruct (session_failure W (h ++ [DriverOpen])) as [cause|].
  - unfold driver_close, emit. now rewrite app_one_one.
  - cbn zeta. repeat rewrite <- app_assoc. cbn [app].
    destruct (failure _) as [cause|].
    + unfold driver_close, emit. repeat rewrite <- app_assoc. reflexivity.
    + unfold bind, chat, driver_close, emit, raise, ret.
      destruct (chat_create W _ _ _) as [cause | [content|]];
        repeat rewrite <- app_assoc; reflexivity.
Qed.

(** X1.  [generate_cypher_from_question] uses the graph store and the model
    service in a fixed order and releases what it opened: the driver is
    opened first and closed last on every path; the session that reads the
    schema is closed before the model is called; the model is called only
    after the schema has been read; and a pair is returned only after the
    model call. *)
Theorem generate_cypher_resource_discipline (W : world) (question : string)
  (h : list event) :
  exists evs r,
    BackendApi.generate_cypher_from_question W question h =
    ((h ++ DriverOpen :: evs ++ [DriverClose])%list, r) /\
    ((evs = [] /\ exists e, r = inl e) \/
     (evs = [SessionOpen; Run BackendApi.schema_query []; SessionClose] /\
      exists e, r = inl e) \/
     (exists prompt,
         evs = [SessionOpen; Run BackendApi.schema_query []; SessionClose;
                ModelChat BackendApi.CYPHER_EXPERT prompt])).
Proof.
  rewrite generate_cypher_eq.
  destruct (session_failure W (h ++ [DriverOpen])) as [cause|].
  - exists [], (inl (Error cause)). split; [reflexivity |].
    left. split; [reflexivity | now eexists].
  - cbn zeta. destruct (failure _) as [cause|].
    + exists [SessionOpen; Run BackendApi.schema_query []; SessionClose],
        (inl (Error cause)).
      split; [now rewrite <- app_assoc |].
      right. left. split; [reflexivity | now eexists].
    + eexists [SessionOpen; Run BackendApi.schema_query []; SessionClose;
               ModelChat BackendApi.CYPHER_EXPERT _], _.
      split; [rewrite <- app_assoc; reflexivity |].
      right. right. eexists. reflexivity.
Qed.

(** X2.  [ask_question] lets no failure out except as an HTTP 500 error
    whose detail starts with [Query execution failed: ]; in particular,
    when the parser produced an empty query, the HTTP 400 error raised for
    it is caught and re-raised as a 500 that quotes it, and nothing is run
    on the store after the query generation. *)
Theorem ask_question_failures_are_500 (W : world) (question : string)
  (h : list event) :
  (forall h' e,
      BackendApi.ask_question W question h = (h', inl e) ->
      exists detail,
        e = HTTPException 500 ("Query execution failed: " ++ detail)) /\
  (forall h1 explanation,
      BackendApi.generate_cypher_from_question W question h =
      (h1, inr (explanation, "")) ->
      BackendApi.ask_question W question h =
      (h1, inl (HTTPException 500
                  "Query execution failed: 400: Failed to generate Cypher query"))).
Proof.
  split.
  - intros h' e. unfold BackendApi.ask_question, try_except.
    match goal with
    | |- context [match ?m h with _ => _ end] => destruct (m h) as [h0 [e0 | a]]
    end.
    + unfold raise. intros [= _ <-]. now eexists.
    + discriminate.
  - intros h1 explanation Hgen.
    unfold BackendApi.ask_question, try_except.
    unfold bind at 1. rewrite Hgen. reflexivity.
Qed.

Lemma ask_question_failures_are_500_witness :
  let W := Examples.quiet_world (Some "sk-1") [] "I cannot answer that." in
  snd (run_M (BackendApi.ask_question W "What is the weather?")) =
  inl (HTTPException 500
         "Query execution failed: 400: Failed to generate Cypher query").
Proof.
  intros W. unfold run_M.
  rewrite (proj2 (ask_question_failures_are_500 W "What is the weather?" [])
             _ BackendApi.FALLBACK_EXPLANATION eq_refl).
  reflexivity.
Defined.

(** X3.  [generate_sql_from_cypher] never raises, calls the model exactly
    once and touches nothing else; when the call raises it returns an SQL
    comment that quotes the cause, and when the reply has no content it
    returns an SQL comment as well. *)
Theorem generate_sql_never_raises (W : world) (cypher question : string)
  (h : list event) :
  exists sql,
    BackendApi.generate_sql_from_cypher W cypher question h =
    ((h ++ [ModelChat BackendApi.SQL_EXPERT
              (BackendApi.sql_prompt cypher question)])%list,
     inr sql) /\
    match chat_create W h BackendApi.SQL_EXPERT
            (BackendApi.sql_prompt cypher question) with
    | inl cause => sql = "-- SQL generation failed: " ++ cause
    | inr None => PyStr.startswith sql "-- SQL generation failed: " = true
    | inr (Some content) => sql = BackendApi.clean_sql (PyStr.strip content)
    end.
Proof.
  unfold BackendApi.generate_sql_from_cypher, try_except, bind, chat, ret,
    raise.
  destruct (chat_create W h _ _) as [cause | [content|]]; eexists;
    split; reflexivity.
Qed.

(** ** The agent and the Streamlit front end *)

(** [generate_lineage_response], step by step. *)
Lemma generate_lineage_response_eq (W : world) (question : string)
  (h : list event) :
  Agent.generate_lineage_response W question h =
  if not_set (OPENAI_API_KEY W) then (h, inr (Agent.KEY_NOT_SET, ""))
  else
    let prompt :=
      Agent.CYPHER_GENERATION_TEMPLATE Agent.schema_hint question in
    let h1 := (h ++ [ModelPost prompt])%list in
    match requests_post W h prompt with
    | inl cause => (h1, inr ("OpenAI request failed: " ++ cause, ""))
    | inr r =>
        if negb (Nat.eqb (status_code r) 200)
        then (h1, inr ("OpenAI request failed: "
                         ++ PyStr.str_nat (status_code r) ++ " " ++ text r,
                       ""))
        else
          match json r with
          | JsonInvalid cause =>
              (h1, inr ("OpenAI request failed: " ++ cause, ""))
          | JsonReply content repr =>
              Agent.execute_generated W (Agent.generated_text content repr) h1
          end
    end.
Proof.
  unfold Agent.generate_lineage_response.
  destruct (not_set (OPENAI_API_KEY W)); [reflexivity |].
  unfold bind. rewrite obtain_cypher_eq. cbn zeta.
  destruct (requests_post W h _) as [cause | r]; [reflexivity |].
  destruct (negb (Nat.eqb (status_code r) 200)); [reflexivity |].
  destruct (json r); reflexivity.
Qed.

(** The histories [execute_generated] can leave. *)
Lemma execute_generated_shapes (W : world) (g : string) (h : list event) :
  exists evs explanation,
    Agent.execute_generated W g h = ((h ++ evs)%list, inr (explanation, g)) /\
    ((evs = [DriverOpen] /\ session_failure W (h ++ [DriverOpen]) <> None /\
      PyStr.startswith explanation "Error executing Cypher on Neo4j: "
      = true) \/
     (evs = [DriverOpen; SessionOpen; Run g []; SessionClose] /\
      PyStr.startswith explanation "Error executing Cypher on Neo4j: "
      = true) \/
     (evs = [DriverOpen; SessionOpen; Run g []; SessionClose; DriverClose] /\
      PyStr.startswith explanation "Executed Cypher; returned " = true)).
Proof.
  rewrite execute_generated_eq.
  destruct (session_failure W (h ++ [DriverOpen])) as [cause|] eqn:Hs.
  - do 2 eexists. split; [reflexivity |]. left.
    split; [reflexivity |]. split; [discriminate | apply startswith_app].
  - cbn zeta. destruct (failure _) as [cause|].
    + do 2 eexists. split; [reflexivity |]. right. left.
      split; [reflexivity | apply startswith_app].
    + do 2 eexists. split; [reflexivity |]. right. right.
      split; [reflexivity | apply startswith_app].
Qed.

(** X4.  [generate_lineage_response] never retries and leaves one of five
    histories: nothing (no credential); one model request (the request
    failed); one model request and a driver that is left open (the session
    could not be opened); one model request and one statement run in a
    session that is closed, with the driver left open (the statement
    failed); or the same with the driver closed (the statement succeeded).
    So the driver is closed only when execution succeeds. *)
Theorem agent_no_retry_and_driver_leak (W : world) (question : string)
  (h : list event) :
  exists evs explanation query,
    Agent.generate_lineage_response W question h =
    ((h ++ evs)%list, inr (explanation, query)) /\
    (evs = [] \/
     (exists p, evs = [ModelPost p] /\ query = "") \/
     (exists p,
         evs = [ModelPost p; DriverOpen] /\
         PyStr.startswith explanation "Error executing Cypher on Neo4j: "
         = true) \/
     (exists p,
         evs = [ModelPost p; DriverOpen; SessionOpen; Run query [];
                SessionClose] /\
         PyStr.startswith explanation "Error executing Cypher on Neo4j: "
         = true) \/
     (exists p,
         evs = [ModelPost p; DriverOpen; SessionOpen; Run query [];
                SessionClose; DriverClose] /\
         PyStr.startswith explanation "Executed Cypher; returned " = true)).
Proof.
  rewrite generate_lineage_response_eq.
  destruct (not_set (OPENAI_API_KEY W)).
  { exists [], Agent.KEY_NOT_SET, "". rewrite app_nil_r. auto. }
  cbn zeta.
  set (prompt := Agent.CYPHER_GENERATION_TEMPLATE Agent.schema_hint question).
  assert (Hearly : forall e : string,
             exists evs explanation query,
               ((h ++ [ModelPost prompt])%list,
                @inr exn (string * string) (e, "")) =
               ((h ++ evs)%list, inr (explanation, query)) /\
               (evs = [] \/
                (exists p, evs = [ModelPost p] /\ query = "") \/
                (exists p,
                    evs = [ModelPost p; DriverOpen] /\
                    PyStr.startswith explanation
                      "Error executing Cypher on Neo4j: " = true) \/
                (exists p,
                    evs = [ModelPost p; DriverOpen; SessionOpen;
                           Run query []; SessionClose] /\
                    PyStr.startswith explanation
                      "Error executing Cypher on Neo4j: " = true) \/
                (exists p,
                    evs = [ModelPost p; DriverOpen; SessionOpen;
                           Run query []; SessionClose; DriverClose] /\
                    PyStr.startswith explanation
                      "Executed Cypher; returned " = true))).
  { intros e. exists [ModelPost prompt], e, "".
    split; [reflexivity |]. right. left. now exists prompt. }
  destruct (requests_post W h prompt) as [cause | r]; [apply Hearly |].
  destruct (negb (Nat.eqb (status_code r) 200)); [apply Hearly |].
  destruct (json r) as [cause | content repr]; [apply Hearly |].
  destruct (execute_generated_shapes W (Agent.generated_text content repr)
              (h ++ [ModelPost prompt])%list)
    as (evs & explanation & -> & Hshape).
  exists (ModelPost prompt :: evs), explanation,
    (Agent.generated_text content repr).
  split; [now rewrite <- app_assoc |].
  right. right.
  destruct Hshape as [(-> & _ & He) | [(-> & He) | (-> & He)]].
  - left. now exists prompt.
  - right. left. now exists prompt.
  - right. right. now exists prompt.
Qed.



(** X6.  When sessions can be opened, a query that [execute_query] returns
    has been run on the store twice: once by the agent and once more by
    [execute_query]. *)
Theorem execute_query_runs_statement_twice (W : world) (question : string)
  (h h' : list event) (cypher explanation : string)
  (records : list record) :
  (forall h0, session_failure W h0 = None) ->
  App.execute_query W question h =
  (h', inr (Some cypher, Some explanation, None, records)) ->
  exists p between,
    h' = (h ++ [DriverOpen; ModelPost p; DriverOpen; SessionOpen;
                Run cypher []; SessionClose]
            ++ between
            ++ [SessionOpen; Run cypher []; SessionClose; DriverClose])%list.
Proof.
  intros Hsessions.
  unfold App.execute_query.
  unfold bind at 1. unfold driver_open, emit at 1.
  unfold try_finally, try_except.
  unfold bind at 1.
  rewrite generate_lineage_response_eq.
  destruct (not_set (OPENAI_API_KEY W)); [discriminate |].
  cbn zeta.
  set (prompt := Agent.CYPHER_GENERATION_TEMPLATE Agent.schema_hint question).
  destruct (requests_post W _ prompt) as [cause | r]; [discriminate |].
  destruct (negb (Nat.eqb (status_code r) 200)); [discriminate |].
  destruct (json r) as [cause | content repr]; [discriminate |].
  rewrite execute_generated_eq, Hsessions. cbn zeta.
  set (g := Agent.generated_text content repr).
  destruct (failure _) as [cause|];
    cbn beta iota; fold (Notions.refused_query g);
    (destruct (Notions.refused_query g);
     [unfold ret, driver_close, emit; cbn beta iota; discriminate |]);
    unfold bind at 1; rewrite read_all_in_session, Hsessions; cbn zeta;
    (destruct (failure _) as [cause'|];
     [unfold ret, driver_close, emit; cbn beta iota; discriminate |]);
    unfold ret, driver_close, emit; cbn beta iota; intros [= <- <- _ _];
    exists prompt.
  - exists []. repeat rewrite <- app_assoc. reflexivity.
  - exists [DriverClose]. repeat rewrite <- app_assoc. reflexivity.
Qed.

Lemma execute_query_runs_statement_twice_witness :
  let W := Examples.quiet_world (Some "sk-1") [] "MATCH (n) RETURN n" in
  (forall h0, session_failure W h0 = None) /\
  exists p between,
    fst (App.execute_query W "Show every node." []) =
    ([] ++ [DriverOpen; ModelPost p; DriverOpen; SessionOpen;
            Run "MATCH (n) RETURN n" []; SessionClose]
        ++ between
        ++ [SessionOpen; Run "MATCH (n) RETURN n" []; SessionClose;
            DriverClose])%list.
Proof.
  intros W. split; [reflexivity |].
  apply (execute_query_runs_statement_twice W "Show every node." [] _
           "MATCH (n) RETURN n"
           "Executed Cypher; returned 0 record(s). Sample: [...]" []);
    reflexivity.
Defined.

(** ** Text that is split, replaced and stripped *)

Section MoreStrings.
Import PyStr.

Lemma contains_inv (sep : string) :
  forall s, contains s sep = true -> exists a b, s = a ++ sep ++ b.
Proof.
  induction s as [|c s IH]; cbn [contains]; intros H.
  - rewrite orb_false_r in H. apply startswith_inv in H.
    destruct H as [t ->]. now exists "", t.
  - apply orb_true_iff in H. destruct H as [H | H].
    + apply startswith_inv in H. destruct H as [t ->]. now exists "", t.
    + destruct (IH H) as (a & b & ->). now exists (String c a), b.
Qed.

Lemma contains_app_l (x t sub : string) :
  contains t sub = true -> contains (x ++ t) sub = true.
Proof.
  intros H. apply contains_inv in H. destruct H as (a & b & ->).
  rewrite <- str_app_assoc. apply contains_app.
Qed.

Lemma contains_app_r (t y sub : string) :
  contains t sub = true -> contains (t ++ y) sub = true.
Proof.
  intros H. apply contains_inv in H. destruct H as (a & b & ->).
  rewrite !str_app_assoc. apply contains_app.
Qed.

(** Where the separator occurs, it has a first occurrence. *)
Lemma first_occurrence_exists (sep : string) :
  forall s,
    contains s sep = true ->
    exists pre post,
      s = pre ++ sep ++ post /\ Spec.first_occurrence sep pre post.
Proof.
  induction s as [|c s IH]; cbn [contains]; intros H.
  - rewrite orb_false_r in H. apply startswith_inv in H.
    destruct H as [t Ht]. exists "", t. split; [exact Ht |].
    intros pre' post' _. simpl. lia.
  - destruct (startswith (String c s) sep) eqn:Hstart.
    + apply startswith_inv in Hstart. destruct Hstart as [t Ht].
      exists "", t. split; [exact Ht |].
      intros pre' post' _. simpl. lia.
    + cbn [orb] in H. destruct (IH H) as (pre & post & -> & Hfirst).
      exists (String c pre), post. split; [reflexivity |].
      intros pre' post' Heq. destruct pre' as [|d pre'].
      * cbn [append] in Heq. rewrite Heq, startswith_app in Hstart.
        discriminate.
      * cbn [append] in Heq. injection Heq as _ Heq.
        specialize (Hfirst pre' post' Heq). simpl. lia.
Qed.

(** The text before a first occurrence holds no occurrence, even when
    followed by the separator without its last character. *)
Lemma first_occurrence_clean (sep pre post : string) :
  sep <> "" ->
  Spec.first_occurrence sep pre post ->
  contains (pre ++ drop_last sep) sep = false.
Proof.
  intros Hsep Hfirst.
  destruct (contains (pre ++ drop_last sep) sep) eqn:Hc; [| reflexivity].
  exfalso. apply contains_inv in Hc. destruct Hc as (a & b & Hab).
  destruct (drop_last_snoc sep Hsep) as [c Hc].
  assert (Hlen : String.length a < String.length pre).
  { apply (f_equal String.length) in Hab.
    rewrite !str_length_app in Hab.
    assert (String.length sep = String.length (drop_last sep) + 1)
      by (rewrite Hc at 1; now rewrite str_length_app).
    lia. }
  specialize (Hfirst a (b ++ String c "" ++ post)).
  assert (Heq : pre ++ sep ++ post = a ++ sep ++ b ++ String c "" ++ post).
  { rewrite Hc at 1.
    rewrite (str_app_assoc (drop_last sep)), <- (str_app_assoc pre), Hab.
    now rewrite !str_app_assoc. }
  specialize (Hfirst Heq). lia.
Qed.

Lemma split_go_nonempty (sep : string) :
  forall s skip cur, split_go sep skip cur s <> [].
Proof.
  induction s as [|c s IH]; intros skip cur; cbn [split_go];
    [discriminate |].
  destruct skip; [| apply IH].
  destruct (startswith (String c s) sep); [discriminate | apply IH].
Qed.

Lemma join_empty_cons (p : string) (ps : list string) :
  ps <> [] -> join "" (p :: ps) = p ++ join "" ps.
Proof. destruct ps; [contradiction | reflexivity]. Qed.

(** Removing a separator: up to its first occurrence the text is kept, and
    the removal goes on behind it. *)
Lemma replace_first (sep pre post : string) :
  sep <> "" ->
  Spec.first_occurrence sep pre post ->
  replace (pre ++ sep ++ post) sep "" = pre ++ replace post sep "".
Proof.
  intros Hsep Hfirst. unfold replace, split.
  rewrite split_go_first by assumption. cbn [append].
  apply join_empty_cons, split_go_nonempty.
Qed.

Lemma replace_none (s sep : string) :
  contains s sep = false -> replace s sep "" = s.
Proof.
  intros H. unfold replace, split. now rewrite split_go_none.
Qed.

(** Every piece of a split is free of the separator. *)
Lemma split_pieces_clean (sep : string) :
  sep <> "" ->
  forall n s,
    String.length s <= n ->
    forall p, In p (split s sep) -> contains p sep = false.
Proof.
  intros Hsep. induction n as [|n IH]; intros s Hlen p Hin.
  - destruct s; [| simpl in Hlen; lia].
    destruct Hin as [<- | []].
    destruct sep; [contradiction | reflexivity].
  - destruct (contains s sep) eqn:Hc.
    + destruct (first_occurrence_exists sep s Hc)
        as (pre & post & -> & Hfirst).
      unfold split in Hin. rewrite split_go_first in Hin by assumption.
      cbn [append] in Hin. destruct Hin as [<- | Hin].
      * pose proof (first_occurrence_clean sep pre post Hsep Hfirst) as Hcl.
        destruct (contains pre sep) eqn:Hp; [| reflexivity].
        now rewrite (contains_app_r pre (drop_last sep) sep Hp) in Hcl.
      * apply (IH post); [| exact Hin].
        rewrite !str_length_app in Hlen.
        destruct sep; [contradiction | simpl in Hlen; lia].
    + unfold split in Hin. rewrite split_go_none in Hin by assumption.
      destruct Hin as [<- | []]. exact Hc.
Qed.

Lemma rev_onto_app (s : string) :
  forall acc, rev_onto s acc = rev_onto s "" ++ acc.
Proof.
  induction s as [|c s IH]; intros acc; cbn [rev_onto]; [reflexivity |].
  rewrite IH, (IH (String c "")). now rewrite str_app_assoc.
Qed.

Lemma rev_app (a b : string) : rev (a ++ b) = rev b ++ rev a.
Proof.
  unfold rev. induction a as [|c a IH]; cbn [append rev_onto].
  - now rewrite str_app_nil_r.
  - rewrite rev_onto_app, IH, (rev_onto_app a (String c "")).
    now rewrite str_app_assoc.
Qed.

Lemma rev_involutive (s : string) : rev (rev s) = s.
Proof.
  induction s as [|c s IH]; [reflexivity |].
  unfold rev at 2. cbn [rev_onto]. rewrite rev_onto_app.
  fold (rev s). rewrite rev_app, IH. reflexivity.
Qed.

Lemma lstrip_suffix (s : string) : exists x, s = x ++ lstrip s.
Proof.
  induction s as [|c s [x IH]]; [now exists "" |].
  cbn [lstrip]. destruct (is_space c).
  - exists (String c x). cbn [append]. now rewrite <- IH.
  - now exists "".
Qed.

Lemma rstrip_prefix (s : string) : exists y, s = rstrip s ++ y.
Proof.
  unfold rstrip. destruct (lstrip_suffix (rev s)) as [x Hx].
  exists (rev x). rewrite <- rev_app, <- Hx. now rewrite rev_involutive.
Qed.

(** Stripping brings in no occurrence of a text. *)
Lemma strip_keeps_clean (s sub : string) :
  contains s sub = false -> contains (strip s) sub = false.
Proof.
  intros Hclean. destruct (contains (strip s) sub) eqn:Hc; [| reflexivity].
  unfold strip in Hc.
  destruct (rstrip_prefix (lstrip s)) as [y Hy].
  destruct (lstrip_suffix s) as [x Hx].
  apply (contains_app_r _ y) in Hc. rewrite <- Hy in Hc.
  apply (contains_app_l x) in Hc. rewrite <- Hx in Hc.
  now rewrite Hc in Hclean.
Qed.

(** A text that shows no fence when two backticks follow it shows none
    when a fence-free text follows it. *)
Lemma fence_glue (pre : string) :
  forall r,
    contains (pre ++ "``") "```" = false ->
    contains r "```" = false ->
    contains (pre ++ r) "```" = false.
Proof.
  induction pre as [|c pre IH]; intros r Hpre Hr; [exact Hr |].
  cbn [append contains] in *.
  apply orb_false_iff in Hpre. destruct Hpre as [Hstart Hrest].
  rewrite (IH r Hrest Hr), orb_false_r.
  destruct pre as [|d [|e pre]]; cbn [append startswith] in *.
  - destruct (Ascii.eqb "`" c); [discriminate | reflexivity].
  - destruct (Ascii.eqb "`" c); [| reflexivity].
    destruct (Ascii.eqb "`" d); [discriminate |].
    destruct r; reflexivity.
  - exact Hstart.
Qed.

(** After every fence has been removed from left to right, no fence is
    left. *)
Lemma replace_fence_free :
  forall n s,
    String.length s <= n -> contains (replace s "```" "") "```" = false.
Proof.
  induction n as [|n IH]; intros s Hlen.
  - destruct s; [reflexivity | simpl in Hlen; lia].
  - destruct (contains s "```") eqn:Hc.
    + destruct (first_occurrence_exists "```" s Hc)
        as (pre & post & -> & Hfirst).
      rewrite replace_first by (discriminate || assumption).
      apply fence_glue.
      * apply (first_occurrence_clean "```" pre post);
          [discriminate | assumption].
      * apply IH. rewrite !str_length_app in Hlen. simpl in Hlen. lia.
    + now rewrite replace_none.
Qed.

End MoreStrings.

(** X7.  When the model's (stripped) SQL reply starts with a markdown code
    fence, the cleaned SQL contains no code fence at all; a reply that does
    not start with a fence is returned unchanged. *)
Theorem clean_sql_removes_fences (sql_query : string) :
  (PyStr.startswith sql_query "```" = true ->
   PyStr.contains (BackendApi.clean_sql sql_query) "```" = false) /\
  (PyStr.startswith sql_query "```" = false ->
   BackendApi.clean_sql sql_query = sql_query).
Proof.
  unfold BackendApi.clean_sql. split; intros Hfence.
  - destruct (PyStr.startswith sql_query "```sql").
    + apply strip_keeps_clean. now apply (replace_fence_free _ _ (le_n _)).
    + rewrite Hfence. apply strip_keeps_clean.
      now apply (replace_fence_free _ _ (le_n _)).
  - rewrite Hfence.
    destruct (PyStr.startswith sql_query "```sql") eqn:Hsql; [| reflexivity].
    apply startswith_inv in Hsql. destruct Hsql as [t ->].
    cbn in Hfence. discriminate.
Qed.

Lemma clean_sql_removes_fences_witness :
  let reply := "```sql
SELECT first_name FROM clients;
```" in
  PyStr.startswith reply "```" = true /\
  BackendApi.clean_sql reply = "SELECT first_name FROM clients;" /\
  PyStr.contains (BackendApi.clean_sql reply) "```" = false.
Proof.
  intros reply. split; [reflexivity |]. split; [reflexivity |].
  apply (proj1 (clean_sql_removes_fences reply)). reflexivity.
Defined.

(** X8.  On the path with both markers, the query that [parse] returns
    never contains the query marker. *)
Theorem parse_query_has_no_marker (content : string) :
  BackendApi.gq_status (BackendApi.parse content) = BackendApi.Generated ->
  PyStr.contains (BackendApi.gq_query (BackendApi.parse content))
    BackendApi.CYPHER_MARKER = false.
Proof.
  unfold BackendApi.parse.
  destruct (PyStr.contains content BackendApi.EXPLANATION_MARKER
            && PyStr.contains content BackendApi.CYPHER_MARKER);
    [| discriminate].
  intros _. cbn [BackendApi.gq_query].
  apply strip_keeps_clean.
  destruct (nth_in_or_default 1
              (PyStr.split content BackendApi.CYPHER_MARKER) "")
    as [Hin | ->]; [| reflexivity].
  apply (split_pieces_clean BackendApi.CYPHER_MARKER) with
    (n := String.length content) (s := content);
    [discriminate | apply le_n | exact Hin].
Qed.

Lemma parse_query_has_no_marker_witness :
  let reply := "EXPLANATION: nodes CYPHER: MATCH (n) RETURN n CYPHER: LIMIT 5" in
  BackendApi.gq_status (BackendApi.parse reply) = BackendApi.Generated /\
  PyStr.contains (BackendApi.gq_query (BackendApi.parse reply))
    BackendApi.CYPHER_MARKER = false.
Proof.
  intros reply. split; [reflexivity |].
  apply parse_query_has_no_marker. reflexivity.
Defined.

Section Stripping.
Import PyStr.

Lemma lstrip_length (s : string) : String.length (lstrip s) <= String.length s.
Proof.
  induction s as [|c s IH]; cbn [lstrip]; [apply le_n |].
  destruct (is_space c); simpl; lia.
Qed.

(** A text that [lstrip] leaves alone is empty or starts with a character
    that is no white space, and conversely. *)
Lemma lstrip_fixed (s : string) :
  lstrip s = s <->
  match s with "" => True | String c _ => is_space c = false end.
Proof.
  destruct s as [|c s]; [tauto |]. cbn [lstrip].
  destruct (is_space c) eqn:Hc; split; intros H; try reflexivity;
    try discriminate.
  pose proof (lstrip_length s) as Hl. rewrite H in Hl. simpl in Hl. lia.
Qed.

Lemma lstrip_lstrip (s : string) : lstrip (lstrip s) = lstrip s.
Proof.
  induction s as [|c s IH]; [reflexivity |]. cbn [lstrip].
  destruct (is_space c) eqn:Hc; [exact IH |]. cbn [lstrip]. now rewrite Hc.
Qed.

Lemma rstrip_rstrip (s : string) : rstrip (rstrip s) = rstrip s.
Proof. unfold rstrip. now rewrite rev_involutive, lstrip_lstrip. Qed.

Lemma lstrip_rstrip_lstrip (s : string) :
  lstrip (rstrip (lstrip s)) = rstrip (lstrip s).
Proof.
  apply lstrip_fixed.
  destruct (rstrip_prefix (lstrip s)) as [y Hy].
  destruct (rstrip (lstrip s)) as [|c u]; [exact I |].
  pose proof (proj1 (lstrip_fixed (lstrip s)) (lstrip_lstrip s)) as Hfix.
  rewrite Hy in Hfix. exact Hfix.
Qed.

Lemma strip_strip (s : string) : strip (strip s) = strip s.
Proof.
  unfold strip. now rewrite lstrip_rstrip_lstrip, rstrip_rstrip.
Qed.

End Stripping.

(** X9.  The query [parse] returns is always stripped: stripping it again
    changes nothing, and it is empty or starts with a character that is no
    white space.  So a reply whose query part is blank gives the empty
    query. *)
Theorem parse_query_is_stripped (content : string) :
  let query := BackendApi.gq_query (BackendApi.parse content) in
  PyStr.strip query = query /\
  match query with
  | "" => True
  | String c _ => PyStr.is_space c = false
  end.
Proof.
  cbn zeta.
  assert (Hs : PyStr.strip (BackendApi.gq_query (BackendApi.parse content)) =
               BackendApi.gq_query (BackendApi.parse content)).
  { unfold BackendApi.parse.
    destruct (PyStr.contains content BackendApi.EXPLANATION_MARKER
              && PyStr.contains content BackendApi.CYPHER_MARKER);
      cbn [BackendApi.gq_query]; apply strip_strip. }
  split; [exact Hs |].
  apply lstrip_fixed.
  set (q := BackendApi.gq_query (BackendApi.parse content)) in *.
  rewrite <- Hs. unfold PyStr.strip. apply lstrip_rstrip_lstrip.
Qed.

(** ** The ingestion of JSON files *)

Lemma find_first {A} (f : A -> bool) (l : list A) (x : A) :
  find f l = Some x ->
  exists before after,
    l = (before ++ x :: after)%list /\ f x = true /\
    forall y, In y before -> f y = false.
Proof.
  induction l as [|a l IH]; cbn [find]; [discriminate |].
  destruct (f a) eqn:Ha.
  - intros [= ->]. exists [], l. repeat split; [assumption |].
    intros y [].
  - intros H. destruct (IH H) as (before & after & -> & Hx & Hb).
    exists (a :: before), after. repeat split; [assumption |].
    intros y [<- | Hy]; [assumption | now apply Hb].
Qed.

(** X10.  The id key of a file is the first key of the first object that
    ends with [_id], wherever a key [id] stands; it is [id] when no key
    ends with [_id] and [id] is a key; and there is none exactly when no
    key ends with [_id] and no key is [id].  So a chosen id key is always a
    key of the first object. *)
Theorem id_key_of_spec (keys : list string) :
  match Neo4jSetup.id_key_of keys with
  | Some k =>
      In k keys /\
      ((exists before after,
           keys = (before ++ k :: after)%list /\
           PyStr.endswith k "_id" = true /\
           forall b, In b before -> PyStr.endswith b "_id" = false) \/
       (k = "id" /\ forall k', In k' keys -> PyStr.endswith k' "_id" = false))
  | None =>
      forall k, In k keys -> PyStr.endswith k "_id" = false /\ k <> "id"
  end.
Proof.
  unfold Neo4jSetup.id_key_of.
  destruct (find (fun k => PyStr.endswith k "_id") keys) as [k|] eqn:Hid.
  - destruct (find_first _ _ _ Hid) as (before & after & -> & Hk & Hb).
    split; [apply in_or_app; right; now left |].
    left. now exists before, after.
  - pose proof (find_none _ _ Hid) as Hnone. cbn beta in Hnone.
    destruct (find (fun k => String.eqb k "id") keys) as [k|] eqn:Hplain.
    + apply find_some in Hplain. destruct Hplain as [Hin Heq].
      apply String.eqb_eq in Heq. subst k. split; [assumption |].
      right. split; [reflexivity | assumption].
    + intros k Hin. split; [now apply Hnone |].
      pose proof (find_none _ _ Hplain k Hin) as Hne. cbn beta in Hne.
      now apply String.eqb_neq.
Qed.

Lemma id_key_of_spec_witness :
  let keys := ["id"; "card_number"; "card_id"; "client_id"] in
  Neo4jSetup.id_key_of keys = Some "card_id" /\
  In "card_id" keys /\
  exists before after,
    keys = (before ++ "card_id" :: after)%list /\
    forall b, In b before -> PyStr.endswith b "_id" = false.
Proof.
  intros keys.
  pose proof (id_key_of_spec keys) as Hspec.
  change (Neo4jSetup.id_key_of keys) with (Some "card_id") in Hspec.
  destruct Hspec as [Hin [(before & after & Heq & _ & Hbefore) | [Hid _]]];
    [| discriminate Hid].
  split; [reflexivity |]. split; [exact Hin |].
  exists before, after. split; assumption.
Defined.

(** [ingest_file] never raises and only adds to the history. *)
Lemma ingest_file_returns (W : world) (fp : string) (h : list event) :
  exists evs, Neo4jSetup.ingest_file W fp h = ((h ++ evs)%list, inr tt).
Proof.
  unfold Neo4jSetup.ingest_file, try_except.
  unfold bind at 1. unfold load_json.
  destruct (json_load W h fp) as [cause | data].
  { unfold print, emit. eexists. reflexivity. }
  destruct (Neo4jSetup.as_rows data) as [|sample rest].
  { exists []. unfold ret. now rewrite app_nil_r. }
  unfold bind at 1. unfold lift.
  destruct (Neo4jSetup.keys_of sample) as [e | keys].
  { unfold print, emit. eexists. reflexivity. }
  unfold bind, session_run, Neo4jSetup.raise_failure, print, emit, raise, ret.
  destruct (failure _); eexists; rewrite <- app_assoc; reflexivity.
Qed.

(** X11.  What [ingest_file] does with a file: a file that cannot be read
    or parsed is reported and skipped; an empty list is skipped silently; a
    document that is a single object is ingested as a list of one row; a
    list whose first element is no object (a value without [keys], such as
    a list, a string or a number) is reported with Python's message, which
    names the type of that element, and nothing is run.  In every case the
    function returns normally, so one bad file never stops the
    ingestion. *)
Theorem ingest_file_cases (W : world) (fp : string) (h : list event) :
  (forall cause,
      json_load W h fp = inl cause ->
      Neo4jSetup.ingest_file W fp h =
      ((h ++ [Print ("Failed to ingest " ++ fp ++ ": " ++ cause)])%list,
       inr tt)) /\
  (json_load W h fp = inr (VList []) ->
   Neo4jSetup.ingest_file W fp h = (h, inr tt)) /\
  (forall entries,
      json_load W h fp = inr (VMap entries) ->
      exists evs,
        Neo4jSetup.ingest_file W fp h =
        ((h ++ Run (Neo4jSetup.node_cypher (Neo4jSetup.label_of_file fp)
                      (Neo4jSetup.id_key_of (map fst entries)))
                 [("rows", VList [VMap entries])] :: evs)%list,
         inr tt)) /\
  (forall sample rest,
      json_load W h fp = inr (VList (sample :: rest)) ->
      fields_of sample = None ->
      Neo4jSetup.ingest_file W fp h =
      ((h ++ [Print ("Failed to ingest " ++ fp ++ ": '" ++ type_name sample
                       ++ "' object has no attribute 'keys'")])%list,
       inr tt)) /\
  (exists evs, Neo4jSetup.ingest_file W fp h = ((h ++ evs)%list, inr tt)).
Proof.
  repeat split.
  - intros cause Hload.
    unfold Neo4jSetup.ingest_file, try_except.
    unfold bind at 1. unfold load_json. now rewrite Hload.
  - intros Hload.
    unfold Neo4jSetup.ingest_file, try_except.
    unfold bind at 1. unfold load_json. now rewrite Hload.
  - intros entries Hload.
    unfold Neo4jSetup.ingest_file, try_except.
    unfold bind at 1. unfold load_json. rewrite Hload.
    cbn [Neo4jSetup.as_rows Neo4jSetup.keys_of fields_of].
    unfold bind, lift, session_run, Neo4jSetup.raise_failure, print, emit,
      raise, ret.
    destruct (failure _); eexists; rewrite <- app_assoc; reflexivity.
  - intros sample rest Hload Hsample.
    unfold Neo4jSetup.ingest_file, try_except.
    unfold bind at 1. unfold load_json. rewrite Hload.
    cbn [Neo4jSetup.as_rows]. unfold bind at 1. unfold lift.
    unfold Neo4jSetup.keys_of. rewrite Hsample. reflexivity.
  - apply ingest_file_returns.
Qed.

Lemma ingest_file_cases_witness :
  let doc := VMap [("branch_id", VInt 7); ("branch_city", VStr "Pune")] in
  let W := Examples.file_world "data/branches.json" doc in
  let matrix := VList [VList [VInt 1; VInt 2]; VList [VInt 3; VInt 4]] in
  let W' := Examples.file_world "data/matrix.json" matrix in
  json_load W [] "data/branches.json" = inr doc /\
  (exists evs,
      Neo4jSetup.ingest_file W "data/branches.json" [] =
      (Run "UNWIND $rows AS row MERGE (n:Branche { branch_id: row.branch_id }) SET n += row"
         [("rows", VList [doc])] :: evs, inr tt)) /\
  json_load W' [] "data/matrix.json" = inr matrix /\
  fields_of (VList [VInt 1; VInt 2]) = None /\
  Neo4jSetup.ingest_file W' "data/matrix.json" [] =
  ([Print "Failed to ingest data/matrix.json: 'list' object has no attribute 'keys'"],
   inr tt).
Proof.
  intros doc W matrix W'. split; [reflexivity |].
  destruct (ingest_file_cases W "data/branches.json" [])
    as (_ & _ & Hobject & _).
  split; [exact (Hobject _ eq_refl) |].
  split; [reflexivity |]. split; [reflexivity |].
  destruct (ingest_file_cases W' "data/matrix.json" [])
    as (_ & _ & _ & Hbad & _).
  exact (Hbad _ _ eq_refl eq_refl).
Defined.

(** [create_relationship] runs its statement and never raises. *)
Lemma create_relationship_returns (W : world)
  (m : string * string * string * string * string) (h : list event) :
  exists evs,
    Neo4jSetup.create_relationship W m h =
    ((h ++ Run (Notions.mapping_cypher m) [] :: evs)%list, inr tt).
Proof.
  destruct m as [[[[src_label src_key] tgt_label] tgt_key] rel_type].
  unfold Neo4jSetup.create_relationship, Notions.mapping_cypher, try_except.
  unfold bind at 1. unfold session_run.
  unfold bind at 1. unfold lift.
  destruct (Neo4jSetup.single _) as [e | [row|]];
    try (unfold print, emit, raise; eexists; rewrite <- app_assoc;
         reflexivity).
  unfold bind at 1.
  destruct (BackendApi.getitem row "created") as [e | count];
    [unfold print, emit; eexists; rewrite <- app_assoc; reflexivity |].
  unfold bind at 1.
  destruct (Neo4jSetup.positive count) as [e | [|]];
    unfold print, emit, ret; eexists;
    try (rewrite <- app_assoc; reflexivity).
  instantiate (1 := []). reflexivity.
Qed.

Lemma for_each_returns {A} (body : A -> M unit) (xs : list A) :
  (forall x h, exists evs, body x h = ((h ++ evs)%list, inr tt)) ->
  forall h, exists evs, for_each xs body h = ((h ++ evs)%list, inr tt).
Proof.
  intros Hbody. induction xs as [|x xs IH]; intros h; cbn [for_each].
  - exists []. unfold ret. now rewrite app_nil_r.
  - unfold bind. destruct (Hbody x h) as [evs1 ->].
    destruct (IH (h ++ evs1)%list) as [evs2 ->].
    exists (evs1 ++ evs2)%list. now rewrite app_assoc.
Qed.

Lemma for_each_runs {A} (body : A -> M unit) (ev : A -> event)
  (xs : list A) :
  (forall x h, exists evs, body x h = ((h ++ ev x :: evs)%list, inr tt)) ->
  forall h,
    exists evs,
      for_each xs body h = ((h ++ evs)%list, inr tt) /\
      forall x, In x xs -> In (ev x) evs.
Proof.
  intros Hbody. induction xs as [|x xs IH]; intros h; cbn [for_each].
  - exists []. unfold ret. rewrite app_nil_r. split; [reflexivity |].
    intros x [].
  - unfold bind. destruct (Hbody x h) as [evs1 ->].
    destruct (IH (h ++ ev x :: evs1)%list) as (evs2 & -> & Hin).
    exists ((ev x :: evs1) ++ evs2)%list. split; [now rewrite app_assoc |].
    intros y [<- | Hy].
    + now left.
    + apply in_or_app. right. now apply Hin.
Qed.

(** X12.  [ingest_json_files] with no file to work on says so and opens no
    session.  With files, it fails only when the session cannot be opened;
    otherwise it returns normally, closes the session last, and has run the
    statement of each of the eight relationship mappings, whatever happened
    with the files. *)
Theorem ingest_json_files_outcomes (W : world) (directory : string)
  (file_list : option (list string)) (h : list event) :
  let files := Notions.chosen_files W h directory file_list in
  (files = [] ->
   Neo4jSetup.ingest_json_files W directory file_list h =
   ((h ++ [Print "No JSON files found to ingest."])%list, inr tt)) /\
  (files <> [] ->
   forall cause,
     session_failure W h = Some cause ->
     Neo4jSetup.ingest_json_files W directory file_list h =
     (h, inl (Error cause))) /\
  (files <> [] ->
   session_failure W h = None ->
   exists evs,
     Neo4jSetup.ingest_json_files W directory file_list h =
     ((h ++ SessionOpen :: evs
         ++ [Print "JSON ingestion completed."; SessionClose])%list,
      inr tt) /\
     forall m,
       In m Neo4jSetup.relationship_mappings ->
       In (Run (Notions.mapping_cypher m) []) evs).
Proof.
  intros files.
  assert (Hfiles :
            Neo4jSetup.ingest_json_files W directory file_list h =
            match files with
            | [] => print "No JSON files found to ingest." h
            | _ =>
                with_session W
                  (for_each files (Neo4jSetup.ingest_file W) ;;;
                   print "JSON ingestion completed." ;;;
                   print "Creating relationships based on foreign keys..." ;;;
                   for_each Neo4jSetup.relationship_mappings
                     (Neo4jSetup.create_relationship W) ;;;
                   print "JSON ingestion completed.") h
            end).
  { unfold Neo4jSetup.ingest_json_files, files, Notions.chosen_files.
    unfold bind at 1.
    destruct file_list as [[|f fs]|]; try reflexivity;
      unfold glob; destruct (glob_glob W h _); reflexivity. }
  rewrite Hfiles. clear Hfiles.
  split; [| split].
  - intros ->. reflexivity.
  - intros Hne cause Hs. destruct files; [contradiction |].
    unfold with_session, session_open. unfold bind at 1. now rewrite Hs.
  - intros Hne Hs. destruct files as [|f fs]; [contradiction |].
    unfold with_session, session_open. unfold bind at 1. rewrite Hs.
    unfold try_finally.
    unfold bind at 1.
    destruct (for_each_returns (Neo4jSetup.ingest_file W) (f :: fs)
                (ingest_file_returns W) (h ++ [SessionOpen])%list)
      as [evs1 ->].
    unfold bind at 1. unfold print at 1. unfold emit at 1.
    unfold bind at 1. unfold print at 1. unfold emit at 1.
    unfold bind at 1.
    destruct (for_each_runs (Neo4jSetup.create_relationship W)
                (fun m => Run (Notions.mapping_cypher m) [])
                Neo4jSetup.relationship_mappings
                (create_relationship_returns W)
                ((((h ++ [SessionOpen]) ++ evs1)
                    ++ [Print "JSON ingestion completed."])
                   ++ [Print "Creating relationships based on foreign keys..."])%list)
      as (evs2 & -> & Hruns).
    unfold print, emit.
    exists (evs1 ++ [Print "JSON ingestion completed.";
                     Print "Creating relationships based on foreign keys..."]
              ++ evs2)%list.
    split.
    + repeat rewrite <- app_assoc. reflexivity.
    + intros m Hm. apply in_or_app. right. apply in_or_app. right.
      now apply Hruns.
Qed.

Lemma ingest_json_files_outcomes_witness :
  let W := Examples.quiet_world None [] "" in
  Notions.chosen_files W [] "data" None = [] /\
  run_M (Neo4jSetup.ingest_json_files W "data" None) =
  ([Print "No JSON files found to ingest."], inr tt) /\
  Notions.chosen_files W [] "data" (Some ["data/clients.json"]) <> [] /\
  exists evs,
    run_M (Neo4jSetup.ingest_json_files W "data"
             (Some ["data/clients.json"])) =
    (SessionOpen :: evs ++ [Print "JSON ingestion completed."; SessionClose],
     inr tt).
Proof.
  intros W.
  assert (Hne : Notions.chosen_files W [] "data" (Some ["data/clients.json"])
                <> []) by discriminate.
  split; [reflexivity |]. split.
  - apply (proj1 (ingest_json_files_outcomes W "data" None [])). reflexivity.
  - split; [exact Hne |].
    destruct (proj2 (proj2 (ingest_json_files_outcomes W "data"
                              (Some ["data/clients.json"]) []))
                Hne eq_refl) as (evs & Hrun & _).
    exists evs. exact Hrun.
Defined.

(** ** The label made from a file path *)

Section Labels.
Import PyStr.














End Labels.



(** ** More on the lineage traversal *)

Section LineageNodes.
Import BackendApi.

Lemma add_edges_typed (items : list value) :
  forall new, add_edges [] items = inr new -> Forall Notions.loads_into_edge new.
Proof.
  induction items as [|rel items IH]; intros new.
  - simpl. intros [= <-]. constructor.
  - simpl. unfold and_then.
    destruct (start_node_of rel) as [e | s]; [discriminate |].
    destruct (end_node_of rel) as [e | en]; [discriminate |].
    destruct (as_str "source" _) as [e | src']; [discriminate |].
    destruct (as_str "target" _) as [e | tgt']; [discriminate |].
    rewrite add_edges_acc.
    destruct (add_edges [] items) as [e | new'] eqn:Hrest; [discriminate |].
    intros [= <-]. constructor; [reflexivity | now apply IH].
Qed.

Lemma mem_app {V} (k : string) (d e : @PyDict.t V) :
  PyDict.mem k (d ++ e)%list = PyDict.mem k d || PyDict.mem k e.
Proof.
  induction d as [|[k' v'] d IH]; [reflexivity |].
  cbn [app PyDict.mem]. now rewrite IH, orb_assoc.
Qed.

(** One turn of the loop, seen from the dictionary of nodes. *)
Lemma lineage_step_nodes (d d' : @PyDict.t LineageNode)
  (es es' : list LineageEdge) (r : record) :
  lineage_step (d, es) r = inr (d', es') ->
  exists name,
    Notions.related_name r = Some name /\
    d' = (if PyDict.mem name d then d
          else d ++ [Notions.related_entry name])%list /\
    exists new,
      es' = (es ++ new)%list /\ Forall Notions.loads_into_edge new.
Proof.
  unfold lineage_step, and_then, Notions.related_name.
  destruct (getitem r "t") as [e | t_node]; [discriminate |].
  destruct (getitem r "related") as [e | related]; [discriminate |].
  destruct (getitem r "rels") as [e | rels]; [discriminate |].
  destruct (subscript related "name") as [e | name]; [discriminate |].
  destruct name as [| | | name | | | |]; try discriminate.
  destruct (PyDict.mem name d) eqn:Hmem; cbn [negb];
    (destruct (iter_items rels) as [e | items]; [discriminate |]);
    rewrite add_edges_acc;
    (destruct (add_edges [] items) as [e | new] eqn:Hnew; [discriminate |]);
    intros [= <- <-]; exists name; (split; [reflexivity |]); rewrite Hmem.
  - split; [reflexivity |]. exists new. split; [reflexivity |].
    now apply (add_edges_typed items).
  - split; [now apply set_absent |]. exists new. split; [reflexivity |].
    now apply (add_edges_typed items).
Qed.

(** The whole loop, seen from the dictionary of nodes: the tables added
    are those named by the records and not yet present, each once, in the
    order of their first record. *)
Lemma lineage_loop_nodes (rows : list record) (fail : option string) :
  forall d es d' es',
    iterate lineage_step rows fail (d, es) = inr (d', es') ->
    exists added,
      d' = (d ++ map Notions.related_entry added)%list /\
      NoDup added /\
      (forall n,
          In n added <->
          PyDict.mem n d = false /\
          exists r, In r rows /\ Notions.related_name r = Some n) /\
      (Forall Notions.loads_into_edge es ->
       Forall Notions.loads_into_edge es').
Proof.
  induction rows as [|r rows IH]; intros d es d' es'; cbn [iterate].
  - destruct fail; [discriminate |]. intros [= <- <-].
    exists []. cbn [map]. rewrite app_nil_r.
    split; [reflexivity |]. split; [constructor |]. split; [| auto].
    intros n. split; [intros [] | intros (_ & r & [] & _)].
  - destruct (lineage_step (d, es) r) as [e | [d1 es1]] eqn:Hstep;
      [discriminate |].
    intros Hrest.
    apply lineage_step_nodes in Hstep.
    destruct Hstep as (name & Hname & Hd1 & new & -> & Hnew).
    apply IH in Hrest.
    destruct Hrest as (added & -> & Hnodup & Hin & Htyped).
    assert (Hedges : Forall Notions.loads_into_edge es ->
                     Forall Notions.loads_into_edge es').
    { intros Hes. apply Htyped. apply Forall_app. now split. }
    destruct (PyDict.mem name d) eqn:Hmem; subst d1.
    + exists added. split; [reflexivity |]. split; [assumption |].
      split; [| assumption].
      intros n. rewrite Hin. split.
      * intros (Hn & r' & Hr' & Hrn). split; [assumption |].
        exists r'. split; [now right | assumption].
      * intros (Hn & r' & [<- | Hr'] & Hrn).
        -- rewrite Hname in Hrn. injection Hrn as <-.
           rewrite Hmem in Hn. discriminate.
        -- split; [assumption |]. now exists r'.
    + exists (name :: added). split; [now rewrite <- app_assoc |].
      assert (Hmem1 : forall n,
                 PyDict.mem n (d ++ [Notions.related_entry name])%list =
                 PyDict.mem n d || String.eqb n name).
      { intros n. rewrite mem_app. unfold Notions.related_entry.
        cbn [PyDict.mem]. now rewrite orb_false_r. }
      split.
      * constructor; [| assumption].
        intros Hbad. apply Hin in Hbad. destruct Hbad as [Hbad _].
        rewrite Hmem1, String.eqb_refl, orb_true_r in Hbad. discriminate.
      * split; [| assumption].
        intros n. split.
        -- intros [<- | Hn].
           ++ split; [assumption |]. exists r. split; [now left | assumption].
           ++ apply Hin in Hn. destruct Hn as (Hn & r' & Hr' & Hrn).
              rewrite Hmem1 in Hn. apply orb_false_iff in Hn.
              split; [tauto |]. exists r'. split; [now right | assumption].
        -- intros (Hn & r' & Hr' & Hrn).
           destruct (String.eqb_spec n name) as [-> | Hne]; [now left |].
           right. apply Hin. rewrite Hmem1, Hn.
           apply String.eqb_neq in Hne. rewrite Hne.
           split; [reflexivity |].
           destruct Hr' as [<- | Hr'].
           ++ rewrite Hname in Hrn. injection Hrn as <-.
              apply String.eqb_neq in Hne. contradiction.
           ++ now exists r'.
Qed.

(** A record without a related table name stops the loop. *)
Lemma lineage_loop_malformed (rows : list record) (fail : option string) :
  (exists r, In r rows /\ Notions.related_name r = None) ->
  forall st, exists e, iterate lineage_step rows fail st = inl e.
Proof.
  induction rows as [|r rows IH]; intros (bad & Hin & Hbad) st.
  - destruct Hin.
  - cbn [iterate].
    destruct (lineage_step st r) as [e | st1] eqn:Hstep; [now exists e |].
    destruct Hin as [-> | Hin].
    + destruct st as [d es], st1 as [d1 es1].
      apply lineage_step_nodes in Hstep.
      destruct Hstep as (name & Hname & _). rewrite Hbad in Hname.
      discriminate.
    + apply IH. now exists bad.
Qed.

Lemma mem_keys {V} (k : string) (d : @PyDict.t V) :
  PyDict.mem k d = existsb (String.eqb k) (PyDict.keys d).
Proof.
  induction d as [|[k' v'] d IH]; [reflexivity |].
  cbn [PyDict.mem PyDict.keys map fst existsb]. now rewrite IH.
Qed.

(** The whole loop, with the order: every record names a table, and the
    dictionary gains the names not yet present, in the order of their
    first record. *)
Lemma lineage_loop_order (rows : list record) (fail : option string) :
  forall d es d' es',
    iterate lineage_step rows fail (d, es) = inr (d', es') ->
    exists names,
      map Notions.related_name rows = map Some names /\
      d' = (d ++ map Notions.related_entry
                   (Notions.first_seen (PyDict.keys d) names))%list.
Proof.
  induction rows as [|r rows IH]; intros d es d' es'; cbn [iterate].
  - destruct fail; [discriminate |]. intros [= <- <-].
    exists []. cbn [map Notions.first_seen]. now rewrite app_nil_r.
  - destruct (lineage_step (d, es) r) as [e | [d1 es1]] eqn:Hstep;
      [discriminate |].
    intros Hrest.
    apply lineage_step_nodes in Hstep.
    destruct Hstep as (name & Hname & Hd1 & _).
    apply IH in Hrest. destruct Hrest as (names & Hnames & ->).
    exists (name :: names). cbn [map]. rewrite Hname, Hnames.
    split; [reflexivity |].
    cbn [Notions.first_seen]. rewrite <- mem_keys.
    destruct (PyDict.mem name d); subst d1; [reflexivity |].
    unfold PyDict.keys at 1. rewrite map_app. cbn [map].
    rewrite <- app_assoc. reflexivity.
Qed.

(** [first_seen] keeps each name once, and keeps the names that are not
    among those already seen. *)
Lemma first_seen_spec (names : list string) :
  forall seen,
    NoDup (Notions.first_seen seen names) /\
    forall n,
      In n (Notions.first_seen seen names) <-> ~ In n seen /\ In n names.
Proof.
  induction names as [|a names IH]; intros seen; cbn [Notions.first_seen].
  - split; [constructor |]. intros n. simpl. tauto.
  - destruct (existsb (String.eqb a) seen) eqn:Hseen.
    + destruct (IH seen) as [Hnodup Hin]. split; [assumption |].
      intros n. rewrite Hin. split; [intros [H1 H2]; split; [| right]; auto |].
      intros [Hn [<- | Hn']]; [| now split].
      exfalso. apply Hn. apply existsb_exists in Hseen.
      destruct Hseen as (x & Hx & Heq). apply String.eqb_eq in Heq.
      now subst x.
    + destruct (IH (seen ++ [a])%list) as [Hnodup Hin].
      assert (Hnew : ~ In a seen).
      { intros Ha. assert (Hex : existsb (String.eqb a) seen = true).
        { apply existsb_exists. exists a. split; [assumption |].
          apply String.eqb_refl. }
        rewrite Hex in Hseen. discriminate. }
      split.
      * constructor; [| assumption].
        intros Hbad. apply Hin in Hbad. destruct Hbad as [Hbad _].
        apply Hbad. apply in_or_app. right. now left.
      * intros n. simpl. rewrite Hin. rewrite in_app_iff. simpl.
        destruct (String.eqb_spec a n) as [-> | Hne]; [tauto |].
        split.
        -- intros [Heq | [Hn Hn']]; [contradiction | tauto].
        -- intros [Hn [Heq | Hn']]; [contradiction |].
           right. split; [| assumption]. intros [H | [H | []]]; tauto.
Qed.

End LineageNodes.

(** X14.  Every answer of the lineage endpoint starts with the center node,
    followed by one related node per table that the records name and that
    is not the requested table, in the order of their first record; a
    record that names the requested table itself leaves the center node as
    it is.  Every edge has the type [LOADS_INTO]. *)
Theorem get_lineage_answer_shape (W : world) (table_name : string)
  (depth : option Z) (h h' : list event)
  (response : BackendApi.LineageResponse) :
  BackendApi.get_lineage W table_name depth h = (h', inr response) ->
  let d := match depth with Some d => d | None => 2%Z end in
  let rows :=
    fetched (store W (h ++ [DriverOpen; SessionOpen])
               (BackendApi.lineage_query d)
               [("table_name", VStr table_name)]) in
  exists names,
    map Notions.related_name rows = map Some names /\
    let others := Notions.first_seen [table_name] names in
    BackendApi.nodes response =
    Spec.center_node table_name :: map Examples.related_node others /\
    NoDup (table_name :: others) /\
    (forall n, In n others <-> n <> table_name /\ In n names) /\
    Forall Notions.loads_into_edge (BackendApi.edges response).
Proof.
  intros Hrun d rows. unfold BackendApi.get_lineage in Hrun. fold d in Hrun.
  destruct ((1 <=? d)%Z && (d <=? 5)%Z); [| discriminate].
  rewrite get_lineage_body_eq in Hrun.
  destruct (session_failure W (h ++ [DriverOpen])); [discriminate |].
  cbn zeta in Hrun. fold rows in Hrun.
  destruct (iterate BackendApi.lineage_step rows _ _)
    as [e | [nodes0 edges0]] eqn:Hloop; [discriminate |].
  injection Hrun as _ <-. cbn [BackendApi.nodes BackendApi.edges].
  pose proof (lineage_loop_nodes _ _ _ _ _ _ Hloop) as Htyped.
  destruct Htyped as (_ & _ & _ & _ & Htyped).
  apply lineage_loop_order in Hloop.
  destruct Hloop as (names & Hnames & ->).
  change (PyDict.keys [(table_name, Spec.center_node table_name)])
    with [table_name].
  destruct (first_seen_spec names [table_name]) as [Hnodup Hin].
  exists names. split; [exact Hnames |]. cbn zeta.
  split; [| split; [| split]].
  - unfold PyDict.values. cbn [app map snd]. f_equal.
    rewrite map_map. reflexivity.
  - constructor; [| assumption].
    intros Hbad. apply Hin in Hbad. destruct Hbad as [Hbad _].
    apply Hbad. now left.
  - intros n. rewrite Hin. simpl. split.
    + intros [Hn Hn']. split; [| assumption]. intros ->. tauto.
    + intros [Hn Hn']. split; [| assumption]. intros [-> | []]. tauto.
  - apply Htyped. constructor.
Qed.

Lemma get_lineage_answer_shape_witness :
  let rows :=
    [ Examples.lineage_row "DEPOSIT_SUMMARY" "FINAL_REPORT" [];
      Examples.lineage_row "DEPOSIT_SUMMARY" "CUSTOMER_MASTER" [];
      Examples.lineage_row "DEPOSIT_SUMMARY" "DEPOSIT_SUMMARY" [];
      Examples.lineage_row "DEPOSIT_SUMMARY" "FINAL_REPORT" [] ] in
  let W := Examples.quiet_world None rows "" in
  exists response,
    snd (BackendApi.get_lineage W "DEPOSIT_SUMMARY" (Some 2%Z) []) =
    inr response /\
    BackendApi.nodes response =
    [ Spec.center_node "DEPOSIT_SUMMARY";
      Examples.related_node "FINAL_REPORT";
      Examples.related_node "CUSTOMER_MASTER" ].
Proof.
  intros rows W.
  destruct (get_lineage_answer_shape W "DEPOSIT_SUMMARY" (Some 2%Z) [] _ _
              eq_refl) as (names & Hnames & Hnodes & _).
  eexists. split; [reflexivity |].
  assert (Heq : names =
                ["FINAL_REPORT"; "CUSTOMER_MASTER"; "DEPOSIT_SUMMARY";
                 "FINAL_REPORT"]).
  { cbv in Hnames. destruct names as [|n1 [|n2 [|n3 [|n4 [|n5 names]]]]];
      try discriminate Hnames.
    injection Hnames as <- <- <- <-. reflexivity. }
  rewrite Heq in Hnodes. exact Hnodes.
Defined.

(** X15.  Once its session is open, the lineage endpoint runs exactly one
    statement, whose text depends on the depth only (the table name
    travels as a parameter), and closes the session and the driver whatever
    the records are; and when a record names no related table (the field
    is missing, or its name is no string) the request fails as a whole:
    no partial answer is returned. *)
Theorem get_lineage_one_statement_no_partial_answer (W : world)
  (table_name : string) (d : Z) (h : list event) :
  (1 <= d <= 5)%Z ->
  session_failure W (h ++ [DriverOpen]) = None ->
  let params := [("table_name", VStr table_name)] in
  let rows :=
    fetched (store W (h ++ [DriverOpen; SessionOpen])
               (BackendApi.lineage_query d) params) in
  fst (BackendApi.get_lineage W table_name (Some d) h) =
  (h ++ [DriverOpen; SessionOpen; Run (BackendApi.lineage_query d) params;
         SessionClose; DriverClose])%list /\
  ((exists r, In r rows /\ Notions.related_name r = None) ->
   exists e, snd (BackendApi.get_lineage W table_name (Some d) h) = inl e).
Proof.
  intros Hrange Hsession params rows.
  unfold BackendApi.get_lineage.
  assert (Hin : ((1 <=? d)%Z && (d <=? 5)%Z) = true).
  { apply andb_true_iff. split; apply Z.leb_le; lia. }
  rewrite Hin, get_lineage_body_eq, Hsession. cbn zeta.
  split; [reflexivity |].
  intros Hbad. cbn [snd]. fold params. fold rows.
  destruct (lineage_loop_malformed rows
              (failure (store W (h ++ [DriverOpen; SessionOpen])
                          (BackendApi.lineage_query d) params))
              Hbad
              ([(table_name, Spec.center_node table_name)], []))
    as [e ->].
  now exists e.
Qed.

Lemma get_lineage_one_statement_no_partial_answer_witness :
  let rows :=
    [Examples.lineage_row "DEPOSIT_SUMMARY" "CUSTOMER_MASTER" [];
     [("t", Examples.table_node "DEPOSIT_SUMMARY"); ("rels", VList [])]] in
  let W := Examples.quiet_world None rows "" in
  (1 <= 3 <= 5)%Z /\
  session_failure W ([] ++ [DriverOpen]) = None /\
  exists e, snd (BackendApi.get_lineage W "DEPOSIT_SUMMARY" (Some 3%Z) []) =
            inl e.
Proof.
  intros rows W.
  assert (Hrange : (1 <= 3 <= 5)%Z) by lia.
  split; [exact Hrange |]. split; [reflexivity |].
  apply (proj2 (get_lineage_one_statement_no_partial_answer W
                  "DEPOSIT_SUMMARY" 3 [] Hrange eq_refl)).
  eexists. split; [right; left; reflexivity | reflexivity].
Defined.

(** ** The schema, search and statistics endpoints *)

(** A body run inside a session inside a driver: both are closed whatever
    the body does, and nothing is run when the session cannot be opened. *)
Lemma in_driver_and_session {A} (W : world) (body : M A) (h : list event) :
  (driver_open ;;; try_finally (with_session W body) driver_close) h =
  match session_failure W (h ++ [DriverOpen]) with
  | Some cause => ((h ++ [DriverOpen; DriverClose])%list, inl (Error cause))
  | None =>
      let (h1, r) := body (h ++ [DriverOpen; SessionOpen])%list in
      ((h1 ++ [SessionClose; DriverClose])%list, r)
  end.
Proof.
  unfold bind at 1. unfold driver_open, emit at 1.
  unfold try_finally at 1, with_session, session_open.
  unfold bind at 1.
  destruct (session_failure W (h ++ [DriverOpen])) as [cause|].
  - unfold driver_close, emit. now rewrite app_one_one.
  - unfold try_finally, driver_close, emit. rewrite app_one_one.
    destruct (body _) as [h1 r]. now rewrite app_one_one.
Qed.

(** X16.  [get_table_details] runs one statement with the table name as a
    parameter and closes the session and the driver in every case.  When
    the store returns no record (or an empty one) it fails with an HTTP
    404 error that names the table - passed on as it is, not turned into a
    500; when the statement fails, the store's error is passed on; and
    otherwise the first record is returned. *)
Theorem get_table_details_outcomes (W : world) (table_name : string)
  (h : list event) :
  session_failure W (h ++ [DriverOpen]) = None ->
  let params := [("table_name", VStr table_name)] in
  let c :=
    store W (h ++ [DriverOpen; SessionOpen])
      BackendEndpoints.table_details_query params in
  BackendEndpoints.get_table_details W table_name h =
  ((h ++ [DriverOpen; SessionOpen;
          Run BackendEndpoints.table_details_query params;
          SessionClose; DriverClose])%list,
   match failure c with
   | Some cause => inl (Error cause)
   | None =>
       match fetched c with
       | [] | [] :: _ =>
           inl (HTTPException 404 ("Table '" ++ table_name ++ "' not found"))
       | r :: _ => inr r
       end
   end).
Proof.
  intros Hsession params c.
  unfold BackendEndpoints.get_table_details.
  rewrite in_driver_and_session, Hsession.
  unfold bind, session_run, lift, Neo4jSetup.single, raise, ret.
  fold params. fold c.
  destruct (failure c) as [cause|];
    [repeat rewrite <- app_assoc; reflexivity |].
  destruct (fetched c) as [|[|kv r] rest]; cbn [hd_error];
    repeat rewrite <- app_assoc; reflexivity.
Qed.

Lemma get_table_details_outcomes_witness :
  let W := Examples.quiet_world None [] "" in
  session_failure W ([] ++ [DriverOpen]) = None /\
  snd (BackendEndpoints.get_table_details W "NO_SUCH_TABLE" []) =
  inl (HTTPException 404 "Table 'NO_SUCH_TABLE' not found").
Proof.
  intros W. split; [reflexivity |].
  rewrite (get_table_details_outcomes W "NO_SUCH_TABLE" [] eq_refl).
  reflexivity.
Defined.

(** Reading a whole result, as the listing endpoints do. *)
Lemma listing_eq (W : world) (query : string)
  (params : list (string * value)) (h : list event) :
  (driver_open ;;;
   try_finally
     (with_session W
        (result <- session_run W query params ;;
         tables <- collect_dicts result ;;
         ret {| BackendEndpoints.tables := tables;
                BackendEndpoints.tables_count := List.length tables |}))
     driver_close) h =
  match session_failure W (h ++ [DriverOpen]) with
  | Some cause => ((h ++ [DriverOpen; DriverClose])%list, inl (Error cause))
  | None =>
      let c := store W (h ++ [DriverOpen; SessionOpen]) query params in
      ((h ++ [DriverOpen; SessionOpen; Run query params; SessionClose;
              DriverClose])%list,
       match failure c with
       | Some cause => inl (Error cause)
       | None =>
           inr {| BackendEndpoints.tables := map dict (fetched c);
                  BackendEndpoints.tables_count :=
                    List.length (map dict (fetched c)) |}
       end)
  end.
Proof.
  rewrite in_driver_and_session.
  destruct (session_failure W (h ++ [DriverOpen])) as [cause|];
    [reflexivity |].
  unfold bind, session_run, collect_dicts, for_records, lift, ret.
  rewrite iterate_collect. cbn zeta.
  destruct (failure _); repeat rewrite <- app_assoc; reflexivity.
Qed.

(** X17.  The search endpoint refuses a missing or empty search text before
    anything is opened.  Whenever it or the table listing answers, one
    statement was run in a session that was closed together with the
    driver, the search text travelled as the parameter [search], and the
    count of the answer is the number of tables in it. *)
Theorem listing_endpoints (W : world) (h : list event) :
  BackendEndpoints.search_tables W None h =
  (h, inl (ValidationError "q: field required")) /\
  BackendEndpoints.search_tables W (Some "") h =
  (h, inl (ValidationError "q: too short")) /\
  (forall q h' reply,
      BackendEndpoints.search_tables W q h = (h', inr reply) ->
      exists text,
        q = Some text /\ text <> "" /\
        h' = (h ++ [DriverOpen; SessionOpen;
                    Run BackendEndpoints.search_query
                      [("search", VStr text)];
                    SessionClose; DriverClose])%list /\
        BackendEndpoints.tables_count reply =
        List.length (BackendEndpoints.tables reply)) /\
  (forall h' reply,
      BackendEndpoints.get_tables W h = (h', inr reply) ->
      h' = (h ++ [DriverOpen; SessionOpen;
                  Run BackendEndpoints.tables_query [];
                  SessionClose; DriverClose])%list /\
      BackendEndpoints.tables_count reply =
      List.length (BackendEndpoints.tables reply)).
Proof.
  split; [reflexivity |]. split; [reflexivity |]. split.
  - intros q h' reply. destruct q as [[|c0 text]|]; try discriminate.
    cbn [BackendEndpoints.search_tables].
    unfold BackendEndpoints.search_tables_body. rewrite listing_eq.
    destruct (session_failure W (h ++ [DriverOpen])); [discriminate |].
    cbn zeta. destruct (failure _); [discriminate |].
    intros [= <- <-]. exists (String c0 text).
    repeat split; discriminate.
  - intros h' reply. unfold BackendEndpoints.get_tables. rewrite listing_eq.
    destruct (session_failure W (h ++ [DriverOpen])); [discriminate |].
    cbn zeta. destruct (failure _); [discriminate |].
    intros [= <- <-]. split; reflexivity.
Qed.

Lemma listing_endpoints_witness :
  let W := Examples.quiet_world None [[("name", VStr "clients")]] "" in
  exists reply,
    snd (BackendEndpoints.search_tables W (Some "cli") []) = inr reply /\
    BackendEndpoints.tables_count reply = 1.
Proof.
  intros W. eexists. split; [reflexivity |].
  destruct (proj1 (proj2 (proj2 (listing_endpoints W [])))
              (Some "cli") _ _ eq_refl) as (text & _ & _ & _ & Hcount).
  exact Hcount.
Defined.

(** The loop of the statistics endpoint: it runs the queries in order and
    adds their keys in order; when it fails, it has run a first part of the
    queries only. *)
Lemma stats_loop_inv (W : world) (qs : list (string * string)) :
  forall stats h,
    NoDup (map fst qs) ->
    (forall k, In k (map fst qs) -> PyDict.mem k stats = false) ->
    match BackendEndpoints.stats_loop W qs stats h with
    | (h', inr stats') =>
        h' = (h ++ map Notions.stats_run qs)%list /\
        PyDict.keys stats' = (PyDict.keys stats ++ map fst qs)%list
    | (h', inl e) =>
        exists n,
          n <= List.length qs /\
          h' = (h ++ map Notions.stats_run (firstn n qs))%list
    end.
Proof.
  induction qs as [|[key query] qs IH]; intros stats h Hnodup Hfresh.
  - cbn [BackendEndpoints.stats_loop map]. unfold ret.
    now rewrite !app_nil_r.
  - cbn [BackendEndpoints.stats_loop].
    unfold bind at 1. unfold session_run.
    unfold bind at 1. unfold lift at 1.
    assert (Hone : exists n,
               n <= List.length ((key, query) :: qs) /\
               (h ++ [Run query []])%list =
               (h ++ map Notions.stats_run
                      (firstn n ((key, query) :: qs)))%list).
    { exists 1. split; [simpl; lia | reflexivity]. }
    destruct (Neo4jSetup.single _) as [e | row]; [exact Hone |].
    unfold bind at 1. unfold lift at 1.
    destruct (BackendEndpoints.count_of row) as [e | count]; [exact Hone |].
    clear Hone. cbn [map fst] in Hnodup, Hfresh.
    inversion Hnodup as [|? ? Hkey Hrest]; subst.
    assert (Hset : PyDict.set key count stats =
                   (stats ++ [(key, count)])%list).
    { apply set_absent, Hfresh. now left. }
    rewrite Hset.
    specialize (IH (stats ++ [(key, count)])%list
                  (h ++ [Run query []])%list Hrest).
    assert (Hfresh' : forall k,
               In k (map fst qs) ->
               PyDict.mem k (stats ++ [(key, count)])%list = false).
    { intros k Hk. rewrite mem_app. cbn [PyDict.mem].
      rewrite (Hfresh k) by now right.
      destruct (String.eqb_spec k key) as [-> | Hne]; [contradiction |].
      reflexivity. }
    specialize (IH Hfresh').
    destruct (BackendEndpoints.stats_loop W qs _ _) as [h' [e | stats']].
    + destruct IH as (n & Hn & ->).
      exists (S n). split; [simpl; lia |].
      cbn [firstn map]. now rewrite <- app_assoc.
    + destruct IH as [-> Hkeys]. split.
      * cbn [map]. now rewrite <- app_assoc.
      * rewrite Hkeys. unfold PyDict.keys. rewrite map_app.
        cbn [map fst]. now rewrite <- app_assoc.
Qed.

Lemma get_set_same {V} (k : string) (v : V) (d : @PyDict.t V) :
  PyDict.get k (PyDict.set k v d) = Some v.
Proof.
  induction d as [|[k' v'] d IH]; cbn [PyDict.set PyDict.get].
  - now rewrite String.eqb_refl.
  - destruct (String.eqb k k') eqn:Hk; cbn [PyDict.get]; now rewrite Hk.
Qed.

Lemma get_set_other {V} (k k0 : string) (v : V) (d : @PyDict.t V) :
  k <> k0 -> PyDict.get k (PyDict.set k0 v d) = PyDict.get k d.
Proof.
  intros Hne. apply String.eqb_neq in Hne.
  induction d as [|[k' v'] d IH]; cbn [PyDict.set PyDict.get].
  - now rewrite Hne.
  - destruct (String.eqb k0 k') eqn:Hk0; cbn [PyDict.get].
    + apply String.eqb_eq in Hk0. subst k'. now rewrite Hne.
    + now rewrite IH.
Qed.

(** The loop only sets the keys of its queries. *)
Lemma stats_loop_frame (W : world) (qs : list (string * string)) :
  forall stats h h' stats',
    BackendEndpoints.stats_loop W qs stats h = (h', inr stats') ->
    forall k, ~ In k (map fst qs) -> PyDict.get k stats' = PyDict.get k stats.
Proof.
  induction qs as [|[key query] qs IH]; intros stats h h' stats';
    cbn [BackendEndpoints.stats_loop].
  - unfold ret. now intros [= _ <-].
  - unfold bind at 1. unfold session_run.
    unfold bind at 1. unfold lift at 1.
    destruct (Neo4jSetup.single _) as [e | row]; [discriminate |].
    unfold bind at 1. unfold lift at 1.
    destruct (BackendEndpoints.count_of row) as [e | count]; [discriminate |].
    intros Hrest k Hk. cbn [map fst] in Hk.
    rewrite (IH _ _ _ _ Hrest k) by (intros Hin; apply Hk; now right).
    apply get_set_other. intros ->. apply Hk. now left.
Qed.

(** What the loop stores under each key: the count read from the first
    record of the key's statement, run on the history the statements before
    it have left. *)
Lemma stats_loop_counts (W : world) (qs : list (string * string)) :
  forall stats h h' stats',
    NoDup (map fst qs) ->
    BackendEndpoints.stats_loop W qs stats h = (h', inr stats') ->
    forall i key query,
      nth_error qs i = Some (key, query) ->
      let c :=
        store W (h ++ map Notions.stats_run (firstn i qs))%list query [] in
      failure c = None /\
      exists v,
        BackendEndpoints.count_of (hd_error (fetched c)) = inr v /\
        PyDict.get key stats' = Some v.
Proof.
  induction qs as [|[key0 query0] qs IH]; intros stats h h' stats' Hnodup;
    cbn [BackendEndpoints.stats_loop].
  - intros _ [|i] key query Hnth; discriminate Hnth.
  - unfold bind at 1. unfold session_run.
    unfold bind at 1. unfold lift at 1. unfold Neo4jSetup.single.
    destruct (failure (store W h query0 [])) as [cause|] eqn:Hfail;
      [discriminate |].
    unfold bind at 1. unfold lift at 1.
    destruct (BackendEndpoints.count_of _) as [e | count] eqn:Hcount;
      [discriminate |].
    intros Hrest. cbn [map fst] in Hnodup.
    inversion Hnodup as [|? ? Hkey Hnodup']; subst.
    intros [|i] key query Hnth.
    + cbn in Hnth. injection Hnth as <- <-.
      cbn [firstn map]. rewrite app_nil_r. cbn zeta.
      split; [exact Hfail |]. exists count. split; [exact Hcount |].
      rewrite (stats_loop_frame W qs _ _ _ _ Hrest key0 Hkey).
      apply get_set_same.
    + cbn [nth_error] in Hnth.
      pose proof (IH _ _ _ _ Hnodup' Hrest i key query Hnth) as Hi.
      cbn zeta in Hi. cbn [firstn map]. cbn zeta.
      change (Notions.stats_run (key0, query0)) with (Run query0 []).
      rewrite <- app_assoc in Hi. exact Hi.
Qed.

(** X18.  The statistics endpoint, once its session is open: an answer
    always has exactly the six keys tables, columns, clients, accounts,
    transactions and loans, in this order, and the six count statements
    were run in this order in one session; a failure leaves a first part of
    the statements run; in both cases the session and the driver are
    closed.  In an answer, the value under each key is the count read from
    the first record of the key's own statement, and it is zero when that
    statement returned no record, whatever the other statements
    returned. *)
Theorem get_stats_outcomes (W : world) (h : list event) :
  session_failure W (h ++ [DriverOpen]) = None ->
  (forall h' stats,
      BackendEndpoints.get_stats W h = (h', inr stats) ->
      PyDict.keys stats =
      ["tables"; "columns"; "clients"; "accounts"; "transactions"; "loans"] /\
      h' = (h ++ [DriverOpen; SessionOpen]
              ++ map Notions.stats_run BackendEndpoints.stats_queries
              ++ [SessionClose; DriverClose])%list /\
      forall i key query,
        nth_error BackendEndpoints.stats_queries i = Some (key, query) ->
        let c := store W (Notions.stats_history h i) query [] in
        failure c = None /\
        (exists v,
            BackendEndpoints.count_of (hd_error (fetched c)) = inr v /\
            PyDict.get key stats = Some v) /\
        (fetched c = [] -> PyDict.get key stats = Some (VInt 0))) /\
  (forall h' e,
      BackendEndpoints.get_stats W h = (h', inl e) ->
      exists n,
        n <= 6 /\
        h' = (h ++ [DriverOpen; SessionOpen]
                ++ map Notions.stats_run
                     (firstn n BackendEndpoints.stats_queries)
                ++ [SessionClose; DriverClose])%list) /\
  ((forall h0 q ps, store W h0 q ps = {| fetched := []; failure := None |}) ->
   snd (BackendEndpoints.get_stats W h) =
   inr (map (fun kq => (fst kq, VInt 0)) BackendEndpoints.stats_queries)).
Proof.
  intros Hsession.
  unfold BackendEndpoints.get_stats.
  rewrite in_driver_and_session, Hsession.
  pose proof (stats_loop_inv W BackendEndpoints.stats_queries []
                (h ++ [DriverOpen; SessionOpen])%list) as Hloop.
  assert (Hnodup : NoDup (map fst BackendEndpoints.stats_queries)).
  { cbn. repeat constructor; cbn; intuition discriminate. }
  specialize (Hloop Hnodup (fun k _ => eq_refl)).
  split; [| split].
  - intros h' stats.
    destruct (BackendEndpoints.stats_loop W _ _ _) as [h1 [e | stats1]]
      eqn:Hrun; [discriminate |].
    intros [= <- <-]. destruct Hloop as [-> Hkeys].
    split; [exact Hkeys |].
    split; [now repeat rewrite <- app_assoc |].
    intros i key query Hnth.
    pose proof (stats_loop_counts W _ _ _ _ _ Hnodup Hrun i key query Hnth)
      as Hcount.
    cbn zeta in Hcount. unfold Notions.stats_history. cbn zeta.
    rewrite <- app_assoc in Hcount.
    destruct Hcount as (Hfail & v & Hv & Hget).
    split; [exact Hfail |]. split; [now exists v |].
    intros Hnone. rewrite Hnone in Hv. cbn in Hv.
    injection Hv as <-. exact Hget.
  - intros h' e.
    destruct (BackendEndpoints.stats_loop W _ _ _) as [h1 [e1 | stats1]];
      [| discriminate].
    intros [= <- <-]. destruct Hloop as (n & Hn & ->).
    exists n. split; [exact Hn | now repeat rewrite <- app_assoc].
  - intros Hstore. clear Hloop.
    cbn [BackendEndpoints.stats_loop BackendEndpoints.stats_queries].
    unfold bind, session_run, lift, Neo4jSetup.single, ret.
    rewrite !Hstore. reflexivity.
Qed.

Lemma get_stats_outcomes_witness :
  let W :=
    Examples.silent_on_world "MATCH (c:Client) RETURN count(c) as count"
      [[("count", VInt 12)]] in
  session_failure W ([] ++ [DriverOpen]) = None /\
  exists stats,
    snd (BackendEndpoints.get_stats W []) = inr stats /\
    PyDict.keys stats =
    ["tables"; "columns"; "clients"; "accounts"; "transactions"; "loans"] /\
    PyDict.get "clients" stats = Some (VInt 0) /\
    PyDict.get "columns" stats = Some (VInt 12).
Proof.
  intros W. split; [reflexivity |].
  eexists. split; [reflexivity |].
  destruct (proj1 (get_stats_outcomes W [] eq_refl) _ _ eq_refl)
    as (Hkeys & _ & Hcounts).
  split; [exact Hkeys |]. split.
  - exact (proj2 (proj2 (Hcounts 2 "clients" _ eq_refl)) eq_refl).
  - reflexivity.
Defined.

(** ** The catalog ingestion and the database setup *)

Section Catalog.
Import Neo4jAdmin.

Lemma or_gets_truthy (fields : list (string * value)) (keys : list string)
  (final : value) :
  truthy final = true -> truthy (or_gets fields keys final) = true.
Proof.
  intros Hfinal. induction keys as [|key keys IH]; cbn [or_gets];
    [assumption |].
  destruct (truthy (get_or fields key VNone)) eqn:Hv; assumption.
Qed.

(** An entry that is an object: its statement is run, a failure of the
    statement is reported, and nothing is raised. *)
Lemma ingest_entry_object (W : world) (i : nat)
  (fields : list (string * value)) (h : list event) :
  exists evs,
    ingest_entry W i (VMap fields) h =
    ((h ++ Run merge_dataset_query (dataset_params i fields) :: evs)%list,
     inr tt) /\
    Notions.statements evs = [].
Proof.
  unfold ingest_entry, try_except, get_of. cbn [fields_of].
  unfold bind, lift, session_run, Neo4jSetup.raise_failure, raise, ret,
    print, emit.
  destruct (failure _); eexists.
  - rewrite <- app_assoc. split; reflexivity.
  - instantiate (1 := []). split; reflexivity.
Qed.

Lemma statements_app (a b : list event) :
  Notions.statements (a ++ b) =
  (Notions.statements a ++ Notions.statements b)%list.
Proof. apply filter_app. Qed.

Lemma ingest_entries_objects (W : world)
  (objs : list (list (string * value))) :
  forall i h,
    exists evs,
      ingest_entries W i (map VMap objs) h = ((h ++ evs)%list, inr tt) /\
      Notions.statements evs = Notions.entry_statements i objs.
Proof.
  induction objs as [|fields objs IH]; intros i h; cbn [map ingest_entries].
  - exists []. unfold ret. rewrite app_nil_r. split; reflexivity.
  - unfold bind. destruct (ingest_entry_object W i fields h) as (evs1 & -> & H1).
    destruct (IH (S i)
                (h ++ Run merge_dataset_query (dataset_params i fields)
                   :: evs1)%list)
      as (evs2 & -> & H2).
    exists ((Run merge_dataset_query (dataset_params i fields) :: evs1)
              ++ evs2)%list.
    split; [now rewrite app_assoc |].
    rewrite statements_app. cbn [Notions.entry_statements].
    change (Notions.statements (?x :: evs1))
      with (if Notions.is_statement x
            then x :: Notions.statements evs1 else Notions.statements evs1).
    cbn [Notions.is_statement]. rewrite H1, H2. reflexivity.
Qed.

(** An entry without [get] stops the loop with Python's error, after the
    statements of the entries before it. *)
Lemma ingest_entries_bad (W : world) (pre : list (list (string * value)))
  (bad : value) (post : list value) :
  fields_of bad = None ->
  forall i h,
    exists evs,
      ingest_entries W i (map VMap pre ++ bad :: post) h =
      ((h ++ evs)%list, inl (has_no_attribute bad "get")) /\
      Notions.statements evs = Notions.entry_statements i pre.
Proof.
  intros Hbad. induction pre as [|fields pre IH]; intros i h;
    cbn [map app ingest_entries]; unfold bind.
  - assert (Hraise : ingest_entry W i bad h =
                     (h, inl (has_no_attribute bad "get"))).
    { unfold ingest_entry, try_except, get_of. rewrite Hbad.
      reflexivity. }
    rewrite Hraise. exists []. rewrite app_nil_r. split; reflexivity.
  - destruct (ingest_entry_object W i fields h) as (evs1 & -> & H1).
    destruct (IH (S i)
                (h ++ Run merge_dataset_query (dataset_params i fields)
                   :: evs1)%list) as (evs2 & -> & H2).
    exists ((Run merge_dataset_query (dataset_params i fields) :: evs1)
              ++ evs2)%list.
    split; [now rewrite app_assoc |].
    rewrite statements_app. cbn [Notions.entry_statements].
    change (Notions.statements (?x :: evs1))
      with (if Notions.is_statement x
            then x :: Notions.statements evs1 else Notions.statements evs1).
    cbn [Notions.is_statement]. rewrite H1, H2. reflexivity.
Qed.

Lemma entry_statements_nth (objs : list (list (string * value))) :
  forall i k fields,
    nth_error objs k = Some fields ->
    In (Run merge_dataset_query (dataset_params (i + k) fields))
       (Notions.entry_statements i objs).
Proof.
  induction objs as [|f objs IH]; intros i [|k] fields Hk;
    try discriminate; cbn [Notions.entry_statements].
  - cbn in Hk. injection Hk as <-. rewrite Nat.add_0_r. now left.
  - right. rewrite Nat.add_succ_r. now apply (IH (S i) k).
Qed.

Lemma in_statements (ev : event) (evs : list event) :
  In ev (Notions.statements evs) -> In ev evs.
Proof. intros H. now apply filter_In in H. Qed.

End Catalog.

(** X19.  [ingest_catalog_data] with no catalog (nothing, or an empty
    list) says so and opens no session.  For a list of objects it returns
    normally and closes the session last; the statements run in the session
    are, in this order, one per entry - always the same text, the entry's
    values travelling as parameters - and then the relationship statement.
    The concept id of an entry is never empty: it is [unknown-i] for entry
    number [i] when the entry gives none.  An entry without [get] (a
    string, a number, a list) ends the ingestion with Python's error, which
    names the type of the entry, the session being closed: the statements
    of the entries before it have been run, and no other. *)
Theorem ingest_catalog_data_outcomes (W : world) (h : list event) :
  (forall catalog,
      Neo4jAdmin.truthy catalog = false ->
      Neo4jAdmin.ingest_catalog_data W catalog h =
      ((h ++ [Print "No catalog data provided to ingest_catalog_data(). Skipping ingestion."])%list,
       inr tt)) /\
  (forall objs,
      objs <> [] ->
      session_failure W h = None ->
      exists evs,
        Neo4jAdmin.ingest_catalog_data W (VList (map VMap objs)) h =
        ((h ++ SessionOpen :: evs
            ++ [Print "NASA catalog ingestion completed."; SessionClose])%list,
         inr tt) /\
        Notions.statements evs =
        (Notions.entry_statements 0 objs
           ++ [Run Neo4jAdmin.related_to_query []])%list /\
        forall k fields,
          nth_error objs k = Some fields ->
          In (Run Neo4jAdmin.merge_dataset_query
                (Neo4jAdmin.dataset_params k fields)) evs /\
          Neo4jAdmin.truthy (Neo4jAdmin.concept_id_of k fields) = true /\
          (Neo4jAdmin.truthy (Neo4jAdmin.get_or fields "Concept_ID" VNone)
           = false ->
           Neo4jAdmin.truthy (Neo4jAdmin.get_or fields "ConceptId" VNone)
           = false ->
           Neo4jAdmin.concept_id_of k fields =
           VStr ("unknown-" ++ PyStr.str_nat k))) /\
  (forall pre bad post,
      fields_of bad = None ->
      session_failure W h = None ->
      exists evs,
        Neo4jAdmin.ingest_catalog_data W
          (VList (map VMap pre ++ bad :: post)) h =
        ((h ++ SessionOpen :: evs ++ [SessionClose])%list,
         inl (Error ("'" ++ type_name bad
                       ++ "' object has no attribute 'get'"))) /\
        Notions.statements evs = Notions.entry_statements 0 pre).
Proof.
  split; [| split].
  - intros catalog Hfalse. unfold Neo4jAdmin.ingest_catalog_data.
    now rewrite Hfalse.
  - intros objs Hne Hsession. unfold Neo4jAdmin.ingest_catalog_data.
    assert (Htrue : Neo4jAdmin.truthy (VList (map VMap objs)) = true)
      by (destruct objs; [contradiction | reflexivity]).
    rewrite Htrue. cbn [negb].
    unfold with_session, session_open. unfold bind at 1. rewrite Hsession.
    unfold try_finally. unfold bind at 1. unfold lift.
    cbn [BackendApi.iter_items]. unfold bind at 1.
    destruct (ingest_entries_objects W objs 0 (h ++ [SessionOpen])%list)
      as (evs1 & -> & Hruns).
    unfold bind at 1.
    assert (Hrel : exists evs2,
               try_except
                 (result <- session_run W Neo4jAdmin.related_to_query [] ;;
                  Neo4jSetup.raise_failure result)
                 (fun e =>
                    print ("Failed to create RELATED_TO relationships: "
                             ++ str_exn e))
                 ((h ++ [SessionOpen]) ++ evs1)%list =
               ((((h ++ [SessionOpen]) ++ evs1)
                   ++ Run Neo4jAdmin.related_to_query [] :: evs2)%list,
                inr tt) /\
               Notions.statements evs2 = []).
    { unfold try_except, bind, session_run, Neo4jSetup.raise_failure, raise,
        ret, print, emit.
      destruct (failure _); eexists.
      - rewrite <- app_assoc. split; reflexivity.
      - instantiate (1 := []). split; reflexivity. }
    destruct Hrel as (evs2 & -> & Hrel). unfold print, emit.
    exists (evs1 ++ Run Neo4jAdmin.related_to_query [] :: evs2)%list.
    assert (Hstatements :
              Notions.statements
                (evs1 ++ Run Neo4jAdmin.related_to_query [] :: evs2) =
              (Notions.entry_statements 0 objs
                 ++ [Run Neo4jAdmin.related_to_query []])%list).
    { rewrite statements_app, Hruns. f_equal.
      change (Notions.statements (?x :: evs2))
        with (if Notions.is_statement x
              then x :: Notions.statements evs2 else Notions.statements evs2).
      cbn [Notions.is_statement]. now rewrite Hrel. }
    split; [repeat rewrite <- app_assoc; reflexivity |].
    split; [exact Hstatements |].
    intros k fields Hk. split; [| split].
    + apply in_statements. rewrite Hstatements. apply in_or_app. left.
      exact (entry_statements_nth objs 0 k fields Hk).
    + apply or_gets_truthy. reflexivity.
    + intros H1 H2. unfold Neo4jAdmin.concept_id_of.
      cbn [Neo4jAdmin.or_gets]. now rewrite H1, H2.
  - intros pre bad post Hbad Hsession.
    unfold Neo4jAdmin.ingest_catalog_data.
    assert (Htrue :
              Neo4jAdmin.truthy (VList (map VMap pre ++ bad :: post)) = true)
      by (destruct pre; reflexivity).
    rewrite Htrue. cbn [negb].
    unfold with_session, session_open. unfold bind at 1. rewrite Hsession.
    unfold try_finally. unfold bind at 1. unfold lift.
    cbn [BackendApi.iter_items]. unfold bind at 1.
    destruct (ingest_entries_bad W pre bad post Hbad 0
                (h ++ [SessionOpen])%list) as (evs & -> & Hruns).
    unfold emit. exists evs.
    split; [repeat rewrite <- app_assoc; reflexivity | exact Hruns].
Qed.

Lemma ingest_catalog_data_outcomes_witness :
  let W := Examples.quiet_world None [] "" in
  let entry := [("Short_Name", VStr "MODIS")] in
  Neo4jAdmin.truthy VNone = false /\
  run_M (Neo4jAdmin.ingest_catalog_data W VNone) =
  ([Print "No catalog data provided to ingest_catalog_data(). Skipping ingestion."],
   inr tt) /\
  [entry] <> [] /\
  Neo4jAdmin.concept_id_of 0 entry = VStr "unknown-0" /\
  (exists evs,
      fst (run_M (Neo4jAdmin.ingest_catalog_data W (VList [VMap entry]))) =
      SessionOpen :: evs
        ++ [Print "NASA catalog ingestion completed."; SessionClose] /\
      Notions.statements evs =
      [Run Neo4jAdmin.merge_dataset_query (Neo4jAdmin.dataset_params 0 entry);
       Run Neo4jAdmin.related_to_query []]) /\
  fields_of (VStr "MODIS") = None /\
  exists evs,
    run_M (Neo4jAdmin.ingest_catalog_data W
             (VList [VMap entry; VStr "MODIS"; VMap entry])) =
    (SessionOpen :: evs ++ [SessionClose],
     inl (Error "'str' object has no attribute 'get'")) /\
    Notions.statements evs =
    [Run Neo4jAdmin.merge_dataset_query (Neo4jAdmin.dataset_params 0 entry)].
Proof.
  intros W entry.
  destruct (ingest_catalog_data_outcomes W []) as (Hnone & Hobjs & Hbad).
  assert (Hne : [entry] <> []) by discriminate.
  split; [reflexivity |]. split; [now apply Hnone |].
  split; [exact Hne |]. split; [reflexivity |]. split.
  - destruct (Hobjs [entry] Hne eq_refl) as (evs & Hrun & Hst & _).
    exists evs. unfold run_M. cbn [map] in Hrun. rewrite Hrun.
    split; [reflexivity | exact Hst].
  - split; [reflexivity |].
    destruct (Hbad [entry] (VStr "MODIS") [VMap entry] eq_refl eq_refl)
      as (evs & Hrun & Hst).
    exists evs. split; [exact Hrun | exact Hst].
Defined.

(** A statement run and reported in a session of its own, as
    [clear_database] and [populate_database] do. *)
Lemma report_statement_eq (W : world) (query message : string)
  (h : list event) :
  with_session W
    (result <- session_run W query [] ;;
     Neo4jSetup.raise_failure result ;;;
     print message) h =
  match session_failure W h with
  | Some cause => (h, inl (Error cause))
  | None =>
      match failure (store W (h ++ [SessionOpen]) query []) with
      | Some cause =>
          ((h ++ [SessionOpen; Run query []; SessionClose])%list,
           inl (Error cause))
      | None =>
          ((h ++ [SessionOpen; Run query []; Print message;
                  SessionClose])%list,
           inr tt)
      end
  end.
Proof.
  unfold with_session, session_open. unfold bind at 1.
  destruct (session_failure W h) as [cause|]; [reflexivity |].
  unfold try_finally, bind, session_run, Neo4jSetup.raise_failure, raise,
    ret, print, emit.
  destruct (failure _); repeat rewrite <- app_assoc; reflexivity.
Qed.

(** [verify_setup] only adds to the history; when it returns, it has run
    the two count statements in one session and reported once. *)
Lemma verify_setup_returns (W : world) (h : list event) :
  exists evs r,
    Neo4jAdmin.verify_setup W h = ((h ++ evs)%list, r) /\
    (r = inr tt ->
     exists report,
       evs = [SessionOpen; Run Neo4jAdmin.node_count_query [];
              Run Neo4jAdmin.rel_count_query []; Print report;
              SessionClose]).
Proof.
  unfold Neo4jAdmin.verify_setup, with_session, session_open.
  unfold bind at 1.
  destruct (session_failure W h) as [cause|].
  { exists [], (inl (Error cause)). rewrite app_nil_r.
    split; [reflexivity | discriminate]. }
  unfold try_finally.
  unfold bind at 1. unfold Neo4jAdmin.single_count at 1.
  unfold bind at 1. unfold session_run at 1.
  unfold bind at 1. unfold lift at 1.
  destruct (Neo4jSetup.single _) as [e | [r1|]];
    try (unfold raise, emit; do 2 eexists;
         split; [repeat rewrite <- app_assoc; reflexivity | discriminate]).
  unfold lift at 1.
  destruct (BackendApi.getitem r1 "count") as [e | n];
    [unfold emit; do 2 eexists;
     split; [repeat rewrite <- app_assoc; reflexivity | discriminate] |].
  unfold bind at 1. unfold Neo4jAdmin.single_count at 1.
  unfold bind at 1. unfold session_run at 1.
  unfold bind at 1. unfold lift at 1.
  destruct (Neo4jSetup.single _) as [e | [r2|]];
    try (unfold raise, emit; do 2 eexists;
         split; [repeat rewrite <- app_assoc; reflexivity | discriminate]).
  unfold lift at 1.
  destruct (BackendApi.getitem r2 "count") as [e | m];
    [unfold emit; do 2 eexists;
     split; [repeat rewrite <- app_assoc; reflexivity | discriminate] |].
  unfold print, emit. do 2 eexists.
  split; [repeat rewrite <- app_assoc; reflexivity |].
  intros _. eexists. reflexivity.
Qed.

(** [setup_neo4j_database], step by step up to the verification. *)
Lemma setup_neo4j_database_eq (W : world) (h : list event) :
  Neo4jAdmin.setup_neo4j_database W h =
  match session_failure W (h ++ [DriverOpen]) with
  | Some cause => ((h ++ [DriverOpen; DriverClose])%list, inl (Error cause))
  | None =>
      match failure (store W (h ++ [DriverOpen; SessionOpen])
                       Neo4jAdmin.clear_query []) with
      | Some cause =>
          ((h ++ [DriverOpen; SessionOpen; Run Neo4jAdmin.clear_query [];
                  SessionClose; DriverClose])%list,
           inl (Error cause))
      | None =>
          let h1 :=
            (h ++ [DriverOpen; SessionOpen; Run Neo4jAdmin.clear_query [];
                   Print "Database cleared successfully.";
                   SessionClose])%list in
          match session_failure W h1 with
          | Some cause => ((h1 ++ [DriverClose])%list, inl (Error cause))
          | None =>
              match failure (store W (h1 ++ [SessionOpen])
                               Neo4jAdmin.populate_query []) with
              | Some cause =>
                  ((h1 ++ [SessionOpen; Run Neo4jAdmin.populate_query [];
                           SessionClose; DriverClose])%list,
                   inl (Error cause))
              | None =>
                  let (h3, r) :=
                    Neo4jAdmin.verify_setup W
                      (h1 ++ [SessionOpen; Run Neo4jAdmin.populate_query [];
                              Print "Database populated with Citibank metadata graph.";
                              SessionClose])%list in
                  ((h3 ++ [DriverClose])%list, r)
              end
          end
      end
  end.
Proof.
  unfold Neo4jAdmin.setup_neo4j_database.
  unfold bind at 1. unfold driver_open, emit at 1.
  unfold try_finally at 1.
  unfold bind at 1. unfold Neo4jAdmin.clear_database.
  rewrite report_statement_eq.
  destruct (session_failure W (h ++ [DriverOpen])) as [cause|].
  { unfold driver_close, emit. now rewrite app_one_one. }
  cbn zeta. repeat rewrite <- app_assoc. cbn [app].
  destruct (failure (store W (h ++ [DriverOpen; SessionOpen])
                       Neo4jAdmin.clear_query [])) as [cause|].
  { unfold driver_close, emit. repeat rewrite <- app_assoc. reflexivity. }
  unfold bind at 1. unfold Neo4jAdmin.populate_database.
  rewrite report_statement_eq.
  repeat rewrite <- app_assoc. cbn [app].
  destruct (session_failure W _) as [cause|].
  { unfold driver_close, emit. repeat rewrite <- app_assoc. reflexivity. }
  destruct (failure (store W _ Neo4jAdmin.populate_query [])) as [cause|].
  { unfold driver_close, emit. repeat rewrite <- app_assoc. reflexivity. }
  destruct (Neo4jAdmin.verify_setup W _) as [h3 r].
  unfold driver_close, emit. reflexivity.
Qed.

(** X20.  [setup_neo4j_database] closes the driver it opened, last, on
    every path.  When the database cannot be cleared - the session does
    not open, or the clearing statement fails - nothing is created: the
    setup stops there with the store's error.  When it returns, it has
    cleared, populated and verified, in this order, each in a session of
    its own. *)
Theorem setup_neo4j_database_outcomes (W : world) (h : list event) :
  (exists evs r,
      Neo4jAdmin.setup_neo4j_database W h =
      ((h ++ DriverOpen :: evs ++ [DriverClose])%list, r)) /\
  (forall cause,
      session_failure W (h ++ [DriverOpen]) = Some cause ->
      Neo4jAdmin.setup_neo4j_database W h =
      ((h ++ [DriverOpen; DriverClose])%list, inl (Error cause))) /\
  (forall cause,
      session_failure W (h ++ [DriverOpen]) = None ->
      failure (store W (h ++ [DriverOpen; SessionOpen])
                 Neo4jAdmin.clear_query []) = Some cause ->
      Neo4jAdmin.setup_neo4j_database W h =
      ((h ++ [DriverOpen; SessionOpen; Run Neo4jAdmin.clear_query [];
              SessionClose; DriverClose])%list,
       inl (Error cause))) /\
  (forall h',
      Neo4jAdmin.setup_neo4j_database W h = (h', inr tt) ->
      exists report,
        h' = (h ++ [DriverOpen;
                    SessionOpen; Run Neo4jAdmin.clear_query [];
                    Print "Database cleared successfully."; SessionClose;
                    SessionOpen; Run Neo4jAdmin.populate_query [];
                    Print "Database populated with Citibank metadata graph.";
                    SessionClose;
                    SessionOpen; Run Neo4jAdmin.node_count_query [];
                    Run Neo4jAdmin.rel_count_query []; Print report;
                    SessionClose;
                    DriverClose])%list).
Proof.
  rewrite setup_neo4j_database_eq.
  destruct (session_failure W (h ++ [DriverOpen])) as [cause|].
  { split; [exists [], (inl (Error cause)); reflexivity |].
    split; [now intros c [= <-] |].
    split; [intros c Hc; discriminate | intros h'; discriminate]. }
  destruct (failure (store W (h ++ [DriverOpen; SessionOpen])
                       Neo4jAdmin.clear_query [])) as [cause|].
  { split.
    - exists [SessionOpen; Run Neo4jAdmin.clear_query []; SessionClose],
        (inl (Error cause)). reflexivity.
    - split; [intros c Hc; discriminate |].
      split; [now intros c _ [= <-] | intros h'; discriminate]. }
  cbn zeta.
  destruct (session_failure W _) as [cause|].
  { split.
    - exists [SessionOpen; Run Neo4jAdmin.clear_query [];
              Print "Database cleared successfully."; SessionClose],
        (inl (Error cause)).
      repeat rewrite <- app_assoc. reflexivity.
    - split; [intros c Hc; discriminate |].
      split; [intros c _ Hc; discriminate | intros h'; discriminate]. }
  destruct (failure (store W _ Neo4jAdmin.populate_query [])) as [cause|].
  { split.
    - exists [SessionOpen; Run Neo4jAdmin.clear_query [];
              Print "Database cleared successfully."; SessionClose;
              SessionOpen; Run Neo4jAdmin.populate_query []; SessionClose],
        (inl (Error cause)).
      repeat rewrite <- app_assoc. reflexivity.
    - split; [intros c Hc; discriminate |].
      split; [intros c _ Hc; discriminate | intros h'; discriminate]. }
  match goal with
  | |- context [Neo4jAdmin.verify_setup W ?h0] =>
      destruct (verify_setup_returns W h0) as (evs & r & -> & Hok)
  end.
  split.
  - exists ([SessionOpen; Run Neo4jAdmin.clear_query [];
             Print "Database cleared successfully."; SessionClose;
             SessionOpen; Run Neo4jAdmin.populate_query [];
             Print "Database populated with Citibank metadata graph.";
             SessionClose] ++ evs)%list, r.
    repeat rewrite <- app_assoc. reflexivity.
  - split; [intros c Hc; discriminate |].
    split; [intros c _ Hc; discriminate |].
    intros h' [= <- Hr]. destruct (Hok Hr) as [report ->].
    exists report. repeat rewrite <- app_assoc. reflexivity.
Qed.

Lemma setup_neo4j_database_outcomes_witness :
  let W := Examples.failing_store_world None "database is read-only" "" in
  session_failure W ([] ++ [DriverOpen]) = None /\
  run_M (Neo4jAdmin.setup_neo4j_database W) =
  ([DriverOpen; SessionOpen; Run Neo4jAdmin.clear_query []; SessionClose;
    DriverClose],
   inl (Error "database is read-only")).
Proof.
  intros W. split; [reflexivity |].
  destruct (setup_neo4j_database_outcomes W []) as (_ & _ & Hclear & _).
  exact (Hclear "database is read-only" eq_refl eq_refl).
Defined.

(** ** The catalog fetched from the NASA service *)

Section Nasa.
Import NasaCatalog.

Lemma take_length (n : nat) :
  forall s, String.length (take n s) <= n.
Proof.
  induction n as [|n IH]; intros s; [destruct s; apply le_n |].
  destruct s as [|c s]; cbn [take String.length]; [lia |].
  specialize (IH s). lia.
Qed.

Lemma endswith_app (a p : string) : PyStr.endswith (a ++ p) p = true.
Proof. unfold PyStr.endswith. rewrite rev_app. apply startswith_app. Qed.

Lemma catalog_entry_item (entry item : value) :
  catalog_entry entry = inr item -> Notions.catalog_item item.
Proof.
  unfold catalog_entry, value_get, Neo4jAdmin.get_of.
  destruct (fields_of entry) as [fields|]; [| discriminate].
  unfold and_then.
  destruct (snippet_of _) as [e | snippet] eqn:Hs; [discriminate |].
  intros [= <-]. unfold snippet_of in Hs.
  destruct (Neo4jAdmin.get_or fields "summary" _) as [| | | summary | | | |];
    try discriminate.
  injection Hs as <-. unfold Notions.catalog_item.
  do 5 eexists. split; [reflexivity |]. split.
  - rewrite str_length_app. pose proof (take_length 100 summary) as Ht.
    change (String.length "...") with 3. lia.
  - apply endswith_app.
Qed.

Lemma collect_entries_items (entries : list value) :
  forall acc out,
    collect_entries acc entries = inr out ->
    Forall Notions.catalog_item acc ->
    Forall Notions.catalog_item out /\
    List.length out = List.length acc + List.length entries.
Proof.
  induction entries as [|entry entries IH]; intros acc out;
    cbn [collect_entries].
  - intros [= <-] Hacc. split; [assumption | simpl; lia].
  - unfold and_then.
    destruct (catalog_entry entry) as [e | item] eqn:Hitem; [discriminate |].
    intros Hrest Hacc. apply IH in Hrest.
    + destruct Hrest as [Hout Hlen]. split; [assumption |].
      rewrite Hlen, length_app. simpl. lia.
    + apply Forall_app. split; [assumption |].
      constructor; [now apply (catalog_entry_item entry) | constructor].
Qed.

End Nasa.

(** X21.  [fetch_nasa_cmr_catalog] does not raise when the request fails:
    it reports the cause and returns nothing.  Whenever it returns a
    catalog after a successful request, every item has exactly the keys
    Catalog_Entry_Name, Concept_ID, Short_Name, Metadata_Source_URL and
    Summary_Snippet, in this order, with a snippet of at most 103
    characters that ends with three dots, and there is one item per entry
    of the feed.  A reply without a feed gives the empty catalog. *)
Theorem fetch_nasa_cmr_catalog_outcomes (W : world) (h : list event) :
  (forall cause,
      NasaCatalog.fetch_nasa_cmr_catalog W (inl cause) h =
      ((h ++ [Print "Fetching 5 collections from NASA CMR...";
              Print ("An error occurred during the API request: " ++ cause)])%list,
       inr VNone)) /\
  (forall response h' result,
      NasaCatalog.fetch_nasa_cmr_catalog W (inr response) h =
      (h', inr result) ->
      exists data collection entries items,
        NasaCatalog.cmr_json response = inr data /\
        NasaCatalog.feed_entries data = inr collection /\
        BackendApi.iter_items collection = inr entries /\
        result = VList items /\
        Forall Notions.catalog_item items /\
        List.length items = List.length entries) /\
  (forall hits fields,
      PyDict.get "feed" fields = None ->
      snd (NasaCatalog.fetch_nasa_cmr_catalog W
             (inr {| NasaCatalog.cmr_hits := hits;
                     NasaCatalog.cmr_json := inr (VMap fields) |}) h) =
      inr (VList [])).
Proof.
  split; [| split].
  - intros cause. unfold NasaCatalog.fetch_nasa_cmr_catalog, bind, print,
      emit, ret. now rewrite app_one_one.
  - intros response h' result.
    unfold NasaCatalog.fetch_nasa_cmr_catalog.
    unfold bind at 1. unfold print at 1. unfold emit at 1.
    unfold bind at 1. unfold lift at 1.
    destruct (NasaCatalog.cmr_json response) as [cause | data];
      [discriminate |].
    unfold bind at 1. unfold lift at 1.
    destruct (NasaCatalog.feed_entries data) as [e | collection] eqn:Hfeed;
      [discriminate |].
    unfold bind at 1. unfold print at 1. unfold emit at 1.
    unfold bind at 1. unfold lift at 1.
    destruct (NasaCatalog.len_of collection) as [e | count];
      [discriminate |].
    unfold bind at 1. unfold print at 1. unfold emit at 1.
    unfold bind at 1. unfold print at 1. unfold emit at 1.
    unfold bind at 1. unfold lift at 1.
    destruct (BackendApi.iter_items collection) as [e | entries] eqn:Hiter;
      [discriminate |].
    unfold bind at 1. unfold lift at 1.
    destruct (NasaCatalog.collect_entries [] entries) as [e | items] eqn:Hc;
      [discriminate |].
    unfold bind, print, emit, ret. intros [= _ <-].
    apply collect_entries_items in Hc; [| constructor].
    destruct Hc as [Hitems Hlen].
    exists data, collection, entries, items.
    repeat split; try reflexivity; assumption.
  - intros hits fields Hfeed.
    unfold NasaCatalog.fetch_nasa_cmr_catalog, bind, print, emit, lift, ret.
    cbn [NasaCatalog.cmr_json NasaCatalog.cmr_hits].
    unfold NasaCatalog.feed_entries, NasaCatalog.value_get,
      Neo4jAdmin.get_of, Neo4jAdmin.get_or.
    cbn [fields_of and_then]. rewrite Hfeed. reflexivity.
Qed.

Lemma fetch_nasa_cmr_catalog_outcomes_witness :
  let W := Examples.quiet_world None [] "" in
  let error_reply :=
    {| NasaCatalog.cmr_hits := None;
       NasaCatalog.cmr_json := inr (VMap [("errors", VList [])]) |} in
  PyDict.get "feed" [("errors", VList [])] = None /\
  snd (NasaCatalog.fetch_nasa_cmr_catalog W (inr error_reply) []) =
  inr (VList []).
Proof.
  intros W error_reply. split; [reflexivity |].
  apply (proj2 (proj2 (fetch_nasa_cmr_catalog_outcomes W []))). reflexivity.
Defined.

(** X22.  How a fetched item is ingested: the concept id under which
    [ingest_catalog_data] merges the item is the entry's [id] when that is
    a true value, and the text [N/A] when the entry has no [id] - never the
    numbered [unknown-i] - so entries without an id are all merged into one
    node; and the summary parameter is the snippet. *)
Theorem fetched_item_parameters (i : nat)
  (entry item : list (string * value)) :
  NasaCatalog.catalog_entry (VMap entry) = inr (VMap item) ->
  (PyDict.get "id" entry = None ->
   Neo4jAdmin.concept_id_of i item = VStr "N/A") /\
  (forall v,
      PyDict.get "id" entry = Some v -> Neo4jAdmin.truthy v = true ->
      Neo4jAdmin.concept_id_of i item = v) /\
  exists snippet,
    PyDict.get "Summary_Snippet" item = Some (VStr snippet) /\
    In ("summary_snippet", VStr snippet) (Neo4jAdmin.dataset_params i item).
Proof.
  unfold NasaCatalog.catalog_entry, NasaCatalog.value_get,
    Neo4jAdmin.get_of.
  cbn [fields_of and_then].
  destruct (NasaCatalog.snippet_of _) as [e | snippet] eqn:Hs;
    [discriminate |].
  intros [= <-]. unfold NasaCatalog.snippet_of in Hs.
  destruct (Neo4jAdmin.get_or entry "summary" _) as [| | | summary | | | |];
    try discriminate.
  injection Hs as <-.
  match goal with
  | |- context [Neo4jAdmin.concept_id_of i ?it] => set (item := it)
  end.
  assert (Hc : Neo4jAdmin.get_or item "Concept_ID" VNone =
               Neo4jAdmin.get_or entry "id" (VStr "N/A")) by reflexivity.
  unfold Neo4jAdmin.concept_id_of. cbn [Neo4jAdmin.or_gets]. rewrite Hc.
  split; [| split].
  - intros Hid.
    assert (Hget : Neo4jAdmin.get_or entry "id" (VStr "N/A") = VStr "N/A")
      by (unfold Neo4jAdmin.get_or; now rewrite Hid).
    rewrite Hget. reflexivity.
  - intros v Hid Hv.
    assert (Hget : Neo4jAdmin.get_or entry "id" (VStr "N/A") = v)
      by (unfold Neo4jAdmin.get_or; now rewrite Hid).
    rewrite Hget, Hv. reflexivity.
  - eexists. split; [reflexivity |].
    unfold Neo4jAdmin.dataset_params. do 4 right. left. f_equal.
    cbn [Neo4jAdmin.or_gets].
    change (Neo4jAdmin.get_or item "Summary_Snippet" VNone)
      with (VStr (NasaCatalog.take 100 summary ++ "...")).
    destruct (NasaCatalog.take 100 summary); reflexivity.
Qed.

Lemma fetched_item_parameters_witness :
  let entry := [("short_name", VStr "MOD09"); ("summary", VStr "Surface reflectance")] in
  let item :=
    [ ("Catalog_Entry_Name", VStr "N/A");
      ("Concept_ID", VStr "N/A");
      ("Short_Name", VStr "MOD09");
      ("Metadata_Source_URL", VStr "N/A");
      ("Summary_Snippet", VStr "Surface reflectance...") ] in
  NasaCatalog.catalog_entry (VMap entry) = inr (VMap item) /\
  PyDict.get "id" entry = None /\
  Neo4jAdmin.concept_id_of 3 item = VStr "N/A".
Proof.
  intros entry item.
  assert (Hitem : NasaCatalog.catalog_entry (VMap entry) = inr (VMap item))
    by reflexivity.
  split; [exact Hitem |]. split; [reflexivity |].
  apply (proj1 (fetched_item_parameters 3 entry item Hitem)). reflexivity.
Defined.
